(** * The composite environment: legacy file handles over the FileSystem API

    A shallow embedding of [env/composite_env.cc].  The file defines five
    wrapper classes, each implementing one legacy file interface on top of
    a handle of the FileSystem API, and the creation methods of
    [CompositeEnv], which open a FileSystem handle and wrap it.

    The FileSystem handles are abstract C++ interfaces implemented
    elsewhere.  A call through such an interface is therefore an
    observable action of the code: the embedding records which handle is
    called, with which method and which arguments, and continues with
    whatever the implementation answers.  Properties are stated for every
    implementation ([backend]) of the FileSystem side. *)

From stdpp Require Import base list vector strings.

(** ** Scalars and pointers *)

(** [size_t] and [uint64_t] carry no arithmetic in this file apart from the
    loop counters of [MultiRead]; they are natural numbers. *)
Definition size_t := N.
Definition uint64_t := N.

(** A [char*]: the address of a caller-owned buffer.  The wrappers never
    read or write through it, they hand it to the FileSystem handle. *)
Definition char_ptr := N.

(** [std::unique_ptr<T>]: empty, or the single owner of one object. *)
Definition unique_ptr (T : Type) : Type := option T.
Definition nullptr {T : Type} : unique_ptr T := None.

(** [std::unique_ptr<T> dst(std::move(src))]: the moved-to pointer takes
    what [src] held and [src] is left empty.  Returns [(dst, src)]. *)
Definition std_move {T : Type} (src : unique_ptr T)
  : unique_ptr T * unique_ptr T :=
  (src, nullptr).

(** [&object.member]: the address of a member of type [A] inside an
    object of class [W].  Whoever holds it reads the member with [load]
    and assigns it with [store]; the rest of the object is out of its
    reach. *)
Record member_ptr (W A : Type) : Type :=
  mkMemberPtr { load : W -> A; store : A -> W -> W }.
Arguments mkMemberPtr {W A} load store.
Arguments load {W A} _ _.
Arguments store {W A} _ _ _.

(** [~unique_ptr()]: a pointer that owns an object deletes it.  Returns
    the objects deleted. *)
Definition unique_ptr_dtor {T : Type} (p : unique_ptr T) : list T :=
  match p with
  | Some object => [object]
  | None => []
  end.

(** ** Value types declared in the headers *)

(** Modelled from the spec: [Slice] is declared in a header that is not
    part of the sources; it is a view of bytes, a start address and a
    length.  A default-constructed slice is empty. *)
Record Slice : Type := mkSlice { data_ : char_ptr; size_ : size_t }.
Definition Slice_ctor : Slice := {| data_ := 0%N; size_ := 0%N |}.

Module Status.
(** Modelled from the spec: the kinds of status.  The status type is
    declared in a header that is not part of the sources; a status has a
    kind and a message, and success is one of the kinds. *)
Inductive Code : Type :=
| kOk | kNotFound | kCorruption | kNotSupported | kInvalidArgument
| kIOError | kTimedOut | kAborted | kBusy.

(** Modelled from the spec: a status, its kind and its message. *)
Record t : Type := mk { code : Code; state : string }.

(** [Status()] and [Status::OK()]. *)
Definition OK : t := {| code := kOk; state := "" |}.

Definition ok (s : t) : bool :=
  match code s with kOk => true | _ => false end.
End Status.
Abbreviation Status := Status.t.

Module IOStatus.
(** Modelled from the spec: [IOStatus], declared in a header that is not
    part of the sources, derives from [Status] and adds no state of its
    own, so returning an [IOStatus] where a [Status] is expected copies
    the status as it is (the FileSystem status is the legacy status). *)
Definition t : Type := Status.t.
Definition OK : t := Status.OK.
End IOStatus.
Abbreviation IOStatus := IOStatus.t.

(** Modelled from the spec: the per-call options of the FileSystem API,
    declared in a header that is not part of the sources.  The spec names
    a deadline and a rate-limiter priority; the default-constructed value
    carries neither. *)
Record IOOptions : Type :=
  mkIOOptions { deadline : option N; priority : option N }.
Definition IOOptions_ctor : IOOptions :=
  {| deadline := None; priority := None |}.

(** Modelled from the spec: the per-call debug context, an output
    parameter of the FileSystem calls, declared in a header that is not
    part of the sources.  The default-constructed value is empty. *)
Record IODebugContext : Type := mkIODebugContext { dbg_msg : list string }.
Definition IODebugContext_ctor : IODebugContext := {| dbg_msg := [] |}.

(** Modelled from the spec: the verification payload of the verified
    append calls, a checksum over the appended data. *)
Record DataVerificationInfo : Type :=
  mkDataVerificationInfo { checksum : Slice }.

Module DirFsyncOptions.
(** Modelled from the spec: the directory-fsync variants of the
    FileSystem API, declared in a header that is not part of the
    sources: why the directory is synced, the default being no special
    reason. *)
Inductive FsyncReason : Type :=
| kNewFileSynced | kFileRenamed | kDirRenamed | kFileDeleted | kDefault.

(** Modelled from the spec: the directory-fsync options.  The
    default-constructed value asks for the default behaviour, with no
    special reason and no renamed file. *)
Record t : Type := mk { reason : FsyncReason; renamed_new_name : string }.

Definition ctor : t := {| reason := kDefault; renamed_new_name := "" |}.
End DirFsyncOptions.
Abbreviation DirFsyncOptions := DirFsyncOptions.t.

(** Modelled from the spec: the legacy open options, declared in a header
    that is not part of the sources.  Only their identity matters here. *)
Record EnvOptions : Type :=
  mkEnvOptions {
    use_mmap_reads : bool;
    use_mmap_writes : bool;
    use_direct_reads : bool;
    use_direct_writes : bool;
    bytes_per_sync : uint64_t
  }.

(** Modelled from the spec: the open options of the FileSystem API extend
    the legacy ones with per-call options; [FileOptions(options)] keeps
    the legacy options and default-constructs the rest. *)
Record FileOptions : Type :=
  mkFileOptions { env_options : EnvOptions; io_options : IOOptions }.
Definition FileOptions_ctor (opts : EnvOptions) : FileOptions :=
  {| env_options := opts; io_options := IOOptions_ctor |}.

Module ReadRequest.
(** Modelled from the spec: one element of a legacy batched read, declared
    in a header that is not part of the sources: offset, length and
    destination buffer, and the result slice and status it carries
    back. *)
Record t : Type := mk {
  offset : uint64_t;
  len : size_t;
  scratch : char_ptr;
  result : Slice;
  status : Status
}.
End ReadRequest.
Abbreviation ReadRequest := ReadRequest.t.

Module FSReadRequest.
(** Modelled from the spec: one element of a FileSystem batched read,
    declared in a header that is not part of the sources, of the same
    shape as the legacy one. *)
Record t : Type := mk {
  offset : uint64_t;
  len : size_t;
  scratch : char_ptr;
  result : Slice;
  status : IOStatus
}.
(** The value-initialised element that [std::vector::resize] appends. *)
Definition ctor : t :=
  {| offset := 0%N; len := 0%N; scratch := 0%N;
     result := Slice_ctor; status := IOStatus.OK |}.
End FSReadRequest.
Abbreviation FSReadRequest := FSReadRequest.t.

(** Modelled from the spec: the write-lifetime hint, one enumeration
    shared by the legacy and the FileSystem side. *)
Inductive WriteLifeTimeHint : Type :=
| WLTH_NOT_SET | WLTH_NONE | WLTH_SHORT | WLTH_MEDIUM | WLTH_LONG
| WLTH_EXTREME.

(** Modelled from the spec: the access-pattern enumerations of the two
    sides share one ordinal space; each is represented by its ordinal. *)
Record AccessPattern : Type := mkAccessPattern { pattern_ordinal : N }.
Record FSAccessPattern : Type := mkFSAccessPattern { fs_pattern_ordinal : N }.

(** The C-style cast [(FSRandomAccessFile::AccessPattern)pattern]. *)
Definition cast_AccessPattern (pattern : AccessPattern) : FSAccessPattern :=
  {| fs_pattern_ordinal := pattern_ordinal pattern |}.

(** ** The FileSystem API

    The abstract classes of the FileSystem side are declared in a header
    that is not part of the sources; their signatures are read off the
    calls this file makes.  One module per class: the type [t] of its
    objects (an object is identified by its address) and the signature
    [method] of the virtual functions this file calls, indexed by what a
    call hands back: the returned value followed by the final contents
    of every output parameter. *)

Module FSSequentialFile.
Inductive t : Type := At (addr : N).

Inductive method : Type -> Type :=
| Read (n : size_t) (options : IOOptions) (result : Slice)
       (scratch : char_ptr) (dbg : IODebugContext)
  : method (IOStatus * Slice * IODebugContext)
| Skip (n : uint64_t) : method IOStatus
| use_direct_io : method bool
| GetRequiredBufferAlignment : method size_t
| InvalidateCache (offset length : size_t) : method IOStatus
| PositionedRead (offset : uint64_t) (n : size_t) (options : IOOptions)
                 (result : Slice) (scratch : char_ptr)
                 (dbg : IODebugContext)
  : method (IOStatus * Slice * IODebugContext).
End FSSequentialFile.
Abbreviation FSSequentialFile := FSSequentialFile.t.

Module FSRandomAccessFile.
Inductive t : Type := At (addr : N).

(** [MultiRead] receives the address of the first element of the
    request array: the implementation may rewrite the elements in
    place but cannot change how many there are. *)
Inductive method : Type -> Type :=
| Read (offset : uint64_t) (n : size_t) (options : IOOptions)
       (result : Slice) (scratch : char_ptr) (dbg : IODebugContext)
  : method (IOStatus * Slice * IODebugContext)
| MultiRead (reqs : list FSReadRequest) (num_reqs : size_t)
            (options : IOOptions) (dbg : IODebugContext)
  : method (IOStatus * vec FSReadRequest (length reqs) * IODebugContext)
| Prefetch (offset : uint64_t) (n : size_t) (options : IOOptions)
           (dbg : IODebugContext)
  : method (IOStatus * IODebugContext)
| GetUniqueId (id : char_ptr) (max_size : size_t) : method size_t
| Hint (pattern : FSAccessPattern) : method unit
| use_direct_io : method bool
| GetRequiredBufferAlignment : method size_t
| InvalidateCache (offset length : size_t) : method IOStatus.
End FSRandomAccessFile.
Abbreviation FSRandomAccessFile := FSRandomAccessFile.t.

Module FSWritableFile.
Inductive t : Type := At (addr : N).

Inductive method : Type -> Type :=
| Append (data : Slice) (options : IOOptions) (dbg : IODebugContext)
  : method (IOStatus * IODebugContext)
| AppendVerified (data : Slice) (options : IOOptions)
                 (verification_info : DataVerificationInfo)
                 (dbg : IODebugContext)
  : method (IOStatus * IODebugContext)
| PositionedAppend (data : Slice) (offset : uint64_t)
                   (options : IOOptions) (dbg : IODebugContext)
  : method (IOStatus * IODebugContext)
| PositionedAppendVerified (data : Slice) (offset : uint64_t)
                           (options : IOOptions)
                           (verification_info : DataVerificationInfo)
                           (dbg : IODebugContext)
  : method (IOStatus * IODebugContext)
| Truncate (size : uint64_t) (options : IOOptions) (dbg : IODebugContext)
  : method (IOStatus * IODebugContext)
| Close (options : IOOptions) (dbg : IODebugContext)
  : method (IOStatus * IODebugContext)
| Flush (options : IOOptions) (dbg : IODebugContext)
  : method (IOStatus * IODebugContext)
| Sync (options : IOOptions) (dbg : IODebugContext)
  : method (IOStatus * IODebugContext)
| Fsync (options : IOOptions) (dbg : IODebugContext)
  : method (IOStatus * IODebugContext)
| IsSyncThreadSafe : method bool
| use_direct_io : method bool
| GetRequiredBufferAlignment : method size_t
| SetWriteLifeTimeHint (hint : WriteLifeTimeHint) : method unit
| GetWriteLifeTimeHint : method WriteLifeTimeHint
| GetFileSize (options : IOOptions) (dbg : IODebugContext)
  : method (uint64_t * IODebugContext)
| SetPreallocationBlockSize (size : size_t) : method unit
| GetPreallocationStatus (block_size last_allocated_block : size_t)
  : method (size_t * size_t)
| GetUniqueId (id : char_ptr) (max_size : size_t) : method size_t
| InvalidateCache (offset length : size_t) : method IOStatus
| RangeSync (offset nbytes : uint64_t) (options : IOOptions)
            (dbg : IODebugContext)
  : method (IOStatus * IODebugContext)
| PrepareWrite (offset len : size_t) (options : IOOptions)
               (dbg : IODebugContext)
  : method IODebugContext
| Allocate (offset len : uint64_t) (options : IOOptions)
           (dbg : IODebugContext)
  : method (IOStatus * IODebugContext).
End FSWritableFile.
Abbreviation FSWritableFile := FSWritableFile.t.

Module FSRandomRWFile.
Inductive t : Type := At (addr : N).

Inductive method : Type -> Type :=
| use_direct_io : method bool
| GetRequiredBufferAlignment : method size_t
| Write (offset : uint64_t) (data : Slice) (options : IOOptions)
        (dbg : IODebugContext)
  : method (IOStatus * IODebugContext)
| Read (offset : uint64_t) (n : size_t) (options : IOOptions)
       (result : Slice) (scratch : char_ptr) (dbg : IODebugContext)
  : method (IOStatus * Slice * IODebugContext)
| Flush (options : IOOptions) (dbg : IODebugContext)
  : method (IOStatus * IODebugContext)
| Sync (options : IOOptions) (dbg : IODebugContext)
  : method (IOStatus * IODebugContext)
| Fsync (options : IOOptions) (dbg : IODebugContext)
  : method (IOStatus * IODebugContext)
| Close (options : IOOptions) (dbg : IODebugContext)
  : method (IOStatus * IODebugContext).
End FSRandomRWFile.
Abbreviation FSRandomRWFile := FSRandomRWFile.t.

Module FSDirectory.
Inductive t : Type := At (addr : N).

Inductive method : Type -> Type :=
| FsyncWithDirOptions (options : IOOptions) (dbg : IODebugContext)
                      (dir_fsync_options : DirFsyncOptions)
  : method (IOStatus * IODebugContext)
| GetUniqueId (id : char_ptr) (max_size : size_t) : method size_t.
End FSDirectory.
Abbreviation FSDirectory := FSDirectory.t.

Module FileSystem.
Inductive t : Type := At (addr : N).

Inductive method : Type -> Type :=
| NewSequentialFile (fname : string) (file_opts : FileOptions)
                    (result : unique_ptr FSSequentialFile)
                    (dbg : IODebugContext)
  : method (IOStatus * unique_ptr FSSequentialFile * IODebugContext)
| NewRandomAccessFile (fname : string) (file_opts : FileOptions)
                      (result : unique_ptr FSRandomAccessFile)
                      (dbg : IODebugContext)
  : method (IOStatus * unique_ptr FSRandomAccessFile * IODebugContext)
| NewWritableFile (fname : string) (file_opts : FileOptions)
                  (result : unique_ptr FSWritableFile)
                  (dbg : IODebugContext)
  : method (IOStatus * unique_ptr FSWritableFile * IODebugContext)
| ReopenWritableFile (fname : string) (file_opts : FileOptions)
                     (result : unique_ptr FSWritableFile)
                     (dbg : IODebugContext)
  : method (IOStatus * unique_ptr FSWritableFile * IODebugContext)
| ReuseWritableFile (fname old_fname : string) (file_opts : FileOptions)
                    (result : unique_ptr FSWritableFile)
                    (dbg : IODebugContext)
  : method (IOStatus * unique_ptr FSWritableFile * IODebugContext)
| NewRandomRWFile (fname : string) (file_opts : FileOptions)
                  (result : unique_ptr FSRandomRWFile)
                  (dbg : IODebugContext)
  : method (IOStatus * unique_ptr FSRandomRWFile * IODebugContext)
| NewDirectory (name : string) (io_opts : IOOptions)
               (result : unique_ptr FSDirectory) (dbg : IODebugContext)
  : method (IOStatus * unique_ptr FSDirectory * IODebugContext).
End FileSystem.
Abbreviation FileSystem := FileSystem.t.

(** A call [target->m(args)] through a FileSystem-side interface: the
    receiver and the method with its arguments. *)
Inductive FSCall : Type -> Type :=
| OnSequentialFile {X} (target : FSSequentialFile)
                   (m : FSSequentialFile.method X) : FSCall X
| OnRandomAccessFile {X} (target : FSRandomAccessFile)
                     (m : FSRandomAccessFile.method X) : FSCall X
| OnWritableFile {X} (target : FSWritableFile)
                 (m : FSWritableFile.method X) : FSCall X
| OnRandomRWFile {X} (target : FSRandomRWFile)
                 (m : FSRandomRWFile.method X) : FSCall X
| OnDirectory {X} (target : FSDirectory)
              (m : FSDirectory.method X) : FSCall X
| OnFileSystem {X} (target : FileSystem)
               (m : FileSystem.method X) : FSCall X.

(** ** Programs over the FileSystem API *)

(** What a legacy method body does: it returns, it dereferences an empty
    pointer or indexes an array out of bounds (undefined behaviour), or
    it calls the FileSystem side and goes on with the answer.  From
    undefined behaviour on, the embedding follows the program no
    further: it says nothing of what a run does from there. *)
Inductive io (R : Type) : Type :=
| Ret (r : R)
| UB
| Call {X : Type} (c : FSCall X) (k : X -> io R).
Arguments Ret {R} r.
Arguments UB {R}.
Arguments Call {R X} c k.

Fixpoint io_bind {A B : Type} (f : A -> io B) (m : io A) : io B :=
  match m with
  | Ret a => f a
  | UB => UB
  | Call c k => Call c (fun x => io_bind f (k x))
  end.

(** A member function of a class [W] returning [R]: it runs on the object
    [this] and leaves the object in a new state. *)
Definition method (W R : Type) : Type := W -> io (R * W).

#[global] Instance method_ret (W : Type) : MRet (method W) :=
  fun R r this => Ret (r, this).
#[global] Instance method_bind (W : Type) : MBind (method W) :=
  fun A B f m this => io_bind (fun '(a, this') => f a this') (m this).

(** Undefined behaviour inside a member function. *)
Definition undefined {W R : Type} : method W R := fun _ => UB.

(** [field->...]: read a pointer member of [this] and dereference it. *)
Definition deref {W T : Type} (field : W -> unique_ptr T) : method W T :=
  fun this =>
    match field this with
    | Some target => Ret (target, this)
    | None => UB
    end.

(** [a[i]] on a C array or [std::vector]: out of bounds is undefined. *)
Definition index {W A : Type} (a : list A) (i : nat) : method W A :=
  match a !! i with
  | Some x => mret x
  | None => undefined
  end.

(** A call of the FileSystem side from inside a member function. *)
Definition call {W X : Type} (c : FSCall X) : method W X :=
  fun this => Call c (fun x => Ret (x, this)).

(** [for (size_t i = from; i < from + count; ++i) body], threading the
    variables [a] the body assigns. *)
Fixpoint for_loop {W A : Type} (count : nat) (i : nat)
         (body : nat -> A -> method W A) (a : A) : method W A :=
  match count with
  | O => mret a
  | S count' => a' ← body i a; for_loop count' (S i) body a'
  end.

(** ** Running a program against an implementation of the FileSystem API *)

(** An implementation answers every call from its own state [S]. *)
Definition backend (S : Type) : Type := forall X : Type, FSCall X -> S -> X * S.

(** A call that was made, whatever its answer type. *)
Record FSEvent : Type :=
  Event { event_type : Type; event_call : FSCall event_type }.
Arguments Event {event_type} event_call.

Record outcome (R S : Type) : Type := mkOutcome {
  returned : option R;      (* [None]: undefined behaviour *)
  final : S;                (* the implementation's state afterwards *)
  trace : list FSEvent      (* the calls made, in order *)
}.
Arguments mkOutcome {R S} returned final trace.
Arguments returned {R S} o.
Arguments final {R S} o.
Arguments trace {R S} o.

Fixpoint run {S R : Type} (b : backend S) (p : io R) (s : S) : outcome R S :=
  match p with
  | Ret r => mkOutcome (Some r) s []
  | UB => mkOutcome None s []
  | Call c k =>
      let '(x, s') := b _ c s in
      let o := run b (k x) s' in
      mkOutcome (returned o) (final o) (Event c :: trace o)
  end.

(** ** The legacy interfaces

    The signature of each legacy abstract class, as far as the wrappers
    override it.  An output parameter ([Slice* result], the request array
    of [MultiRead], the two counters of [GetPreallocationStatus]) is
    passed with its contents before the call and handed back with its
    contents after it. *)

Module SequentialFile.
Inductive method : Type -> Type :=
| Read (n : size_t) (result : Slice) (scratch : char_ptr)
  : method (Status * Slice)
| Skip (n : uint64_t) : method Status
| use_direct_io : method bool
| GetRequiredBufferAlignment : method size_t
| InvalidateCache (offset length : size_t) : method Status
| PositionedRead (offset : uint64_t) (n : size_t) (result : Slice)
                 (scratch : char_ptr)
  : method (Status * Slice).
End SequentialFile.

Module RandomAccessFile.
Inductive method : Type -> Type :=
| Read (offset : uint64_t) (n : size_t) (result : Slice)
       (scratch : char_ptr)
  : method (Status * Slice)
| MultiRead (reqs : list ReadRequest) (num_reqs : size_t)
  : method (Status * list ReadRequest)
| Prefetch (offset : uint64_t) (n : size_t) : method Status
| GetUniqueId (id : char_ptr) (max_size : size_t) : method size_t
| Hint (pattern : AccessPattern) : method unit
| use_direct_io : method bool
| GetRequiredBufferAlignment : method size_t
| InvalidateCache (offset length : size_t) : method Status.
End RandomAccessFile.

Module WritableFile.
Inductive method : Type -> Type :=
| Append (data : Slice) : method Status
| AppendVerified (data : Slice)
                 (verification_info : DataVerificationInfo)
  : method Status
| PositionedAppend (data : Slice) (offset : uint64_t) : method Status
| PositionedAppendVerified (data : Slice) (offset : uint64_t)
                           (verification_info : DataVerificationInfo)
  : method Status
| Truncate (size : uint64_t) : method Status
| Close : method Status
| Flush : method Status
| Sync : method Status
| Fsync : method Status
| IsSyncThreadSafe : method bool
| use_direct_io : method bool
| GetRequiredBufferAlignment : method size_t
| SetWriteLifeTimeHint (hint : WriteLifeTimeHint) : method unit
| GetWriteLifeTimeHint : method WriteLifeTimeHint
| GetFileSize : method uint64_t
| SetPreallocationBlockSize (size : size_t) : method unit
| GetPreallocationStatus (block_size last_allocated_block : size_t)
  : method (size_t * size_t)
| GetUniqueId (id : char_ptr) (max_size : size_t) : method size_t
| InvalidateCache (offset length : size_t) : method Status
| RangeSync (offset nbytes : uint64_t) : method Status
| PrepareWrite (offset len : size_t) : method unit
| Allocate (offset len : uint64_t) : method Status.
End WritableFile.

Module RandomRWFile.
Inductive method : Type -> Type :=
| use_direct_io : method bool
| GetRequiredBufferAlignment : method size_t
| Write (offset : uint64_t) (data : Slice) : method Status
| Read (offset : uint64_t) (n : size_t) (result : Slice)
       (scratch : char_ptr)
  : method (Status * Slice)
| Flush : method Status
| Sync : method Status
| Fsync : method Status
| Close : method Status.
End RandomRWFile.

Module Directory.
Inductive method : Type -> Type :=
| Fsync : method Status
| GetUniqueId (id : char_ptr) (max_size : size_t) : method size_t.
End Directory.

(** ** The wrapper classes *)

Module CompositeSequentialFileWrapper.
Record t : Type := mk { target_ : unique_ptr FSSequentialFile }.

(** The constructor takes the caller's pointer by reference and moves
    from it; the second component is the caller's pointer afterwards. *)
Definition ctor (target : unique_ptr FSSequentialFile)
  : t * unique_ptr FSSequentialFile :=
  let '(moved, target) := std_move target in
  ({| target_ := moved |}, target).

Definition Read (n : size_t) (result : Slice) (scratch : char_ptr)
  : method t (Status * Slice) :=
  let io_opts := IOOptions_ctor in
  let dbg := IODebugContext_ctor in
  target ← deref target_;
  '(s, result, dbg) ←
    call (OnSequentialFile target
            (FSSequentialFile.Read n io_opts result scratch dbg));
  mret (s, result).

Definition Skip (n : uint64_t) : method t Status :=
  target ← deref target_;
  call (OnSequentialFile target (FSSequentialFile.Skip n)).

Definition use_direct_io : method t bool :=
  target ← deref target_;
  call (OnSequentialFile target FSSequentialFile.use_direct_io).

Definition GetRequiredBufferAlignment : method t size_t :=
  target ← deref target_;
  call (OnSequentialFile target FSSequentialFile.GetRequiredBufferAlignment).

Definition InvalidateCache (offset length : size_t) : method t Status :=
  target ← deref target_;
  call (OnSequentialFile target
          (FSSequentialFile.InvalidateCache offset length)).

Definition PositionedRead (offset : uint64_t) (n : size_t) (result : Slice)
           (scratch : char_ptr) : method t (Status * Slice) :=
  let io_opts := IOOptions_ctor in
  let dbg := IODebugContext_ctor in
  target ← deref target_;
  '(s, result, dbg) ←
    call (OnSequentialFile target
            (FSSequentialFile.PositionedRead offset n io_opts result
               scratch dbg));
  mret (s, result).

(** Virtual dispatch: the override that answers each legacy method. *)
Definition invoke {X : Type} (m : SequentialFile.method X) : method t X :=
  match m in SequentialFile.method X return method t X with
  | SequentialFile.Read n result scratch => Read n result scratch
  | SequentialFile.Skip n => Skip n
  | SequentialFile.use_direct_io => use_direct_io
  | SequentialFile.GetRequiredBufferAlignment => GetRequiredBufferAlignment
  | SequentialFile.InvalidateCache offset length =>
      InvalidateCache offset length
  | SequentialFile.PositionedRead offset n result scratch =>
      PositionedRead offset n result scratch
  end.
End CompositeSequentialFileWrapper.

Module CompositeRandomAccessFileWrapper.
Record t : Type := mk { target_ : unique_ptr FSRandomAccessFile }.

Definition ctor (target : unique_ptr FSRandomAccessFile)
  : t * unique_ptr FSRandomAccessFile :=
  let '(moved, target) := std_move target in
  ({| target_ := moved |}, target).

Definition Read (offset : uint64_t) (n : size_t) (result : Slice)
           (scratch : char_ptr) : method t (Status * Slice) :=
  let io_opts := IOOptions_ctor in
  let dbg := IODebugContext_ctor in
  target ← deref target_;
  '(s, result, dbg) ←
    call (OnRandomAccessFile target
            (FSRandomAccessFile.Read offset n io_opts result scratch dbg));
  mret (s, result).

(** The body of the first loop of [MultiRead], at index [i]. *)
Definition fill_request (reqs : list ReadRequest) (i : nat)
           (fs_reqs : list FSReadRequest) : method t (list FSReadRequest) :=
  req ← index reqs i;
  fs_req ← index fs_reqs i;
  let fs_req :=
    {| FSReadRequest.offset := ReadRequest.offset req;
       FSReadRequest.len := FSReadRequest.len fs_req;
       FSReadRequest.scratch := FSReadRequest.scratch fs_req;
       FSReadRequest.result := FSReadRequest.result fs_req;
       FSReadRequest.status := FSReadRequest.status fs_req |} in
  let fs_req :=
    {| FSReadRequest.offset := FSReadRequest.offset fs_req;
       FSReadRequest.len := ReadRequest.len req;
       FSReadRequest.scratch := FSReadRequest.scratch fs_req;
       FSReadRequest.result := FSReadRequest.result fs_req;
       FSReadRequest.status := FSReadRequest.status fs_req |} in
  let fs_req :=
    {| FSReadRequest.offset := FSReadRequest.offset fs_req;
       FSReadRequest.len := FSReadRequest.len fs_req;
       FSReadRequest.scratch := ReadRequest.scratch req;
       FSReadRequest.result := FSReadRequest.result fs_req;
       FSReadRequest.status := FSReadRequest.status fs_req |} in
  let fs_req :=
    {| FSReadRequest.offset := FSReadRequest.offset fs_req;
       FSReadRequest.len := FSReadRequest.len fs_req;
       FSReadRequest.scratch := FSReadRequest.scratch fs_req;
       FSReadRequest.result := FSReadRequest.result fs_req;
       FSReadRequest.status := IOStatus.OK |} in
  mret (<[i := fs_req]> fs_reqs).

(** The body of the second loop of [MultiRead], at index [i]. *)
Definition copy_back (fs_reqs : list FSReadRequest) (i : nat)
           (reqs : list ReadRequest) : method t (list ReadRequest) :=
  fs_req ← index fs_reqs i;
  req ← index reqs i;
  let req :=
    {| ReadRequest.offset := ReadRequest.offset req;
       ReadRequest.len := ReadRequest.len req;
       ReadRequest.scratch := ReadRequest.scratch req;
       ReadRequest.result := FSReadRequest.result fs_req;
       ReadRequest.status := ReadRequest.status req |} in
  let req :=
    {| ReadRequest.offset := ReadRequest.offset req;
       ReadRequest.len := ReadRequest.len req;
       ReadRequest.scratch := ReadRequest.scratch req;
       ReadRequest.result := ReadRequest.result req;
       ReadRequest.status := FSReadRequest.status fs_req |} in
  mret (<[i := req]> reqs).

Definition MultiRead (reqs : list ReadRequest) (num_reqs : size_t)
  : method t (Status * list ReadRequest) :=
  let io_opts := IOOptions_ctor in
  let dbg := IODebugContext_ctor in
  let fs_reqs : list FSReadRequest := [] in
  let status := Status.OK in
  let fs_reqs := resize (N.to_nat num_reqs) FSReadRequest.ctor fs_reqs in
  fs_reqs ← for_loop (N.to_nat num_reqs) 0 (fill_request reqs) fs_reqs;
  target ← deref target_;
  '(status, fs_reqs', dbg) ←
    call (OnRandomAccessFile target
            (FSRandomAccessFile.MultiRead fs_reqs num_reqs io_opts dbg));
  let fs_reqs := vec_to_list fs_reqs' in
  reqs ← for_loop (N.to_nat num_reqs) 0 (copy_back fs_reqs) reqs;
  mret (status, reqs).

Definition Prefetch (offset : uint64_t) (n : size_t) : method t Status :=
  let io_opts := IOOptions_ctor in
  let dbg := IODebugContext_ctor in
  target ← deref target_;
  '(s, dbg) ←
    call (OnRandomAccessFile target
            (FSRandomAccessFile.Prefetch offset n io_opts dbg));
  mret s.

Definition GetUniqueId (id : char_ptr) (max_size : size_t)
  : method t size_t :=
  target ← deref target_;
  call (OnRandomAccessFile target
          (FSRandomAccessFile.GetUniqueId id max_size)).

Definition Hint (pattern : AccessPattern) : method t unit :=
  target ← deref target_;
  call (OnRandomAccessFile target
          (FSRandomAccessFile.Hint (cast_AccessPattern pattern))).

Definition use_direct_io : method t bool :=
  target ← deref target_;
  call (OnRandomAccessFile target FSRandomAccessFile.use_direct_io).

Definition GetRequiredBufferAlignment : method t size_t :=
  target ← deref target_;
  call (OnRandomAccessFile target
          FSRandomAccessFile.GetRequiredBufferAlignment).

Definition InvalidateCache (offset length : size_t) : method t Status :=
  target ← deref target_;
  call (OnRandomAccessFile target
          (FSRandomAccessFile.InvalidateCache offset length)).

Definition invoke {X : Type} (m : RandomAccessFile.method X) : method t X :=
  match m in RandomAccessFile.method X return method t X with
  | RandomAccessFile.Read offset n result scratch =>
      Read offset n result scratch
  | RandomAccessFile.MultiRead reqs num_reqs => MultiRead reqs num_reqs
  | RandomAccessFile.Prefetch offset n => Prefetch offset n
  | RandomAccessFile.GetUniqueId id max_size => GetUniqueId id max_size
  | RandomAccessFile.Hint pattern => Hint pattern
  | RandomAccessFile.use_direct_io => use_direct_io
  | RandomAccessFile.GetRequiredBufferAlignment =>
      GetRequiredBufferAlignment
  | RandomAccessFile.InvalidateCache offset length =>
      InvalidateCache offset length
  end.
End CompositeRandomAccessFileWrapper.


Module CompositeWritableFileWrapper.
Record t : Type := mk { target_ : unique_ptr FSWritableFile }.

Definition ctor (target : unique_ptr FSWritableFile)
  : t * unique_ptr FSWritableFile :=
  let '(moved, target) := std_move target in
  ({| target_ := moved |}, target).

Definition Append (data : Slice) : method t Status :=
  let io_opts := IOOptions_ctor in
  let dbg := IODebugContext_ctor in
  target ← deref target_;
  '(s, dbg) ←
    call (OnWritableFile target (FSWritableFile.Append data io_opts dbg));
  mret s.

(** The overload [Append(data, verification_info)]. *)
Definition AppendVerified (data : Slice)
           (verification_info : DataVerificationInfo) : method t Status :=
  let io_opts := IOOptions_ctor in
  let dbg := IODebugContext_ctor in
  target ← deref target_;
  '(s, dbg) ←
    call (OnWritableFile target
            (FSWritableFile.AppendVerified data io_opts verification_info
               dbg));
  mret s.

Definition PositionedAppend (data : Slice) (offset : uint64_t)
  : method t Status :=
  let io_opts := IOOptions_ctor in
  let dbg := IODebugContext_ctor in
  target ← deref target_;
  '(s, dbg) ←
    call (OnWritableFile target
            (FSWritableFile.PositionedAppend data offset io_opts dbg));
  mret s.

(** The overload [PositionedAppend(data, offset, verification_info)]. *)
Definition PositionedAppendVerified (data : Slice) (offset : uint64_t)
           (verification_info : DataVerificationInfo) : method t Status :=
  let io_opts := IOOptions_ctor in
  let dbg := IODebugContext_ctor in
  target ← deref target_;
  '(s, dbg) ←
    call (OnWritableFile target
            (FSWritableFile.PositionedAppendVerified data offset io_opts
               verification_info dbg));
  mret s.

Definition Truncate (size : uint64_t) : method t Status :=
  let io_opts := IOOptions_ctor in
  let dbg := IODebugContext_ctor in
  target ← deref target_;
  '(s, dbg) ←
    call (OnWritableFile target (FSWritableFile.Truncate size io_opts dbg));
  mret s.

Definition Close : method t Status :=
  let io_opts := IOOptions_ctor in
  let dbg := IODebugContext_ctor in
  target ← deref target_;
  '(s, dbg) ← call (OnWritableFile target (FSWritableFile.Close io_opts dbg));
  mret s.

Definition Flush : method t Status :=
  let io_opts := IOOptions_ctor in
  let dbg := IODebugContext_ctor in
  target ← deref target_;
  '(s, dbg) ← call (OnWritableFile target (FSWritableFile.Flush io_opts dbg));
  mret s.

Definition Sync : method t Status :=
  let io_opts := IOOptions_ctor in
  let dbg := IODebugContext_ctor in
  target ← deref target_;
  '(s, dbg) ← call (OnWritableFile target (FSWritableFile.Sync io_opts dbg));
  mret s.

Definition Fsync : method t Status :=
  let io_opts := IOOptions_ctor in
  let dbg := IODebugContext_ctor in
  target ← deref target_;
  '(s, dbg) ← call (OnWritableFile target (FSWritableFile.Fsync io_opts dbg));
  mret s.

Definition IsSyncThreadSafe : method t bool :=
  target ← deref target_;
  call (OnWritableFile target FSWritableFile.IsSyncThreadSafe).

Definition use_direct_io : method t bool :=
  target ← deref target_;
  call (OnWritableFile target FSWritableFile.use_direct_io).

Definition GetRequiredBufferAlignment : method t size_t :=
  target ← deref target_;
  call (OnWritableFile target FSWritableFile.GetRequiredBufferAlignment).

Definition SetWriteLifeTimeHint (hint : WriteLifeTimeHint) : method t unit :=
  target ← deref target_;
  call (OnWritableFile target (FSWritableFile.SetWriteLifeTimeHint hint)).

Definition GetWriteLifeTimeHint : method t WriteLifeTimeHint :=
  target ← deref target_;
  call (OnWritableFile target FSWritableFile.GetWriteLifeTimeHint).

Definition GetFileSize : method t uint64_t :=
  let io_opts := IOOptions_ctor in
  let dbg := IODebugContext_ctor in
  target ← deref target_;
  '(size, dbg) ←
    call (OnWritableFile target (FSWritableFile.GetFileSize io_opts dbg));
  mret size.

Definition SetPreallocationBlockSize (size : size_t) : method t unit :=
  target ← deref target_;
  call (OnWritableFile target (FSWritableFile.SetPreallocationBlockSize size)).

Definition GetPreallocationStatus (block_size last_allocated_block : size_t)
  : method t (size_t * size_t) :=
  target ← deref target_;
  call (OnWritableFile target
          (FSWritableFile.GetPreallocationStatus block_size
             last_allocated_block)).

Definition GetUniqueId (id : char_ptr) (max_size : size_t)
  : method t size_t :=
  target ← deref target_;
  call (OnWritableFile target (FSWritableFile.GetUniqueId id max_size)).

Definition InvalidateCache (offset length : size_t) : method t Status :=
  target ← deref target_;
  call (OnWritableFile target (FSWritableFile.InvalidateCache offset length)).

Definition RangeSync (offset nbytes : uint64_t) : method t Status :=
  let io_opts := IOOptions_ctor in
  let dbg := IODebugContext_ctor in
  target ← deref target_;
  '(s, dbg) ←
    call (OnWritableFile target
            (FSWritableFile.RangeSync offset nbytes io_opts dbg));
  mret s.

Definition PrepareWrite (offset len : size_t) : method t unit :=
  let io_opts := IOOptions_ctor in
  let dbg := IODebugContext_ctor in
  target ← deref target_;
  dbg ←
    call (OnWritableFile target
            (FSWritableFile.PrepareWrite offset len io_opts dbg));
  mret tt.

Definition Allocate (offset len : uint64_t) : method t Status :=
  let io_opts := IOOptions_ctor in
  let dbg := IODebugContext_ctor in
  target ← deref target_;
  '(s, dbg) ←
    call (OnWritableFile target
            (FSWritableFile.Allocate offset len io_opts dbg));
  mret s.

(** [target()] returns [&target_], the address of the owning member:
    through it the member can be read, and assigned, moved from or
    reset.  It is not part of the legacy interface. *)
Definition target : method t (member_ptr t (unique_ptr FSWritableFile)) :=
  mret {| load := target_; store := fun p _ => {| target_ := p |} |}.

Definition invoke {X : Type} (m : WritableFile.method X) : method t X :=
  match m in WritableFile.method X return method t X with
  | WritableFile.Append data => Append data
  | WritableFile.AppendVerified data verification_info =>
      AppendVerified data verification_info
  | WritableFile.PositionedAppend data offset => PositionedAppend data offset
  | WritableFile.PositionedAppendVerified data offset verification_info =>
      PositionedAppendVerified data offset verification_info
  | WritableFile.Truncate size => Truncate size
  | WritableFile.Close => Close
  | WritableFile.Flush => Flush
  | WritableFile.Sync => Sync
  | WritableFile.Fsync => Fsync
  | WritableFile.IsSyncThreadSafe => IsSyncThreadSafe
  | WritableFile.use_direct_io => use_direct_io
  | WritableFile.GetRequiredBufferAlignment => GetRequiredBufferAlignment
  | WritableFile.SetWriteLifeTimeHint hint => SetWriteLifeTimeHint hint
  | WritableFile.GetWriteLifeTimeHint => GetWriteLifeTimeHint
  | WritableFile.GetFileSize => GetFileSize
  | WritableFile.SetPreallocationBlockSize size =>
      SetPreallocationBlockSize size
  | WritableFile.GetPreallocationStatus block_size last_allocated_block =>
      GetPreallocationStatus block_size last_allocated_block
  | WritableFile.GetUniqueId id max_size => GetUniqueId id max_size
  | WritableFile.InvalidateCache offset length =>
      InvalidateCache offset length
  | WritableFile.RangeSync offset nbytes => RangeSync offset nbytes
  | WritableFile.PrepareWrite offset len => PrepareWrite offset len
  | WritableFile.Allocate offset len => Allocate offset len
  end.
End CompositeWritableFileWrapper.

Module CompositeRandomRWFileWrapper.
Record t : Type := mk { target_ : unique_ptr FSRandomRWFile }.

Definition ctor (target : unique_ptr FSRandomRWFile)
  : t * unique_ptr FSRandomRWFile :=
  let '(moved, target) := std_move target in
  ({| target_ := moved |}, target).

Definition use_direct_io : method t bool :=
  target ← deref target_;
  call (OnRandomRWFile target FSRandomRWFile.use_direct_io).

Definition GetRequiredBufferAlignment : method t size_t :=
  target ← deref target_;
  call (OnRandomRWFile target FSRandomRWFile.GetRequiredBufferAlignment).

Definition Write (offset : uint64_t) (data : Slice) : method t Status :=
  let io_opts := IOOptions_ctor in
  let dbg := IODebugContext_ctor in
  target ← deref target_;
  '(s, dbg) ←
    call (OnRandomRWFile target
            (FSRandomRWFile.Write offset data io_opts dbg));
  mret s.

Definition Read (offset : uint64_t) (n : size_t) (result : Slice)
           (scratch : char_ptr) : method t (Status * Slice) :=
  let io_opts := IOOptions_ctor in
  let dbg := IODebugContext_ctor in
  target ← deref target_;
  '(s, result, dbg) ←
    call (OnRandomRWFile target
            (FSRandomRWFile.Read offset n io_opts result scratch dbg));
  mret (s, result).

Definition Flush : method t Status :=
  let io_opts := IOOptions_ctor in
  let dbg := IODebugContext_ctor in
  target ← deref target_;
  '(s, dbg) ← call (OnRandomRWFile target (FSRandomRWFile.Flush io_opts dbg));
  mret s.

Definition Sync : method t Status :=
  let io_opts := IOOptions_ctor in
  let dbg := IODebugContext_ctor in
  target ← deref target_;
  '(s, dbg) ← call (OnRandomRWFile target (FSRandomRWFile.Sync io_opts dbg));
  mret s.

Definition Fsync : method t Status :=
  let io_opts := IOOptions_ctor in
  let dbg := IODebugContext_ctor in
  target ← deref target_;
  '(s, dbg) ← call (OnRandomRWFile target (FSRandomRWFile.Fsync io_opts dbg));
  mret s.

Definition Close : method t Status :=
  let io_opts := IOOptions_ctor in
  let dbg := IODebugContext_ctor in
  target ← deref target_;
  '(s, dbg) ← call (OnRandomRWFile target (FSRandomRWFile.Close io_opts dbg));
  mret s.

Definition invoke {X : Type} (m : RandomRWFile.method X) : method t X :=
  match m in RandomRWFile.method X return method t X with
  | RandomRWFile.use_direct_io => use_direct_io
  | RandomRWFile.GetRequiredBufferAlignment => GetRequiredBufferAlignment
  | RandomRWFile.Write offset data => Write offset data
  | RandomRWFile.Read offset n result scratch => Read offset n result scratch
  | RandomRWFile.Flush => Flush
  | RandomRWFile.Sync => Sync
  | RandomRWFile.Fsync => Fsync
  | RandomRWFile.Close => Close
  end.
End CompositeRandomRWFileWrapper.

Module CompositeDirectoryWrapper.
Record t : Type := mk { target_ : unique_ptr FSDirectory }.

Definition ctor (target : unique_ptr FSDirectory)
  : t * unique_ptr FSDirectory :=
  let '(moved, target) := std_move target in
  ({| target_ := moved |}, target).

Definition Fsync : method t Status :=
  let io_opts := IOOptions_ctor in
  let dbg := IODebugContext_ctor in
  target ← deref target_;
  '(s, dbg) ←
    call (OnDirectory target
            (FSDirectory.FsyncWithDirOptions io_opts dbg
               DirFsyncOptions.ctor));
  mret s.

Definition GetUniqueId (id : char_ptr) (max_size : size_t)
  : method t size_t :=
  target ← deref target_;
  call (OnDirectory target (FSDirectory.GetUniqueId id max_size)).

Definition invoke {X : Type} (m : Directory.method X) : method t X :=
  match m in Directory.method X return method t X with
  | Directory.Fsync => Fsync
  | Directory.GetUniqueId id max_size => GetUniqueId id max_size
  end.
End CompositeDirectoryWrapper.

(** ** The composite environment *)

(** The object behind a pointer to a legacy abstract class: a wrapper of
    this file, or an object of some other implementation. *)
Inductive implementation (W : Type) : Type :=
| Composite (w : W)
| Foreign (addr : N).
Arguments Composite {W} w.
Arguments Foreign {W} addr.

Abbreviation SequentialFile :=
  (implementation CompositeSequentialFileWrapper.t).
Abbreviation RandomAccessFile :=
  (implementation CompositeRandomAccessFileWrapper.t).
Abbreviation WritableFile :=
  (implementation CompositeWritableFileWrapper.t).
Abbreviation RandomRWFile :=
  (implementation CompositeRandomRWFileWrapper.t).
Abbreviation Directory :=
  (implementation CompositeDirectoryWrapper.t).

(** [p->reset(new T(...))]: the pointer owns the new object. *)
Definition reset {T : Type} (p : unique_ptr T) (obj : T) : unique_ptr T :=
  Some obj.

(** The creation methods of the legacy environment that [CompositeEnv]
    overrides, indexed by the FileSystem class [H] of the handle they
    open and by the wrapper class [W] they hand back.  The output
    parameter is passed apart, see [CompositeEnv.invoke]. *)
Module Env.
Inductive method : Type -> Type -> Type :=
| NewSequentialFile (f : string) (options : EnvOptions)
  : method FSSequentialFile CompositeSequentialFileWrapper.t
| NewRandomAccessFile (f : string) (options : EnvOptions)
  : method FSRandomAccessFile CompositeRandomAccessFileWrapper.t
| NewWritableFile (f : string) (options : EnvOptions)
  : method FSWritableFile CompositeWritableFileWrapper.t
| ReopenWritableFile (fname : string) (options : EnvOptions)
  : method FSWritableFile CompositeWritableFileWrapper.t
| ReuseWritableFile (fname old_fname : string) (options : EnvOptions)
  : method FSWritableFile CompositeWritableFileWrapper.t
| NewRandomRWFile (fname : string) (options : EnvOptions)
  : method FSRandomRWFile CompositeRandomRWFileWrapper.t
| NewDirectory (name : string)
  : method FSDirectory CompositeDirectoryWrapper.t.
End Env.

Module CompositeEnv.
(** Modelled from the spec: the class is declared in a header that is not
    part of the sources; it holds a reference to the FileSystem it
    creates files with. *)
Record t : Type := mk { file_system_ : option FileSystem }.

Definition NewSequentialFile (f : string) (r : unique_ptr SequentialFile)
           (options : EnvOptions)
  : method t (Status * unique_ptr SequentialFile) :=
  let dbg := IODebugContext_ctor in
  let file : unique_ptr FSSequentialFile := nullptr in
  let status := Status.OK in
  file_system ← deref file_system_;
  '(status, file, dbg) ←
    call (OnFileSystem file_system
            (FileSystem.NewSequentialFile f (FileOptions_ctor options) file
               dbg));
  let r :=
    if Status.ok status
    then reset r (Composite (CompositeSequentialFileWrapper.ctor file).1)
    else r in
  mret (status, r).

Definition NewRandomAccessFile (f : string) (r : unique_ptr RandomAccessFile)
           (options : EnvOptions)
  : method t (Status * unique_ptr RandomAccessFile) :=
  let dbg := IODebugContext_ctor in
  let file : unique_ptr FSRandomAccessFile := nullptr in
  let status := Status.OK in
  file_system ← deref file_system_;
  '(status, file, dbg) ←
    call (OnFileSystem file_system
            (FileSystem.NewRandomAccessFile f (FileOptions_ctor options) file
               dbg));
  let r :=
    if Status.ok status
    then reset r (Composite (CompositeRandomAccessFileWrapper.ctor file).1)
    else r in
  mret (status, r).

Definition NewWritableFile (f : string) (r : unique_ptr WritableFile)
           (options : EnvOptions)
  : method t (Status * unique_ptr WritableFile) :=
  let dbg := IODebugContext_ctor in
  let file : unique_ptr FSWritableFile := nullptr in
  let status := Status.OK in
  file_system ← deref file_system_;
  '(status, file, dbg) ←
    call (OnFileSystem file_system
            (FileSystem.NewWritableFile f (FileOptions_ctor options) file
               dbg));
  let r :=
    if Status.ok status
    then reset r (Composite (CompositeWritableFileWrapper.ctor file).1)
    else r in
  mret (status, r).

Definition ReopenWritableFile (fname : string)
           (result : unique_ptr WritableFile) (options : EnvOptions)
  : method t (Status * unique_ptr WritableFile) :=
  let dbg := IODebugContext_ctor in
  let status := Status.OK in
  let file : unique_ptr FSWritableFile := nullptr in
  file_system ← deref file_system_;
  '(status, file, dbg) ←
    call (OnFileSystem file_system
            (FileSystem.ReopenWritableFile fname (FileOptions_ctor options)
               file dbg));
  let result :=
    if Status.ok status
    then reset result (Composite (CompositeWritableFileWrapper.ctor file).1)
    else result in
  mret (status, result).

Definition ReuseWritableFile (fname old_fname : string)
           (r : unique_ptr WritableFile) (options : EnvOptions)
  : method t (Status * unique_ptr WritableFile) :=
  let dbg := IODebugContext_ctor in
  let status := Status.OK in
  let file : unique_ptr FSWritableFile := nullptr in
  file_system ← deref file_system_;
  '(status, file, dbg) ←
    call (OnFileSystem file_system
            (FileSystem.ReuseWritableFile fname old_fname
               (FileOptions_ctor options) file dbg));
  let r :=
    if Status.ok status
    then reset r (Composite (CompositeWritableFileWrapper.ctor file).1)
    else r in
  mret (status, r).

Definition NewRandomRWFile (fname : string)
           (result : unique_ptr RandomRWFile) (options : EnvOptions)
  : method t (Status * unique_ptr RandomRWFile) :=
  let dbg := IODebugContext_ctor in
  let file : unique_ptr FSRandomRWFile := nullptr in
  let status := Status.OK in
  file_system ← deref file_system_;
  '(status, file, dbg) ←
    call (OnFileSystem file_system
            (FileSystem.NewRandomRWFile fname (FileOptions_ctor options) file
               dbg));
  let result :=
    if Status.ok status
    then reset result (Composite (CompositeRandomRWFileWrapper.ctor file).1)
    else result in
  mret (status, result).

Definition NewDirectory (name : string) (result : unique_ptr Directory)
  : method t (Status * unique_ptr Directory) :=
  let io_opts := IOOptions_ctor in
  let dbg := IODebugContext_ctor in
  let dir : unique_ptr FSDirectory := nullptr in
  let status := Status.OK in
  file_system ← deref file_system_;
  '(status, dir, dbg) ←
    call (OnFileSystem file_system
            (FileSystem.NewDirectory name io_opts dir dbg));
  let result :=
    if Status.ok status
    then reset result (Composite (CompositeDirectoryWrapper.ctor dir).1)
    else result in
  mret (status, result).
(** Virtual dispatch: the override that answers each creation method,
    with [r] in the caller's output parameter. *)
Definition invoke {H W : Type} (m : Env.method H W)
  : unique_ptr (implementation W) ->
    method t (Status * unique_ptr (implementation W)) :=
  match m in Env.method H W
        return unique_ptr (implementation W) ->
               method t (Status * unique_ptr (implementation W)) with
  | Env.NewSequentialFile f options =>
      fun r => NewSequentialFile f r options
  | Env.NewRandomAccessFile f options =>
      fun r => NewRandomAccessFile f r options
  | Env.NewWritableFile f options => fun r => NewWritableFile f r options
  | Env.ReopenWritableFile fname options =>
      fun r => ReopenWritableFile fname r options
  | Env.ReuseWritableFile fname old_fname options =>
      fun r => ReuseWritableFile fname old_fname r options
  | Env.NewRandomRWFile fname options =>
      fun r => NewRandomRWFile fname r options
  | Env.NewDirectory name => fun r => NewDirectory name r
  end.
End CompositeEnv.

(** ** What a call carries

    Projections of a recorded call, used to state what the wrappers pass
    on. *)

(** The object a call is made on. *)
Inductive receiver : Type :=
| SequentialFileAt (target : FSSequentialFile)
| RandomAccessFileAt (target : FSRandomAccessFile)
| WritableFileAt (target : FSWritableFile)
| RandomRWFileAt (target : FSRandomRWFile)
| DirectoryAt (target : FSDirectory)
| FileSystemAt (target : FileSystem).

Definition call_receiver {X : Type} (c : FSCall X) : receiver :=
  match c with
  | OnSequentialFile target _ => SequentialFileAt target
  | OnRandomAccessFile target _ => RandomAccessFileAt target
  | OnWritableFile target _ => WritableFileAt target
  | OnRandomRWFile target _ => RandomRWFileAt target
  | OnDirectory target _ => DirectoryAt target
  | OnFileSystem target _ => FileSystemAt target
  end.

(** The options and debug context of a call on a file or directory
    handle, when the method has these parameters. *)
Definition call_context {X : Type} (c : FSCall X)
  : option (IOOptions * IODebugContext) :=
  match c with
  | OnSequentialFile _ m =>
      match m with
      | FSSequentialFile.Read _ options _ _ dbg
      | FSSequentialFile.PositionedRead _ _ options _ _ dbg =>
          Some (options, dbg)
      | _ => None
      end
  | OnRandomAccessFile _ m =>
      match m with
      | FSRandomAccessFile.Read _ _ options _ _ dbg
      | FSRandomAccessFile.MultiRead _ _ options dbg
      | FSRandomAccessFile.Prefetch _ _ options dbg => Some (options, dbg)
      | _ => None
      end
  | OnWritableFile _ m =>
      match m with
      | FSWritableFile.Append _ options dbg
      | FSWritableFile.AppendVerified _ options _ dbg
      | FSWritableFile.PositionedAppend _ _ options dbg
      | FSWritableFile.PositionedAppendVerified _ _ options _ dbg
      | FSWritableFile.Truncate _ options dbg
      | FSWritableFile.Close options dbg
      | FSWritableFile.Flush options dbg
      | FSWritableFile.Sync options dbg
      | FSWritableFile.Fsync options dbg
      | FSWritableFile.GetFileSize options dbg
      | FSWritableFile.RangeSync _ _ options dbg
      | FSWritableFile.PrepareWrite _ _ options dbg
      | FSWritableFile.Allocate _ _ options dbg => Some (options, dbg)
      | _ => None
      end
  | OnRandomRWFile _ m =>
      match m with
      | FSRandomRWFile.Write _ _ options dbg
      | FSRandomRWFile.Read _ _ options _ _ dbg
      | FSRandomRWFile.Flush options dbg
      | FSRandomRWFile.Sync options dbg
      | FSRandomRWFile.Fsync options dbg
      | FSRandomRWFile.Close options dbg => Some (options, dbg)
      | _ => None
      end
  | OnDirectory _ m =>
      match m with
      | FSDirectory.FsyncWithDirOptions options dbg _ => Some (options, dbg)
      | _ => None
      end
  | OnFileSystem _ _ => None
  end.

(** The verification payload of a call, when it is a verified append. *)
Definition call_verification_info {X : Type} (c : FSCall X)
  : option DataVerificationInfo :=
  match c with
  | OnWritableFile _ m =>
      match m with
      | FSWritableFile.AppendVerified _ _ verification_info _
      | FSWritableFile.PositionedAppendVerified _ _ _ verification_info _ =>
          Some verification_info
      | _ => None
      end
  | _ => None
  end.

(** Whether a call is one of the two appends without a payload. *)
Definition call_is_unverified_append {X : Type} (c : FSCall X) : bool :=
  match c with
  | OnWritableFile _ m =>
      match m with
      | FSWritableFile.Append _ _ _
      | FSWritableFile.PositionedAppend _ _ _ _ => true
      | _ => false
      end
  | _ => false
  end.

(** The directory-fsync variant a call asks for. *)
Definition call_dir_fsync_options {X : Type} (c : FSCall X)
  : option DirFsyncOptions :=
  match c with
  | OnDirectory _ m =>
      match m with
      | FSDirectory.FsyncWithDirOptions _ _ dir_fsync_options =>
          Some dir_fsync_options
      | _ => None
      end
  | _ => None
  end.

(** The open options a creation call carries. *)
Definition call_file_options {X : Type} (c : FSCall X) : option FileOptions :=
  match c with
  | OnFileSystem _ m =>
      match m with
      | FileSystem.NewSequentialFile _ file_opts _ _
      | FileSystem.NewRandomAccessFile _ file_opts _ _
      | FileSystem.NewWritableFile _ file_opts _ _
      | FileSystem.ReopenWritableFile _ file_opts _ _
      | FileSystem.ReuseWritableFile _ _ file_opts _ _
      | FileSystem.NewRandomRWFile _ file_opts _ _ => Some file_opts
      | FileSystem.NewDirectory _ _ _ _ => None
      end
  | _ => None
  end.

(** The debug context a creation call starts from. *)
Definition call_creation_dbg {X : Type} (c : FSCall X)
  : option IODebugContext :=
  match c with
  | OnFileSystem _ m =>
      match m with
      | FileSystem.NewSequentialFile _ _ _ dbg
      | FileSystem.NewRandomAccessFile _ _ _ dbg
      | FileSystem.NewWritableFile _ _ _ dbg
      | FileSystem.ReopenWritableFile _ _ _ dbg
      | FileSystem.ReuseWritableFile _ _ _ _ dbg
      | FileSystem.NewRandomRWFile _ _ _ dbg
      | FileSystem.NewDirectory _ _ _ dbg => Some dbg
      end
  | _ => None
  end.

(** Whether a call closes the handle it is made on. *)
Definition call_is_close {X : Type} (c : FSCall X) : bool :=
  match c with
  | OnWritableFile _ m =>
      match m with FSWritableFile.Close _ _ => true | _ => false end
  | OnRandomRWFile _ m =>
      match m with FSRandomRWFile.Close _ _ => true | _ => false end
  | _ => false
  end.

Definition on_event {A : Type} (f : forall X : Type, FSCall X -> A)
           (e : FSEvent) : A :=
  f (event_type e) (event_call e).

(** ** A test double of the FileSystem side

    A small implementation used to run the code on concrete inputs.  Its
    state is the write-lifetime hint last set.  Reads answer with the
    slice [(scratch, n)]; a batched read fails the requests at offset 0
    with not-found and answers the others; every creation call answers
    with the status [creation] and, on success, a handle at address 7. *)

Definition not_found : IOStatus :=
  {| Status.code := Status.kNotFound; Status.state := "no such file" |}.

Definition double_read_request (req : FSReadRequest) : FSReadRequest :=
  if (FSReadRequest.offset req =? 0)%N
  then {| FSReadRequest.offset := FSReadRequest.offset req;
          FSReadRequest.len := FSReadRequest.len req;
          FSReadRequest.scratch := FSReadRequest.scratch req;
          FSReadRequest.result := FSReadRequest.result req;
          FSReadRequest.status := not_found |}
  else {| FSReadRequest.offset := FSReadRequest.offset req;
          FSReadRequest.len := FSReadRequest.len req;
          FSReadRequest.scratch := FSReadRequest.scratch req;
          FSReadRequest.result :=
            {| data_ := FSReadRequest.scratch req;
               size_ := FSReadRequest.len req |};
          FSReadRequest.status := IOStatus.OK |}.

Definition traced (dbg : IODebugContext) : IODebugContext :=
  {| dbg_msg := "seen"%string :: dbg_msg dbg |}.

Definition double_sequential {X : Type} (m : FSSequentialFile.method X) : X :=
  match m with
  | FSSequentialFile.Read n _ _ scratch dbg =>
      (IOStatus.OK, {| data_ := scratch; size_ := n |}, traced dbg)
  | FSSequentialFile.Skip _ => IOStatus.OK
  | FSSequentialFile.use_direct_io => true
  | FSSequentialFile.GetRequiredBufferAlignment => 4096%N
  | FSSequentialFile.InvalidateCache _ _ => IOStatus.OK
  | FSSequentialFile.PositionedRead _ n _ _ scratch dbg =>
      (IOStatus.OK, {| data_ := scratch; size_ := n |}, traced dbg)
  end.

Definition double_random_access (call_status : IOStatus) {X : Type}
           (m : FSRandomAccessFile.method X) : X :=
  match m with
  | FSRandomAccessFile.Read _ n _ _ scratch dbg =>
      (IOStatus.OK, {| data_ := scratch; size_ := n |}, traced dbg)
  | FSRandomAccessFile.MultiRead reqs _ _ dbg =>
      (call_status, vmap double_read_request (list_to_vec reqs), traced dbg)
  | FSRandomAccessFile.Prefetch _ _ _ dbg => (IOStatus.OK, traced dbg)
  | FSRandomAccessFile.GetUniqueId _ _ => 0%N
  | FSRandomAccessFile.Hint _ => tt
  | FSRandomAccessFile.use_direct_io => true
  | FSRandomAccessFile.GetRequiredBufferAlignment => 4096%N
  | FSRandomAccessFile.InvalidateCache _ _ => IOStatus.OK
  end.

Definition double_writable {X : Type} (m : FSWritableFile.method X)
           (hint : WriteLifeTimeHint) : X * WriteLifeTimeHint :=
  match m with
  | FSWritableFile.Append _ _ dbg
  | FSWritableFile.AppendVerified _ _ _ dbg
  | FSWritableFile.PositionedAppend _ _ _ dbg
  | FSWritableFile.PositionedAppendVerified _ _ _ _ dbg
  | FSWritableFile.Truncate _ _ dbg
  | FSWritableFile.Close _ dbg
  | FSWritableFile.Flush _ dbg
  | FSWritableFile.Sync _ dbg
  | FSWritableFile.Fsync _ dbg
  | FSWritableFile.RangeSync _ _ _ dbg
  | FSWritableFile.Allocate _ _ _ dbg => ((IOStatus.OK, traced dbg), hint)
  | FSWritableFile.IsSyncThreadSafe => (false, hint)
  | FSWritableFile.use_direct_io => (false, hint)
  | FSWritableFile.GetRequiredBufferAlignment => (512%N, hint)
  | FSWritableFile.SetWriteLifeTimeHint hint' => (tt, hint')
  | FSWritableFile.GetWriteLifeTimeHint => (hint, hint)
  | FSWritableFile.GetFileSize _ dbg => ((0%N, traced dbg), hint)
  | FSWritableFile.SetPreallocationBlockSize _ => (tt, hint)
  | FSWritableFile.GetPreallocationStatus block_size last_allocated_block =>
      ((block_size, last_allocated_block), hint)
  | FSWritableFile.GetUniqueId _ _ => (0%N, hint)
  | FSWritableFile.InvalidateCache _ _ => (IOStatus.OK, hint)
  | FSWritableFile.PrepareWrite _ _ _ dbg => (traced dbg, hint)
  end.

Definition double_random_rw {X : Type} (m : FSRandomRWFile.method X) : X :=
  match m with
  | FSRandomRWFile.use_direct_io => true
  | FSRandomRWFile.GetRequiredBufferAlignment => 4096%N
  | FSRandomRWFile.Write _ _ _ dbg => (IOStatus.OK, traced dbg)
  | FSRandomRWFile.Read _ n _ _ scratch dbg =>
      (IOStatus.OK, {| data_ := scratch; size_ := n |}, traced dbg)
  | FSRandomRWFile.Flush _ dbg
  | FSRandomRWFile.Sync _ dbg
  | FSRandomRWFile.Fsync _ dbg
  | FSRandomRWFile.Close _ dbg => (IOStatus.OK, traced dbg)
  end.

Definition double_directory {X : Type} (m : FSDirectory.method X) : X :=
  match m with
  | FSDirectory.FsyncWithDirOptions _ dbg _ => (IOStatus.OK, traced dbg)
  | FSDirectory.GetUniqueId _ _ => 0%N
  end.

Definition opened {T : Type} (creation : IOStatus) (handle : T)
           (result : unique_ptr T) : unique_ptr T :=
  if Status.ok creation then Some handle else result.

Definition double_file_system (creation : IOStatus) {X : Type}
           (m : FileSystem.method X) : X :=
  match m with
  | FileSystem.NewSequentialFile _ _ result dbg =>
      (creation, opened creation (FSSequentialFile.At 7) result, traced dbg)
  | FileSystem.NewRandomAccessFile _ _ result dbg =>
      (creation, opened creation (FSRandomAccessFile.At 7) result, traced dbg)
  | FileSystem.NewWritableFile _ _ result dbg
  | FileSystem.ReopenWritableFile _ _ result dbg
  | FileSystem.ReuseWritableFile _ _ _ result dbg =>
      (creation, opened creation (FSWritableFile.At 7) result, traced dbg)
  | FileSystem.NewRandomRWFile _ _ result dbg =>
      (creation, opened creation (FSRandomRWFile.At 7) result, traced dbg)
  | FileSystem.NewDirectory _ _ result dbg =>
      (creation, opened creation (FSDirectory.At 7) result, traced dbg)
  end.

Definition test_double (creation : IOStatus) : backend WriteLifeTimeHint :=
  fun X c hint =>
    match c with
    | OnSequentialFile _ m => (double_sequential m, hint)
    | OnRandomAccessFile _ m => (double_random_access creation m, hint)
    | OnWritableFile _ m => double_writable m hint
    | OnRandomRWFile _ m => (double_random_rw m, hint)
    | OnDirectory _ m => (double_directory m, hint)
    | OnFileSystem _ m => (double_file_system creation m, hint)
    end.

(** * Vocabulary of the statements *)

(** What the batched-read contract asks the wrapper to submit for one
    legacy request: its offset, length and buffer, an empty result and a
    success status. *)
Definition modern_request (req : ReadRequest) : FSReadRequest :=
  {| FSReadRequest.offset := ReadRequest.offset req;
     FSReadRequest.len := ReadRequest.len req;
     FSReadRequest.scratch := ReadRequest.scratch req;
     FSReadRequest.result := Slice_ctor;
     FSReadRequest.status := IOStatus.OK |}.

(** What the contract asks the caller to find in its own request after
    the call: the request it submitted, with the result and status of
    the FileSystem request at the same index. *)
Definition legacy_outcome (fs_req : FSReadRequest) (req : ReadRequest)
  : ReadRequest :=
  {| ReadRequest.offset := ReadRequest.offset req;
     ReadRequest.len := ReadRequest.len req;
     ReadRequest.scratch := ReadRequest.scratch req;
     ReadRequest.result := FSReadRequest.result fs_req;
     ReadRequest.status := FSReadRequest.status fs_req |}.

(** Sample inputs for running the code against the test double. *)
Definition sample_random_access_file : CompositeRandomAccessFileWrapper.t :=
  {| CompositeRandomAccessFileWrapper.target_ :=
       Some (FSRandomAccessFile.At 7) |}.

Definition stale : Slice := {| data_ := 5%N; size_ := 5%N |}.

Definition sample_requests : list ReadRequest :=
  [ {| ReadRequest.offset := 0%N; ReadRequest.len := 10%N;
       ReadRequest.scratch := 100%N; ReadRequest.result := stale;
       ReadRequest.status := Status.OK |};
    {| ReadRequest.offset := 20%N; ReadRequest.len := 30%N;
       ReadRequest.scratch := 200%N; ReadRequest.result := stale;
       ReadRequest.status := not_found |};
    {| ReadRequest.offset := 40%N; ReadRequest.len := 50%N;
       ReadRequest.scratch := 300%N; ReadRequest.result := stale;
       ReadRequest.status := not_found |} ].

(** [p] makes exactly one call, which satisfies [P], and then returns,
    leaving [this] as the state of the object. *)
Definition calls_once {W R : Type}
           (P : forall X : Type, FSCall X -> Prop) (this : W)
           (p : io (R * W)) : Prop :=
  exists (X : Type) (c : FSCall X) (k : X -> io (R * W)),
    p = Call c k /\ P X c /\ forall x, exists r, k x = Ret (r, this).

(** [p] is undefined before any call, or it calls once. *)
Definition delegates {W R : Type}
           (P : forall X : Type, FSCall X -> Prop) (this : W)
           (p : io (R * W)) : Prop :=
  p = UB \/ calls_once P this p.

(** A sequence of calls on one legacy object, through its dispatch
    [invoke]. *)
Fixpoint invoke_all {W : Type} {M : Type -> Type}
         (invoke : forall X : Type, M X -> method W X) (ms : list (sigT M))
  : method W unit :=
  match ms with
  | [] => mret tt
  | existT X m :: ms' => _ ← invoke X m; invoke_all invoke ms'
  end.

(** A call made on [target]; with default-constructed options and debug
    context when [context] says the method takes them, and with neither
    otherwise; closing the handle exactly when [close] says so. *)
Definition forwarded (target : option receiver) (context close : bool)
  : forall X : Type, FSCall X -> Prop :=
  fun X c =>
    Some (call_receiver c) = target
    /\ call_context c =
       (if context then Some (IOOptions_ctor, IODebugContext_ctor) else None)
    /\ call_is_close c = close.

(** The legacy methods whose FileSystem counterpart takes an options and
    a debug-context parameter. *)
Definition SequentialFile_takes_context {X : Type}
           (m : SequentialFile.method X) : bool :=
  match m with
  | SequentialFile.Read _ _ _ | SequentialFile.PositionedRead _ _ _ _ => true
  | _ => false
  end.

Definition RandomAccessFile_takes_context {X : Type}
           (m : RandomAccessFile.method X) : bool :=
  match m with
  | RandomAccessFile.Read _ _ _ _
  | RandomAccessFile.MultiRead _ _
  | RandomAccessFile.Prefetch _ _ => true
  | _ => false
  end.

Definition WritableFile_takes_context {X : Type}
           (m : WritableFile.method X) : bool :=
  match m with
  | WritableFile.Append _
  | WritableFile.AppendVerified _ _
  | WritableFile.PositionedAppend _ _
  | WritableFile.PositionedAppendVerified _ _ _
  | WritableFile.Truncate _
  | WritableFile.Close
  | WritableFile.Flush
  | WritableFile.Sync
  | WritableFile.Fsync
  | WritableFile.GetFileSize
  | WritableFile.RangeSync _ _
  | WritableFile.PrepareWrite _ _
  | WritableFile.Allocate _ _ => true
  | _ => false
  end.

Definition RandomRWFile_takes_context {X : Type}
           (m : RandomRWFile.method X) : bool :=
  match m with
  | RandomRWFile.Write _ _
  | RandomRWFile.Read _ _ _ _
  | RandomRWFile.Flush
  | RandomRWFile.Sync
  | RandomRWFile.Fsync
  | RandomRWFile.Close => true
  | _ => false
  end.

Definition Directory_takes_context {X : Type} (m : Directory.method X)
  : bool :=
  match m with
  | Directory.Fsync => true
  | _ => false
  end.

(** The legacy methods that close the file. *)
Definition WritableFile_is_close {X : Type} (m : WritableFile.method X)
  : bool :=
  match m with
  | WritableFile.Close => true
  | _ => false
  end.

Definition RandomRWFile_is_close {X : Type} (m : RandomRWFile.method X)
  : bool :=
  match m with
  | RandomRWFile.Close => true
  | _ => false
  end.

(** The one precondition among the legacy methods: the request array of
    [MultiRead] holds at least [num_reqs] requests. *)
Definition RandomAccessFile_within_bounds {X : Type}
           (m : RandomAccessFile.method X) : Prop :=
  match m with
  | RandomAccessFile.MultiRead reqs num_reqs =>
      N.to_nat num_reqs <= length reqs
  | _ => True
  end.

#[global] Instance RandomAccessFile_within_bounds_dec {X : Type}
         (m : RandomAccessFile.method X)
  : Decision (RandomAccessFile_within_bounds m).
Proof. destruct m; simpl; apply _. Defined.

(** Closes [calls_once] for a body that is a dereference, a call and a
    return. *)
Ltac calls_once_by_computation :=
  eexists _, _, _; split; [reflexivity|]; split; [by split_and!|];
  intros x;
  repeat match goal with x : (_ * _)%type |- _ => destruct x end;
  eexists; reflexivity.

(** The FileSystem call each creation method makes: the method of the
    same name, with the open options built from the legacy ones (for a
    directory, which has no legacy options, default-constructed per-call
    options), an empty handle to fill and an empty debug context. *)
Definition matching_call {H W : Type} (file_system : FileSystem)
           (m : Env.method H W)
  : FSCall (IOStatus * unique_ptr H * IODebugContext) :=
  match m in Env.method H W
        return FSCall (IOStatus * unique_ptr H * IODebugContext) with
  | Env.NewSequentialFile f options =>
      OnFileSystem file_system
        (FileSystem.NewSequentialFile f (FileOptions_ctor options) nullptr
           IODebugContext_ctor)
  | Env.NewRandomAccessFile f options =>
      OnFileSystem file_system
        (FileSystem.NewRandomAccessFile f (FileOptions_ctor options) nullptr
           IODebugContext_ctor)
  | Env.NewWritableFile f options =>
      OnFileSystem file_system
        (FileSystem.NewWritableFile f (FileOptions_ctor options) nullptr
           IODebugContext_ctor)
  | Env.ReopenWritableFile fname options =>
      OnFileSystem file_system
        (FileSystem.ReopenWritableFile fname (FileOptions_ctor options)
           nullptr IODebugContext_ctor)
  | Env.ReuseWritableFile fname old_fname options =>
      OnFileSystem file_system
        (FileSystem.ReuseWritableFile fname old_fname
           (FileOptions_ctor options) nullptr IODebugContext_ctor)
  | Env.NewRandomRWFile fname options =>
      OnFileSystem file_system
        (FileSystem.NewRandomRWFile fname (FileOptions_ctor options) nullptr
           IODebugContext_ctor)
  | Env.NewDirectory name =>
      OnFileSystem file_system
        (FileSystem.NewDirectory name IOOptions_ctor nullptr
           IODebugContext_ctor)
  end.

(** The legacy open options a creation method is given: the directory
    creation takes none. *)
Definition legacy_options {H W : Type} (m : Env.method H W)
  : option EnvOptions :=
  match m with
  | Env.NewSequentialFile _ options
  | Env.NewRandomAccessFile _ options
  | Env.NewWritableFile _ options
  | Env.ReopenWritableFile _ options
  | Env.ReuseWritableFile _ _ options
  | Env.NewRandomRWFile _ options => Some options
  | Env.NewDirectory _ => None
  end.

(** The per-call options a creation call carries in place of open
    options. *)
Definition call_creation_io_options {X : Type} (c : FSCall X)
  : option IOOptions :=
  match c with
  | OnFileSystem _ m =>
      match m with
      | FileSystem.NewDirectory _ io_opts _ _ => Some io_opts
      | _ => None
      end
  | _ => None
  end.

(** The handle inside the wrapper a creation method hands back. *)
Definition wrapped {H W : Type} (m : Env.method H W) : W -> unique_ptr H :=
  match m in Env.method H W return W -> unique_ptr H with
  | Env.NewSequentialFile _ _ => CompositeSequentialFileWrapper.target_
  | Env.NewRandomAccessFile _ _ => CompositeRandomAccessFileWrapper.target_
  | Env.NewWritableFile _ _
  | Env.ReopenWritableFile _ _
  | Env.ReuseWritableFile _ _ _ => CompositeWritableFileWrapper.target_
  | Env.NewRandomRWFile _ _ => CompositeRandomRWFileWrapper.target_
  | Env.NewDirectory _ => CompositeDirectoryWrapper.target_
  end.

(** Every legacy operation on the wrapper [w] a creation method handed
    back reaches the FileSystem side exactly once, on the handle
    [target], and returns. *)
Definition routes_to {H W : Type} (m : Env.method H W) : W -> H -> Prop :=
  match m in Env.method H W return W -> H -> Prop with
  | Env.NewSequentialFile _ _ => fun w target =>
      forall (X : Type) (l : SequentialFile.method X),
        calls_once (fun _ c => call_receiver c = SequentialFileAt target) w
          (CompositeSequentialFileWrapper.invoke l w)
  | Env.NewRandomAccessFile _ _ => fun w target =>
      forall (X : Type) (l : RandomAccessFile.method X),
        RandomAccessFile_within_bounds l ->
        calls_once (fun _ c => call_receiver c = RandomAccessFileAt target) w
          (CompositeRandomAccessFileWrapper.invoke l w)
  | Env.NewWritableFile _ _
  | Env.ReopenWritableFile _ _
  | Env.ReuseWritableFile _ _ _ => fun w target =>
      forall (X : Type) (l : WritableFile.method X),
        calls_once (fun _ c => call_receiver c = WritableFileAt target) w
          (CompositeWritableFileWrapper.invoke l w)
  | Env.NewRandomRWFile _ _ => fun w target =>
      forall (X : Type) (l : RandomRWFile.method X),
        calls_once (fun _ c => call_receiver c = RandomRWFileAt target) w
          (CompositeRandomRWFileWrapper.invoke l w)
  | Env.NewDirectory _ => fun w target =>
      forall (X : Type) (l : Directory.method X),
        calls_once (fun _ c => call_receiver c = DirectoryAt target) w
          (CompositeDirectoryWrapper.invoke l w)
  end.

Definition sample_env : CompositeEnv.t :=
  {| CompositeEnv.file_system_ := Some (FileSystem.At 1) |}.

Definition sample_options : EnvOptions :=
  {| use_mmap_reads := false; use_mmap_writes := false;
     use_direct_reads := true; use_direct_writes := false;
     bytes_per_sync := 0%N |}.

Definition sample_writable_file : CompositeWritableFileWrapper.t :=
  {| CompositeWritableFileWrapper.target_ := Some (FSWritableFile.At 7) |}.

Definition sentinel : DataVerificationInfo :=
  {| checksum := {| data_ := 3735928559%N; size_ := 4%N |} |}.

(** Whatever options and debug context a call carries, they are the
    default-constructed ones. *)
Definition fresh_context : forall X : Type, FSCall X -> Prop :=
  fun X c =>
    forall options dbg,
      call_context c = Some (options, dbg) ->
      options = IOOptions_ctor /\ dbg = IODebugContext_ctor.

(** For one legacy class: where a call is [defined] (the wrapped pointer
    holds a handle, the request array is long enough), the method makes
    exactly one call, carrying default-constructed options and debug
    context when the FileSystem method takes them and none otherwise;
    and in any sequence of calls on one object, against any
    implementation, every call made carries none but the
    default-constructed ones, and the object is afterwards what it was
    before. *)
Definition context_is_fresh {W : Type} {M : Type -> Type}
           (invoke : forall X : Type, M X -> method W X)
           (takes_context : forall X : Type, M X -> bool)
           (defined : W -> forall X : Type, M X -> Prop) : Prop :=
  (forall (X : Type) (m : M X) (this : W),
      defined this X m ->
      calls_once
        (fun _ c =>
           call_context c =
           if takes_context X m
           then Some (IOOptions_ctor, IODebugContext_ctor) else None)
        this (invoke X m this))
  /\ (forall (ms : list (sigT M)) (S : Type) (b : backend S) (s : S)
             (this : W),
         let o := run b (invoke_all invoke ms this) s in
         Forall (on_event fresh_context) (trace o)
         /\ forall r this', returned o = Some (r, this') -> this' = this).

(** The operation [c] invoked directly on a handle. *)
Definition direct {X : Type} (c : FSCall X) : io X := Call c Ret.

(** The wrapper's [query] does what invoking [c] directly does: the same
    single call, the same effect on the implementation, and the value it
    returned, with the wrapper unchanged. *)
Definition passes_through {W X : Type} (query : method W X) (this : W)
           (c : FSCall X) : Prop :=
  forall (S : Type) (b : backend S) (s : S),
    let o := run b (query this) s in
    let d := run b (direct c) s in
    returned o = (fun x => (x, this)) <$> returned d
    /\ final o = final d
    /\ trace o = trace d.

(** The same query, twice in a row. *)
Definition twice {W X : Type} (query : method W X) : method W (X * X) :=
  x ← query; y ← query; mret (x, y).

(** Both answers of [twice query] are the value [v]. *)
Definition answers_twice {W X S : Type} (b : backend S) (s : S)
           (query : method W X) (this : W) (v : X) : Prop :=
  returned (run b (twice query this) s) = Some ((v, v), this).

(** The handle operations that only read. *)
Definition call_is_getter {X : Type} (c : FSCall X) : bool :=
  match c with
  | OnSequentialFile _ m =>
      match m with
      | FSSequentialFile.use_direct_io
      | FSSequentialFile.GetRequiredBufferAlignment => true
      | _ => false
      end
  | OnRandomAccessFile _ m =>
      match m with
      | FSRandomAccessFile.use_direct_io
      | FSRandomAccessFile.GetRequiredBufferAlignment => true
      | _ => false
      end
  | OnWritableFile _ m =>
      match m with
      | FSWritableFile.use_direct_io
      | FSWritableFile.GetRequiredBufferAlignment
      | FSWritableFile.GetWriteLifeTimeHint => true
      | _ => false
      end
  | OnRandomRWFile _ m =>
      match m with
      | FSRandomRWFile.use_direct_io
      | FSRandomRWFile.GetRequiredBufferAlignment => true
      | _ => false
      end
  | _ => false
  end.

Ltac passes_through_by_computation :=
  let S := fresh "S" in
  let b := fresh "b" in
  let s := fresh "s" in
  intros S b s; simpl;
  match goal with |- context [b ?X ?c s] => destruct (b X c s) end;
  done.

(** ** What a call hands back, and what it is given *)

(** What an operation returns to its caller, the debug context apart:
    the value it returns and what it leaves in its output parameters. *)
Inductive payload : Type :=
| ReturnsStatus (s : Status)
| ReturnsRead (s : Status) (result : Slice)
| ReturnsBatch (s : Status) (outcomes : list (Slice * Status))
| ReturnsFlag (b : bool)
| ReturnsSize (n : N)
| ReturnsSizes (block_size last_allocated_block : N)
| ReturnsHint (hint : WriteLifeTimeHint)
| ReturnsNothing.

(** The result slice and the status a request of a batched read carries
    back, on either side. *)
Definition legacy_request_outcome (req : ReadRequest) : Slice * Status :=
  (ReadRequest.result req, ReadRequest.status req).

Definition modern_request_outcome (fs_req : FSReadRequest) : Slice * Status :=
  (FSReadRequest.result fs_req, FSReadRequest.status fs_req).

(** What a call on a file or directory handle hands back, read off its
    answer; a creation call is not a call of a wrapper. *)
Definition call_returns {X : Type} (c : FSCall X) : X -> option payload :=
  match c in FSCall X return X -> option payload with
  | OnSequentialFile _ m =>
      match m in FSSequentialFile.method X return X -> option payload with
      | FSSequentialFile.Read _ _ _ _ _
      | FSSequentialFile.PositionedRead _ _ _ _ _ _ =>
          fun '(s, result, _) => Some (ReturnsRead s result)
      | FSSequentialFile.Skip _
      | FSSequentialFile.InvalidateCache _ _ =>
          fun s => Some (ReturnsStatus s)
      | FSSequentialFile.use_direct_io => fun b => Some (ReturnsFlag b)
      | FSSequentialFile.GetRequiredBufferAlignment =>
          fun n => Some (ReturnsSize n)
      end
  | OnRandomAccessFile _ m =>
      match m in FSRandomAccessFile.method X return X -> option payload with
      | FSRandomAccessFile.Read _ _ _ _ _ _ =>
          fun '(s, result, _) => Some (ReturnsRead s result)
      | FSRandomAccessFile.MultiRead _ _ _ _ =>
          fun '(s, fs_reqs, _) =>
            Some (ReturnsBatch s
                    (modern_request_outcome <$> vec_to_list fs_reqs))
      | FSRandomAccessFile.Prefetch _ _ _ _ =>
          fun '(s, _) => Some (ReturnsStatus s)
      | FSRandomAccessFile.GetUniqueId _ _
      | FSRandomAccessFile.GetRequiredBufferAlignment =>
          fun n => Some (ReturnsSize n)
      | FSRandomAccessFile.Hint _ => fun _ => Some ReturnsNothing
      | FSRandomAccessFile.use_direct_io => fun b => Some (ReturnsFlag b)
      | FSRandomAccessFile.InvalidateCache _ _ =>
          fun s => Some (ReturnsStatus s)
      end
  | OnWritableFile _ m =>
      match m in FSWritableFile.method X return X -> option payload with
      | FSWritableFile.Append _ _ _
      | FSWritableFile.AppendVerified _ _ _ _
      | FSWritableFile.PositionedAppend _ _ _ _
      | FSWritableFile.PositionedAppendVerified _ _ _ _ _
      | FSWritableFile.Truncate _ _ _
      | FSWritableFile.Close _ _
      | FSWritableFile.Flush _ _
      | FSWritableFile.Sync _ _
      | FSWritableFile.Fsync _ _
      | FSWritableFile.RangeSync _ _ _ _
      | FSWritableFile.Allocate _ _ _ _ =>
          fun '(s, _) => Some (ReturnsStatus s)
      | FSWritableFile.IsSyncThreadSafe
      | FSWritableFile.use_direct_io => fun b => Some (ReturnsFlag b)
      | FSWritableFile.GetRequiredBufferAlignment
      | FSWritableFile.GetUniqueId _ _ => fun n => Some (ReturnsSize n)
      | FSWritableFile.SetWriteLifeTimeHint _
      | FSWritableFile.SetPreallocationBlockSize _ =>
          fun _ => Some ReturnsNothing
      | FSWritableFile.GetWriteLifeTimeHint =>
          fun hint => Some (ReturnsHint hint)
      | FSWritableFile.GetFileSize _ _ => fun '(n, _) => Some (ReturnsSize n)
      | FSWritableFile.GetPreallocationStatus _ _ =>
          fun '(block_size, last_allocated_block) =>
            Some (ReturnsSizes block_size last_allocated_block)
      | FSWritableFile.InvalidateCache _ _ =>
          fun s => Some (ReturnsStatus s)
      | FSWritableFile.PrepareWrite _ _ _ _ => fun _ => Some ReturnsNothing
      end
  | OnRandomRWFile _ m =>
      match m in FSRandomRWFile.method X return X -> option payload with
      | FSRandomRWFile.use_direct_io => fun b => Some (ReturnsFlag b)
      | FSRandomRWFile.GetRequiredBufferAlignment =>
          fun n => Some (ReturnsSize n)
      | FSRandomRWFile.Read _ _ _ _ _ _ =>
          fun '(s, result, _) => Some (ReturnsRead s result)
      | FSRandomRWFile.Write _ _ _ _
      | FSRandomRWFile.Flush _ _
      | FSRandomRWFile.Sync _ _
      | FSRandomRWFile.Fsync _ _
      | FSRandomRWFile.Close _ _ => fun '(s, _) => Some (ReturnsStatus s)
      end
  | OnDirectory _ m =>
      match m in FSDirectory.method X return X -> option payload with
      | FSDirectory.FsyncWithDirOptions _ _ _ =>
          fun '(s, _) => Some (ReturnsStatus s)
      | FSDirectory.GetUniqueId _ _ => fun n => Some (ReturnsSize n)
      end
  | OnFileSystem _ _ => fun _ => None
  end.

(** What each legacy method returns to its caller.  A batched read
    returns its status and, in the first [num_reqs] requests, their
    result slices and statuses. *)
Definition SequentialFile_returns {X : Type} (m : SequentialFile.method X)
  : X -> payload :=
  match m in SequentialFile.method X return X -> payload with
  | SequentialFile.Read _ _ _
  | SequentialFile.PositionedRead _ _ _ _ =>
      fun '(s, result) => ReturnsRead s result
  | SequentialFile.Skip _
  | SequentialFile.InvalidateCache _ _ => fun s => ReturnsStatus s
  | SequentialFile.use_direct_io => fun b => ReturnsFlag b
  | SequentialFile.GetRequiredBufferAlignment => fun n => ReturnsSize n
  end.

Definition RandomAccessFile_returns {X : Type}
           (m : RandomAccessFile.method X) : X -> payload :=
  match m in RandomAccessFile.method X return X -> payload with
  | RandomAccessFile.Read _ _ _ _ => fun '(s, result) => ReturnsRead s result
  | RandomAccessFile.MultiRead _ num_reqs =>
      fun '(s, reqs) =>
        ReturnsBatch s
          (legacy_request_outcome <$> take (N.to_nat num_reqs) reqs)
  | RandomAccessFile.Prefetch _ _
  | RandomAccessFile.InvalidateCache _ _ => fun s => ReturnsStatus s
  | RandomAccessFile.GetUniqueId _ _
  | RandomAccessFile.GetRequiredBufferAlignment => fun n => ReturnsSize n
  | RandomAccessFile.Hint _ => fun _ => ReturnsNothing
  | RandomAccessFile.use_direct_io => fun b => ReturnsFlag b
  end.

Definition WritableFile_returns {X : Type} (m : WritableFile.method X)
  : X -> payload :=
  match m in WritableFile.method X return X -> payload with
  | WritableFile.Append _
  | WritableFile.AppendVerified _ _
  | WritableFile.PositionedAppend _ _
  | WritableFile.PositionedAppendVerified _ _ _
  | WritableFile.Truncate _
  | WritableFile.Close
  | WritableFile.Flush
  | WritableFile.Sync
  | WritableFile.Fsync
  | WritableFile.InvalidateCache _ _
  | WritableFile.RangeSync _ _
  | WritableFile.Allocate _ _ => fun s => ReturnsStatus s
  | WritableFile.IsSyncThreadSafe
  | WritableFile.use_direct_io => fun b => ReturnsFlag b
  | WritableFile.GetRequiredBufferAlignment
  | WritableFile.GetFileSize
  | WritableFile.GetUniqueId _ _ => fun n => ReturnsSize n
  | WritableFile.SetWriteLifeTimeHint _
  | WritableFile.SetPreallocationBlockSize _
  | WritableFile.PrepareWrite _ _ => fun _ => ReturnsNothing
  | WritableFile.GetWriteLifeTimeHint => fun hint => ReturnsHint hint
  | WritableFile.GetPreallocationStatus _ _ =>
      fun '(block_size, last_allocated_block) =>
        ReturnsSizes block_size last_allocated_block
  end.

Definition RandomRWFile_returns {X : Type} (m : RandomRWFile.method X)
  : X -> payload :=
  match m in RandomRWFile.method X return X -> payload with
  | RandomRWFile.use_direct_io => fun b => ReturnsFlag b
  | RandomRWFile.GetRequiredBufferAlignment => fun n => ReturnsSize n
  | RandomRWFile.Read _ _ _ _ => fun '(s, result) => ReturnsRead s result
  | RandomRWFile.Write _ _
  | RandomRWFile.Flush
  | RandomRWFile.Sync
  | RandomRWFile.Fsync
  | RandomRWFile.Close => fun s => ReturnsStatus s
  end.

Definition Directory_returns {X : Type} (m : Directory.method X)
  : X -> payload :=
  match m in Directory.method X return X -> payload with
  | Directory.Fsync => fun s => ReturnsStatus s
  | Directory.GetUniqueId _ _ => fun n => ReturnsSize n
  end.

(** For one legacy class: where a call is [defined], the method makes
    one call, leaves the FileSystem side as that call left it, and
    returns to its caller what that call handed back. *)
Definition relays_results {W : Type} {M : Type -> Type}
           (invoke : forall X : Type, M X -> method W X)
           (defined : W -> forall X : Type, M X -> Prop)
           (returns : forall X : Type, M X -> X -> payload) : Prop :=
  forall (X : Type) (m : M X) (this : W),
    defined this X m ->
    forall (S : Type) (b : backend S) (s : S),
      let o := run b (invoke X m this) s in
      exists (Y : Type) (c : FSCall Y) (r : X),
        trace o = [Event c]
        /\ final o = (b Y c s).2
        /\ returned o = Some (r, this)
        /\ call_returns c (b Y c s).1 = Some (returns X m r).

(** One argument of an operation, the options and the debug context
    apart. *)
Inductive argument : Type :=
| ArgNumber (n : N)
| ArgData (data : Slice)
| ArgResult (result : Slice)
| ArgBuffer (p : char_ptr)
| ArgVerification (verification_info : DataVerificationInfo)
| ArgHint (hint : WriteLifeTimeHint)
| ArgPattern (ordinal : N)
| ArgRequests (reqs : list (uint64_t * size_t * char_ptr)).

Definition legacy_request_input (req : ReadRequest)
  : uint64_t * size_t * char_ptr :=
  (ReadRequest.offset req, ReadRequest.len req, ReadRequest.scratch req).

Definition modern_request_input (fs_req : FSReadRequest)
  : uint64_t * size_t * char_ptr :=
  (FSReadRequest.offset fs_req, FSReadRequest.len fs_req,
   FSReadRequest.scratch fs_req).

(** The arguments of a call on a file or directory handle, in the order
    of the call. *)
Definition call_arguments {X : Type} (c : FSCall X) : list argument :=
  match c with
  | OnSequentialFile _ m =>
      match m with
      | FSSequentialFile.Read n _ result scratch _ =>
          [ArgNumber n; ArgResult result; ArgBuffer scratch]
      | FSSequentialFile.Skip n => [ArgNumber n]
      | FSSequentialFile.use_direct_io
      | FSSequentialFile.GetRequiredBufferAlignment => []
      | FSSequentialFile.InvalidateCache offset length =>
          [ArgNumber offset; ArgNumber length]
      | FSSequentialFile.PositionedRead offset n _ result scratch _ =>
          [ArgNumber offset; ArgNumber n; ArgResult result; ArgBuffer scratch]
      end
  | OnRandomAccessFile _ m =>
      match m with
      | FSRandomAccessFile.Read offset n _ result scratch _ =>
          [ArgNumber offset; ArgNumber n; ArgResult result; ArgBuffer scratch]
      | FSRandomAccessFile.MultiRead reqs num_reqs _ _ =>
          [ArgRequests (modern_request_input <$> reqs); ArgNumber num_reqs]
      | FSRandomAccessFile.Prefetch offset n _ _ =>
          [ArgNumber offset; ArgNumber n]
      | FSRandomAccessFile.GetUniqueId id max_size =>
          [ArgBuffer id; ArgNumber max_size]
      | FSRandomAccessFile.Hint pattern =>
          [ArgPattern (fs_pattern_ordinal pattern)]
      | FSRandomAccessFile.use_direct_io
      | FSRandomAccessFile.GetRequiredBufferAlignment => []
      | FSRandomAccessFile.InvalidateCache offset length =>
          [ArgNumber offset; ArgNumber length]
      end
  | OnWritableFile _ m =>
      match m with
      | FSWritableFile.Append data _ _ => [ArgData data]
      | FSWritableFile.AppendVerified data _ verification_info _ =>
          [ArgData data; ArgVerification verification_info]
      | FSWritableFile.PositionedAppend data offset _ _ =>
          [ArgData data; ArgNumber offset]
      | FSWritableFile.PositionedAppendVerified data offset _
                                               verification_info _ =>
          [ArgData data; ArgNumber offset; ArgVerification verification_info]
      | FSWritableFile.Truncate size _ _ => [ArgNumber size]
      | FSWritableFile.Close _ _
      | FSWritableFile.Flush _ _
      | FSWritableFile.Sync _ _
      | FSWritableFile.Fsync _ _
      | FSWritableFile.IsSyncThreadSafe
      | FSWritableFile.use_direct_io
      | FSWritableFile.GetRequiredBufferAlignment
      | FSWritableFile.GetWriteLifeTimeHint
      | FSWritableFile.GetFileSize _ _ => []
      | FSWritableFile.SetWriteLifeTimeHint hint => [ArgHint hint]
      | FSWritableFile.SetPreallocationBlockSize size => [ArgNumber size]
      | FSWritableFile.GetPreallocationStatus block_size
                                             last_allocated_block =>
          [ArgNumber block_size; ArgNumber last_allocated_block]
      | FSWritableFile.GetUniqueId id max_size =>
          [ArgBuffer id; ArgNumber max_size]
      | FSWritableFile.InvalidateCache offset length =>
          [ArgNumber offset; ArgNumber length]
      | FSWritableFile.RangeSync offset nbytes _ _ =>
          [ArgNumber offset; ArgNumber nbytes]
      | FSWritableFile.PrepareWrite offset len _ _ =>
          [ArgNumber offset; ArgNumber len]
      | FSWritableFile.Allocate offset len _ _ =>
          [ArgNumber offset; ArgNumber len]
      end
  | OnRandomRWFile _ m =>
      match m with
      | FSRandomRWFile.use_direct_io
      | FSRandomRWFile.GetRequiredBufferAlignment
      | FSRandomRWFile.Flush _ _
      | FSRandomRWFile.Sync _ _
      | FSRandomRWFile.Fsync _ _
      | FSRandomRWFile.Close _ _ => []
      | FSRandomRWFile.Write offset data _ _ =>
          [ArgNumber offset; ArgData data]
      | FSRandomRWFile.Read offset n _ result scratch _ =>
          [ArgNumber offset; ArgNumber n; ArgResult result; ArgBuffer scratch]
      end
  | OnDirectory _ m =>
      match m with
      | FSDirectory.FsyncWithDirOptions _ _ _ => []
      | FSDirectory.GetUniqueId id max_size =>
          [ArgBuffer id; ArgNumber max_size]
      end
  | OnFileSystem _ _ => []
  end.

(** The arguments each legacy method is called with, in the order of its
    signature.  A batched read is given the offset, length and buffer of
    its first [num_reqs] requests. *)
Definition SequentialFile_arguments {X : Type} (m : SequentialFile.method X)
  : list argument :=
  match m with
  | SequentialFile.Read n result scratch =>
      [ArgNumber n; ArgResult result; ArgBuffer scratch]
  | SequentialFile.Skip n => [ArgNumber n]
  | SequentialFile.use_direct_io
  | SequentialFile.GetRequiredBufferAlignment => []
  | SequentialFile.InvalidateCache offset length =>
      [ArgNumber offset; ArgNumber length]
  | SequentialFile.PositionedRead offset n result scratch =>
      [ArgNumber offset; ArgNumber n; ArgResult result; ArgBuffer scratch]
  end.

Definition RandomAccessFile_arguments {X : Type}
           (m : RandomAccessFile.method X) : list argument :=
  match m with
  | RandomAccessFile.Read offset n result scratch =>
      [ArgNumber offset; ArgNumber n; ArgResult result; ArgBuffer scratch]
  | RandomAccessFile.MultiRead reqs num_reqs =>
      [ArgRequests (legacy_request_input <$> take (N.to_nat num_reqs) reqs);
       ArgNumber num_reqs]
  | RandomAccessFile.Prefetch offset n => [ArgNumber offset; ArgNumber n]
  | RandomAccessFile.GetUniqueId id max_size =>
      [ArgBuffer id; ArgNumber max_size]
  | RandomAccessFile.Hint pattern => [ArgPattern (pattern_ordinal pattern)]
  | RandomAccessFile.use_direct_io
  | RandomAccessFile.GetRequiredBufferAlignment => []
  | RandomAccessFile.InvalidateCache offset length =>
      [ArgNumber offset; ArgNumber length]
  end.

Definition WritableFile_arguments {X : Type} (m : WritableFile.method X)
  : list argument :=
  match m with
  | WritableFile.Append data => [ArgData data]
  | WritableFile.AppendVerified data verification_info =>
      [ArgData data; ArgVerification verification_info]
  | WritableFile.PositionedAppend data offset =>
      [ArgData data; ArgNumber offset]
  | WritableFile.PositionedAppendVerified data offset verification_info =>
      [ArgData data; ArgNumber offset; ArgVerification verification_info]
  | WritableFile.Truncate size => [ArgNumber size]
  | WritableFile.Close
  | WritableFile.Flush
  | WritableFile.Sync
  | WritableFile.Fsync
  | WritableFile.IsSyncThreadSafe
  | WritableFile.use_direct_io
  | WritableFile.GetRequiredBufferAlignment
  | WritableFile.GetWriteLifeTimeHint
  | WritableFile.GetFileSize => []
  | WritableFile.SetWriteLifeTimeHint hint => [ArgHint hint]
  | WritableFile.SetPreallocationBlockSize size => [ArgNumber size]
  | WritableFile.GetPreallocationStatus block_size last_allocated_block =>
      [ArgNumber block_size; ArgNumber last_allocated_block]
  | WritableFile.GetUniqueId id max_size => [ArgBuffer id; ArgNumber max_size]
  | WritableFile.InvalidateCache offset length =>
      [ArgNumber offset; ArgNumber length]
  | WritableFile.RangeSync offset nbytes =>
      [ArgNumber offset; ArgNumber nbytes]
  | WritableFile.PrepareWrite offset len => [ArgNumber offset; ArgNumber len]
  | WritableFile.Allocate offset len => [ArgNumber offset; ArgNumber len]
  end.

Definition RandomRWFile_arguments {X : Type} (m : RandomRWFile.method X)
  : list argument :=
  match m with
  | RandomRWFile.use_direct_io
  | RandomRWFile.GetRequiredBufferAlignment
  | RandomRWFile.Flush
  | RandomRWFile.Sync
  | RandomRWFile.Fsync
  | RandomRWFile.Close => []
  | RandomRWFile.Write offset data => [ArgNumber offset; ArgData data]
  | RandomRWFile.Read offset n result scratch =>
      [ArgNumber offset; ArgNumber n; ArgResult result; ArgBuffer scratch]
  end.

Definition Directory_arguments {X : Type} (m : Directory.method X)
  : list argument :=
  match m with
  | Directory.Fsync => []
  | Directory.GetUniqueId id max_size => [ArgBuffer id; ArgNumber max_size]
  end.

(** For one legacy class: where a call is [defined], the method makes
    one call, whose arguments are the ones it was given, in order. *)
Definition forwards_arguments {W : Type} {M : Type -> Type}
           (invoke : forall X : Type, M X -> method W X)
           (defined : W -> forall X : Type, M X -> Prop)
           (arguments : forall X : Type, M X -> list argument) : Prop :=
  forall (X : Type) (m : M X) (this : W),
    defined this X m ->
    calls_once (fun _ c => call_arguments c = arguments X m) this
      (invoke X m this).

(** A call forwarded as [forwarded] says, with exactly the arguments
    [arguments]. *)
Definition carries (target : option receiver) (context close : bool)
           (arguments : list argument)
  : forall X : Type, FSCall X -> Prop :=
  fun X c =>
    forwarded target context close X c /\ call_arguments c = arguments.

(** ** Sequences, call by call *)

(** For one legacy class: a sequence of [defined] calls on one object
    returns, and makes one call of the FileSystem side for each legacy
    call, in the same order, each satisfying [P] for its legacy call. *)
Definition one_to_one {W : Type} {M : Type -> Type}
           (invoke : forall X : Type, M X -> method W X)
           (defined : W -> forall X : Type, M X -> Prop)
           (P : W -> forall X : Type, M X -> forall Y : Type, FSCall Y -> Prop)
  : Prop :=
  forall (ms : list (sigT M)) (this : W),
    Forall (fun xm => defined this (projT1 xm) (projT2 xm)) ms ->
    forall (S : Type) (b : backend S) (s : S),
      let o := run b (invoke_all invoke ms this) s in
      returned o = Some (tt, this)
      /\ Forall2
           (fun xm e => on_event (P this (projT1 xm) (projT2 xm)) e)
           ms (trace o).

(** ** A creation that succeeds without a handle *)

(** No legacy operation on the wrapper [w] a creation method handed back
    is defined, and none reaches the FileSystem side. *)
Definition unusable {H W : Type} (m : Env.method H W) : W -> Prop :=
  match m in Env.method H W return W -> Prop with
  | Env.NewSequentialFile _ _ => fun w =>
      forall (X : Type) (l : SequentialFile.method X),
        CompositeSequentialFileWrapper.invoke l w = UB
  | Env.NewRandomAccessFile _ _ => fun w =>
      forall (X : Type) (l : RandomAccessFile.method X),
        CompositeRandomAccessFileWrapper.invoke l w = UB
  | Env.NewWritableFile _ _
  | Env.ReopenWritableFile _ _
  | Env.ReuseWritableFile _ _ _ => fun w =>
      forall (X : Type) (l : WritableFile.method X),
        CompositeWritableFileWrapper.invoke l w = UB
  | Env.NewRandomRWFile _ _ => fun w =>
      forall (X : Type) (l : RandomRWFile.method X),
        CompositeRandomRWFileWrapper.invoke l w = UB
  | Env.NewDirectory _ => fun w =>
      forall (X : Type) (l : Directory.method X),
        CompositeDirectoryWrapper.invoke l w = UB
  end.

(** A FileSystem whose creation calls answer ok and leave the handle as
    it was passed; on handles it answers as the test double does. *)
Definition hollow_file_system {X : Type} (m : FileSystem.method X) : X :=
  match m with
  | FileSystem.NewSequentialFile _ _ result dbg => (IOStatus.OK, result, dbg)
  | FileSystem.NewRandomAccessFile _ _ result dbg =>
      (IOStatus.OK, result, dbg)
  | FileSystem.NewWritableFile _ _ result dbg
  | FileSystem.ReopenWritableFile _ _ result dbg
  | FileSystem.ReuseWritableFile _ _ _ result dbg =>
      (IOStatus.OK, result, dbg)
  | FileSystem.NewRandomRWFile _ _ result dbg => (IOStatus.OK, result, dbg)
  | FileSystem.NewDirectory _ _ result dbg => (IOStatus.OK, result, dbg)
  end.

Definition hollow_double : backend WriteLifeTimeHint :=
  fun X c hint =>
    match c in FSCall X return X * WriteLifeTimeHint with
    | OnSequentialFile target m =>
        test_double IOStatus.OK _ (OnSequentialFile target m) hint
    | OnRandomAccessFile target m =>
        test_double IOStatus.OK _ (OnRandomAccessFile target m) hint
    | OnWritableFile target m =>
        test_double IOStatus.OK _ (OnWritableFile target m) hint
    | OnRandomRWFile target m =>
        test_double IOStatus.OK _ (OnRandomRWFile target m) hint
    | OnDirectory target m =>
        test_double IOStatus.OK _ (OnDirectory target m) hint
    | OnFileSystem _ m => (hollow_file_system m, hint)
    end.

(** Requests as a later caller may pass them again: the same offsets,
    lengths and buffers, other results and statuses. *)
Definition reused_requests : list ReadRequest :=
  [ {| ReadRequest.offset := 0%N; ReadRequest.len := 10%N;
       ReadRequest.scratch := 100%N;
       ReadRequest.result := {| data_ := 100%N; size_ := 10%N |};
       ReadRequest.status := not_found |};
    {| ReadRequest.offset := 20%N; ReadRequest.len := 30%N;
       ReadRequest.scratch := 200%N; ReadRequest.result := Slice_ctor;
       ReadRequest.status := Status.OK |} ].

(** ** The lifetime of a wrapper *)

#[global] Instance FSSequentialFile_eq_dec : EqDecision FSSequentialFile.
Proof. solve_decision. Defined.

#[global] Instance FSRandomAccessFile_eq_dec : EqDecision FSRandomAccessFile.
Proof. solve_decision. Defined.

#[global] Instance FSWritableFile_eq_dec : EqDecision FSWritableFile.
Proof. solve_decision. Defined.

#[global] Instance FSRandomRWFile_eq_dec : EqDecision FSRandomRWFile.
Proof. solve_decision. Defined.

#[global] Instance FSDirectory_eq_dec : EqDecision FSDirectory.
Proof. solve_decision. Defined.

(** What a wrapper class offers to the code that uses it: its
    constructor, its legacy methods, and [target()] where the class has
    it.  [class_member] is the private member [target_], which the
    implicitly-defined destructor destroys. *)
Record wrapper_class (H W : Type) (M : Type -> Type) : Type :=
  mkWrapperClass {
    class_ctor : unique_ptr H -> W * unique_ptr H;
    class_invoke : forall X : Type, M X -> method W X;
    class_member : W -> unique_ptr H;
    class_target : option (method W (member_ptr W (unique_ptr H)))
  }.
Arguments mkWrapperClass {H W M} class_ctor class_invoke class_member
  class_target.
Arguments class_ctor {H W M} _ _.
Arguments class_invoke {H W M} _ _ _ _.
Arguments class_member {H W M} _ _.
Arguments class_target {H W M} _.

Definition CompositeSequentialFileWrapper_class
  : wrapper_class FSSequentialFile CompositeSequentialFileWrapper.t
      SequentialFile.method :=
  {| class_ctor := CompositeSequentialFileWrapper.ctor;
     class_invoke := @CompositeSequentialFileWrapper.invoke;
     class_member := CompositeSequentialFileWrapper.target_;
     class_target := None |}.

Definition CompositeRandomAccessFileWrapper_class
  : wrapper_class FSRandomAccessFile CompositeRandomAccessFileWrapper.t
      RandomAccessFile.method :=
  {| class_ctor := CompositeRandomAccessFileWrapper.ctor;
     class_invoke := @CompositeRandomAccessFileWrapper.invoke;
     class_member := CompositeRandomAccessFileWrapper.target_;
     class_target := None |}.

Definition CompositeWritableFileWrapper_class
  : wrapper_class FSWritableFile CompositeWritableFileWrapper.t
      WritableFile.method :=
  {| class_ctor := CompositeWritableFileWrapper.ctor;
     class_invoke := @CompositeWritableFileWrapper.invoke;
     class_member := CompositeWritableFileWrapper.target_;
     class_target := Some CompositeWritableFileWrapper.target |}.

Definition CompositeRandomRWFileWrapper_class
  : wrapper_class FSRandomRWFile CompositeRandomRWFileWrapper.t
      RandomRWFile.method :=
  {| class_ctor := CompositeRandomRWFileWrapper.ctor;
     class_invoke := @CompositeRandomRWFileWrapper.invoke;
     class_member := CompositeRandomRWFileWrapper.target_;
     class_target := None |}.

Definition CompositeDirectoryWrapper_class
  : wrapper_class FSDirectory CompositeDirectoryWrapper.t Directory.method :=
  {| class_ctor := CompositeDirectoryWrapper.ctor;
     class_invoke := @CompositeDirectoryWrapper.invoke;
     class_member := CompositeDirectoryWrapper.target_;
     class_target := None |}.

(** What the code around a wrapper can do with it, as far as the class
    lets it: construct it from a pointer of its own, call a legacy
    method, move the handle out through the address [target()] returns
    where the class has [target()], and destroy the wrapper. *)
Inductive action (M : Type -> Type) : Type :=
| Construct
| Invoke {X : Type} (m : M X)
| Take
| Destroy.
Arguments Construct {M}.
Arguments Invoke {M X} m.
Arguments Take {M}.
Arguments Destroy {M}.

Definition is_Take {M : Type -> Type} (a : action M) : bool :=
  match a with
  | Take => true
  | _ => false
  end.

Inductive stage (W : Type) : Type :=
| NotConstructed
| Alive (w : W)
| Destroyed.
Arguments NotConstructed {W}.
Arguments Alive {W} w.
Arguments Destroyed {W}.

(** How a handle is let go: its owner deletes it, or a call closes it.
    And on whose account: the destructor of the wrapper, a legacy
    [Close], another legacy method, or the code that took the handle
    out. *)
Inductive release : Type :=
| Deleted (handle : receiver)
| Closed (handle : receiver).

Inductive cause : Type :=
| ByDestructor
| ByClose
| ByOtherCall
| ByCollaborator.

(** The pointers that can own the handle, the FileSystem side, and the
    releases so far. *)
Record lifetime (H W S : Type) : Type :=
  mkLifetime {
    callers : unique_ptr H;        (* the pointer the constructor is given *)
    wrapper : stage W;
    collaborator : unique_ptr H;   (* a pointer of who holds [&target_] *)
    file_system : S;
    releases : list (cause * release)
  }.
Arguments mkLifetime {H W S} callers wrapper collaborator file_system
  releases.
Arguments callers {H W S} _.
Arguments wrapper {H W S} _.
Arguments collaborator {H W S} _.
Arguments file_system {H W S} _.
Arguments releases {H W S} _.

(** A handle in the caller's pointer, and no wrapper yet. *)
Definition before_construction {H W S : Type} (h : H) (s : S)
  : lifetime H W S :=
  {| callers := Some h; wrapper := NotConstructed; collaborator := nullptr;
     file_system := s; releases := [] |}.

(** The calls among [calls] that close the handle they are made on. *)
Definition closes (why : cause) (calls : list FSEvent)
  : list (cause * release) :=
  (fun e => (why, Closed (on_event (@call_receiver) e)))
  <$> filter (fun e => on_event (@call_is_close) e = true) calls.

(** The objects a pointer deletes when it is destroyed or assigned. *)
Definition deletes {H : Type} (why : cause) (at_ : H -> receiver)
           (p : unique_ptr H) : list (cause * release) :=
  (fun h => (why, Deleted (at_ h))) <$> unique_ptr_dtor p.

(** One action.  [Construct] is [W w(callers)].  [Invoke m] is [w.m(..)];
    it is not defined where the method is not.  [Take] is
    [collaborator = std::move( *w.target())], which does not compile for
    a class without [target()].  [Destroy] ends the lifetime of [w]: the
    class declares no destructor, so its member [target_] is destroyed
    and deletes what it owns.  No action is defined on a wrapper that
    does not exist. *)
Definition lifetime_step {H W S : Type} {M : Type -> Type}
           (cls : wrapper_class H W M) (at_ : H -> receiver)
           (is_close : forall X : Type, M X -> bool) (b : backend S)
           (a : action M) (st : lifetime H W S) : option (lifetime H W S) :=
  match a, wrapper st with
  | Construct, NotConstructed =>
      let '(w, target) := class_ctor cls (callers st) in
      Some {| callers := target; wrapper := Alive w;
              collaborator := collaborator st;
              file_system := file_system st; releases := releases st |}
  | Invoke m, Alive w =>
      let o := run b (class_invoke cls _ m w) (file_system st) in
      match returned o with
      | Some (_, w') =>
          Some {| callers := callers st; wrapper := Alive w';
                  collaborator := collaborator st;
                  file_system := final o;
                  releases :=
                    releases st
                    ++ closes (if is_close _ m then ByClose else ByOtherCall)
                         (trace o) |}
      | None => None
      end
  | Take, Alive w =>
      match class_target cls with
      | Some target =>
          let o := run b (target w) (file_system st) in
          match returned o with
          | Some (p, w') =>
              let '(moved, emptied) := std_move (load p w') in
              Some {| callers := callers st;
                      wrapper := Alive (store p emptied w');
                      collaborator := moved;
                      file_system := final o;
                      releases :=
                        releases st
                        ++ deletes ByCollaborator at_ (collaborator st)
                        ++ closes ByOtherCall (trace o) |}
          | None => None
          end
      | None => None
      end
  | Destroy, Alive w =>
      Some {| callers := callers st; wrapper := Destroyed;
              collaborator := collaborator st;
              file_system := file_system st;
              releases :=
                releases st ++ deletes ByDestructor at_ (class_member cls w) |}
  | _, _ => None
  end.

Fixpoint lifetime_run {H W S : Type} {M : Type -> Type}
         (cls : wrapper_class H W M) (at_ : H -> receiver)
         (is_close : forall X : Type, M X -> bool) (b : backend S)
         (acts : list (action M)) (st : lifetime H W S)
  : option (lifetime H W S) :=
  match acts with
  | [] => Some st
  | a :: acts' =>
      match lifetime_step cls at_ is_close b a st with
      | Some st' => lifetime_run cls at_ is_close b acts' st'
      | None => None
      end
  end.

(** The pointers that hold the handle [h]. *)
Inductive owner : Type := Caller | Wrapper | Collaborator.

Definition owners {H W S : Type} {M : Type -> Type} `{EqDecision H}
           (cls : wrapper_class H W M) (st : lifetime H W S) (h : H)
  : list owner :=
  (if decide (callers st = Some h) then [Caller] else [])
  ++ match wrapper st with
     | Alive w => if decide (class_member cls w = Some h) then [Wrapper] else []
     | _ => []
     end
  ++ (if decide (collaborator st = Some h) then [Collaborator] else []).

(** Exclusive ownership of [h], stage by stage.  Before construction the
    caller's pointer is its one owner and nothing has let go of it.
    While the wrapper lives, the wrapper is its one owner, nothing has
    deleted it, and it was closed only by calls a legacy [Close] made.
    Once the wrapper is destroyed nothing owns it: the destructor of the
    wrapper has deleted it, once, at the end. *)
Definition exclusively_owned {H W S : Type} {M : Type -> Type}
           `{EqDecision H} (cls : wrapper_class H W M)
           (at_ : H -> receiver) (h : H) (st : lifetime H W S) : Prop :=
  match wrapper st with
  | NotConstructed => owners cls st h = [Caller] /\ releases st = []
  | Alive _ =>
      owners cls st h = [Wrapper]
      /\ Forall (eq (ByClose, Closed (at_ h))) (releases st)
  | Destroyed =>
      owners cls st h = []
      /\ exists closed,
          releases st = closed ++ [(ByDestructor, Deleted (at_ h))]
          /\ Forall (eq (ByClose, Closed (at_ h))) closed
  end.

(** For one wrapper class: whatever [allowed] actions the surrounding
    code takes, against whatever implementation, as far as they are
    defined, the handle stays exclusively owned. *)
Definition owned_throughout {H W : Type} {M : Type -> Type} `{EqDecision H}
           (cls : wrapper_class H W M) (at_ : H -> receiver)
           (is_close : forall X : Type, M X -> bool)
           (allowed : action M -> Prop) : Prop :=
  forall (S : Type) (b : backend S) (s : S) (h : H) (acts : list (action M))
         (st : lifetime H W S),
    Forall allowed acts ->
    lifetime_run cls at_ is_close b acts (before_construction h s) = Some st ->
    exclusively_owned cls at_ h st.

(** For one wrapper class: a lifetime that constructs the wrapper from a
    handle, makes any sequence of [defined] legacy calls and destroys
    the wrapper is defined from end to end. *)
Definition lives_through {H W : Type} {M : Type -> Type}
           (cls : wrapper_class H W M) (at_ : H -> receiver)
           (is_close : forall X : Type, M X -> bool)
           (defined : forall X : Type, M X -> Prop) : Prop :=
  forall (S : Type) (b : backend S) (s : S) (h : H) (ms : list (sigT M)),
    Forall (fun xm => defined (projT1 xm) (projT2 xm)) ms ->
    exists st,
      lifetime_run cls at_ is_close b
        (Construct :: ((fun xm => Invoke (projT2 xm)) <$> ms) ++ [Destroy])
        (before_construction h s)
      = Some st
      /\ wrapper st = Destroyed.

(** * Properties *)

(** ** Running sequences *)

Lemma run_bind {S A B : Type} (b : backend S) (f : A -> io B) (m : io A)
      (s : S) :
  run b (io_bind f m) s =
  let o := run b m s in
  match returned o with
  | Some a =>
      let o' := run b (f a) (final o) in
      mkOutcome (returned o') (final o') (trace o ++ trace o')
  | None => mkOutcome None (final o) (trace o)
  end.
Proof.
  revert s. induction m as [a| |X c k IH]; intros s; simpl.
  - by destruct (run b (f a) s).
  - done.
  - destruct (b X c s) as [x s']. rewrite IH. simpl.
    by destruct (returned (run b (k x) s')).
Qed.

(** ** The two loops of [MultiRead] *)

Section MultiRead_loops.
Import CompositeRandomAccessFileWrapper.
Variable this : CompositeRandomAccessFileWrapper.t.

Lemma fill_request_at (reqs : list ReadRequest) (fs_reqs : list FSReadRequest)
      (i : nat) (req : ReadRequest) :
  reqs !! i = Some req ->
  fs_reqs !! i = Some FSReadRequest.ctor ->
  fill_request reqs i fs_reqs this =
  Ret (<[i := modern_request req]> fs_reqs, this).
Proof.
  intros Hreq Hfs. unfold fill_request, index, mbind, method_bind.
  rewrite Hreq. simpl. by rewrite Hfs.
Qed.

Lemma copy_back_at (fs_reqs : list FSReadRequest) (reqs : list ReadRequest)
      (i : nat) (fs_req : FSReadRequest) (req : ReadRequest) :
  fs_reqs !! i = Some fs_req ->
  reqs !! i = Some req ->
  copy_back fs_reqs i reqs this =
  Ret (<[i := legacy_outcome fs_req req]> reqs, this).
Proof.
  intros Hfs Hreq. unfold copy_back, index, mbind, method_bind.
  rewrite Hfs. simpl. by rewrite Hreq.
Qed.

(** Invariant of the first loop: after [count] rounds from index [i],
    the elements in [i, i + count) are the translated requests and the
    others are untouched. *)
Lemma fill_loop (reqs : list ReadRequest) (count : nat) :
  forall (i : nat) (fs_reqs : list FSReadRequest),
    i + count <= length reqs ->
    (forall j, i <= j < i + count -> fs_reqs !! j = Some FSReadRequest.ctor) ->
    exists fs_reqs',
      for_loop count i (fill_request reqs) fs_reqs this = Ret (fs_reqs', this)
      /\ length fs_reqs' = length fs_reqs
      /\ forall j,
          fs_reqs' !! j =
          if decide (i <= j < i + count)
          then modern_request <$> reqs !! j
          else fs_reqs !! j.
Proof.
  induction count as [|count IH]; intros i fs_reqs Hlen Hfresh.
  - exists fs_reqs. split_and!; [done..|].
    intros j. case_decide; [lia|done].
  - destruct (lookup_lt_is_Some_2 reqs i) as [req Hreq]; [lia|].
    assert (Hi : fs_reqs !! i = Some FSReadRequest.ctor) by (apply Hfresh; lia).
    destruct (IH (S i) (<[i := modern_request req]> fs_reqs))
      as (fs_reqs' & Hrun & Hlen' & Hat); [lia| |].
    { intros j Hj. rewrite list_lookup_insert_ne by lia. apply Hfresh. lia. }
    exists fs_reqs'. split_and!.
    + simpl. unfold mbind, method_bind.
      rewrite (fill_request_at _ _ _ _ Hreq Hi). simpl. exact Hrun.
    + by rewrite Hlen', length_insert.
    + intros j. rewrite Hat.
      destruct (decide (j = i)) as [->|Hne].
      * rewrite decide_False by lia. rewrite decide_True by lia.
        rewrite list_lookup_insert_eq by (by eapply lookup_lt_Some).
        by rewrite Hreq.
      * rewrite list_lookup_insert_ne by done.
        repeat case_decide; (done || lia).
Qed.

(** Invariant of the second loop. *)
Lemma copy_back_loop (fs_reqs : list FSReadRequest) (count : nat) :
  forall (i : nat) (reqs : list ReadRequest),
    i + count <= length reqs ->
    i + count <= length fs_reqs ->
    exists reqs',
      for_loop count i (copy_back fs_reqs) reqs this = Ret (reqs', this)
      /\ length reqs' = length reqs
      /\ forall j,
          reqs' !! j =
          if decide (i <= j < i + count)
          then fs_req ← fs_reqs !! j; req ← reqs !! j;
               Some (legacy_outcome fs_req req)
          else reqs !! j.
Proof.
  induction count as [|count IH]; intros i reqs Hlen Hfs.
  - exists reqs. split_and!; [done..|].
    intros j. case_decide; [lia|done].
  - destruct (lookup_lt_is_Some_2 reqs i) as [req Hreq]; [lia|].
    destruct (lookup_lt_is_Some_2 fs_reqs i) as [fs_req Hfs_req]; [lia|].
    destruct (IH (S i) (<[i := legacy_outcome fs_req req]> reqs))
      as (reqs' & Hrun & Hlen' & Hat);
      [rewrite length_insert; lia|lia|].
    exists reqs'. split_and!.
    + simpl. unfold mbind, method_bind.
      rewrite (copy_back_at _ _ _ _ _ Hfs_req Hreq). simpl. exact Hrun.
    + by rewrite Hlen', length_insert.
    + intros j. rewrite Hat.
      destruct (decide (j = i)) as [->|Hne].
      * rewrite decide_False by lia. rewrite decide_True by lia.
        rewrite list_lookup_insert_eq by (by eapply lookup_lt_Some).
        by rewrite Hfs_req, Hreq.
      * rewrite list_lookup_insert_ne by done.
        repeat case_decide; (done || lia).
Qed.

End MultiRead_loops.

(** ** [MultiRead] as one batched call *)

Lemma modern_requests_length (reqs : list ReadRequest) (n : nat) :
  n <= length reqs -> length (modern_request <$> take n reqs) = n.
Proof. intros Hn. rewrite length_fmap, length_take. lia. Qed.

Lemma MultiRead_run {S : Type} (b : backend S) (s : S)
      (target : FSRandomAccessFile) (reqs : list ReadRequest)
      (num_reqs : size_t) :
  N.to_nat num_reqs <= length reqs ->
  let this := CompositeRandomAccessFileWrapper.mk (Some target) in
  let n := N.to_nat num_reqs in
  let c :=
    OnRandomAccessFile target
      (FSRandomAccessFile.MultiRead (modern_request <$> take n reqs) num_reqs
         IOOptions_ctor IODebugContext_ctor) in
  run b (CompositeRandomAccessFileWrapper.MultiRead reqs num_reqs this) s =
  let '(status, fs_reqs', _, s') := b _ c s in
  mkOutcome
    (Some (status,
           zip_with legacy_outcome (vec_to_list fs_reqs') (take n reqs)
             ++ drop n reqs,
           this))
    s' [Event c].
Proof.
  intros Hn this n c. subst c.
  unfold CompositeRandomAccessFileWrapper.MultiRead.
  fold n. unfold mbind at 1, method_bind at 1.
  destruct (fill_loop this reqs n 0 (resize n FSReadRequest.ctor []))
    as (fs_reqs & Hfill & Hlen & Hat); [lia| |].
  { intros j Hj. rewrite resize_nil. apply lookup_replicate_2. lia. }
  assert (fs_reqs = modern_request <$> take n reqs) as ->.
  { apply list_eq. intros j. rewrite Hat, list_lookup_fmap.
    case_decide.
    - by rewrite lookup_take_lt by lia.
    - rewrite lookup_take_ge by lia. rewrite resize_nil.
      apply lookup_replicate_None. lia. }
  rewrite Hfill. simpl.
  destruct (b _ _ s) as [[[status fs_reqs'] dbg'] s']. simpl.
  destruct (copy_back_loop this (vec_to_list fs_reqs') n 0 reqs)
    as (reqs' & Hcopy & Hlen' & Hat'); [lia| |].
  { rewrite length_vec_to_list, modern_requests_length; lia. }
  assert (reqs' =
          zip_with legacy_outcome (vec_to_list fs_reqs') (take n reqs)
            ++ drop n reqs) as <-.
  { apply list_eq. intros j. rewrite Hat'.
    assert (Hzip : length (zip_with legacy_outcome (vec_to_list fs_reqs')
                             (take n reqs)) = n).
    { rewrite length_zip_with, length_vec_to_list, modern_requests_length,
        length_take; lia. }
    case_decide.
    - rewrite lookup_app_l by lia. rewrite lookup_zip_with.
      by rewrite lookup_take_lt by lia.
    - rewrite lookup_app_r by lia. rewrite Hzip, lookup_drop.
      f_equal. lia. }
  unfold mbind, method_bind. fold this. by rewrite Hcopy.
Qed.

(** C1. [MultiRead] on an array holding at least [num_reqs] requests
    builds an internal array of exactly [num_reqs] FileSystem requests,
    element [i] carrying the offset, length and buffer of request [i]
    and a success status; it issues exactly one batched read, on the
    wrapped handle, with that array; afterwards request [i] of the
    caller's array carries the result and status of internal element
    [i], for every [i < num_reqs], its other fields and the rest of the
    array are unchanged, and the array has the length it had. *)
Theorem MultiRead_index_aligned {S : Type} (b : backend S) (s : S)
        (target : FSRandomAccessFile) (reqs : list ReadRequest)
        (num_reqs : size_t) :
  N.to_nat num_reqs <= length reqs ->
  let this := CompositeRandomAccessFileWrapper.mk (Some target) in
  let n := N.to_nat num_reqs in
  let fs_reqs := modern_request <$> take n reqs in
  let c :=
    OnRandomAccessFile target
      (FSRandomAccessFile.MultiRead fs_reqs num_reqs IOOptions_ctor
         IODebugContext_ctor) in
  let answer := (b _ c s).1 in
  let o :=
    run b (CompositeRandomAccessFileWrapper.MultiRead reqs num_reqs this) s in
  length fs_reqs = n
  /\ (forall i req,
        i < n -> reqs !! i = Some req ->
        exists fs_req,
          fs_reqs !! i = Some fs_req
          /\ FSReadRequest.offset fs_req = ReadRequest.offset req
          /\ FSReadRequest.len fs_req = ReadRequest.len req
          /\ FSReadRequest.scratch fs_req = ReadRequest.scratch req
          /\ FSReadRequest.status fs_req = IOStatus.OK)
  /\ trace o = [Event c]
  /\ exists reqs',
      returned o = Some (answer.1.1, reqs', this)
      /\ length reqs' = length reqs
      /\ (forall i req,
            i < n -> reqs !! i = Some req ->
            exists fs_req,
              vec_to_list answer.1.2 !! i = Some fs_req
              /\ reqs' !! i =
                 Some {| ReadRequest.offset := ReadRequest.offset req;
                         ReadRequest.len := ReadRequest.len req;
                         ReadRequest.scratch := ReadRequest.scratch req;
                         ReadRequest.result := FSReadRequest.result fs_req;
                         ReadRequest.status := FSReadRequest.status fs_req |})
      /\ (forall i, n <= i -> reqs' !! i = reqs !! i).
Proof.
  intros Hn this n fs_reqs c answer o.
  assert (Hfs : length fs_reqs = n) by by apply modern_requests_length.
  pose proof (MultiRead_run b s target reqs num_reqs Hn) as Hrun.
  cbv zeta in Hrun. fold n fs_reqs c this o in Hrun.
  subst answer. destruct (b _ c s) as [[[status fs_reqs'] dbg'] s'].
  assert (Hzip : length (zip_with legacy_outcome (vec_to_list fs_reqs')
                           (take n reqs)) = n).
  { rewrite length_zip_with, length_vec_to_list, Hfs, length_take. lia. }
  split_and!.
  - done.
  - intros i req Hi Hreq. exists (modern_request req). split; [|done].
    unfold fs_reqs. rewrite list_lookup_fmap, lookup_take_lt by done.
    by rewrite Hreq.
  - by rewrite Hrun.
  - eexists. rewrite Hrun. simpl. split_and!.
    + done.
    + rewrite length_app, Hzip, length_drop. lia.
    + intros i req Hi Hreq.
      destruct (lookup_lt_is_Some_2 (vec_to_list fs_reqs') i)
        as [fs_req Hfs_req]; [rewrite length_vec_to_list; lia|].
      exists fs_req. split; [done|].
      rewrite lookup_app_l by lia.
      rewrite lookup_zip_with, Hfs_req, lookup_take_lt by done.
      by rewrite Hreq.
    + intros i Hi. rewrite lookup_app_r by lia.
      rewrite Hzip, lookup_drop. f_equal. lia.
Qed.

Lemma MultiRead_index_aligned_witness :
  N.to_nat 2%N <= length sample_requests
  /\ trace
       (run (test_double IOStatus.OK)
          (CompositeRandomAccessFileWrapper.MultiRead sample_requests 2%N
             sample_random_access_file) WLTH_NOT_SET)
     = [Event
          (OnRandomAccessFile (FSRandomAccessFile.At 7)
             (FSRandomAccessFile.MultiRead
                (modern_request <$> take 2 sample_requests) 2%N
                IOOptions_ctor IODebugContext_ctor))].
Proof.
  assert (H : N.to_nat 2%N <= length sample_requests) by (vm_compute; lia).
  split; [exact H|].
  exact (proj1 (proj2 (proj2
    (MultiRead_index_aligned (test_double IOStatus.OK) WLTH_NOT_SET
       (FSRandomAccessFile.At 7) sample_requests 2%N H)))).
Defined.

(** C10. Whatever status the batched read returns, failure included,
    [MultiRead] returns that status and has copied the result and the
    status of every internal element into the caller's request at the
    same index; for an element the FileSystem side left as submitted,
    these are the empty result and the success status it was
    initialised with. *)
Theorem MultiRead_copies_back_unconditionally {S : Type} (b : backend S)
        (s : S) (target : FSRandomAccessFile) (reqs : list ReadRequest)
        (num_reqs : size_t) :
  N.to_nat num_reqs <= length reqs ->
  let this := CompositeRandomAccessFileWrapper.mk (Some target) in
  let n := N.to_nat num_reqs in
  let fs_reqs := modern_request <$> take n reqs in
  let c :=
    OnRandomAccessFile target
      (FSRandomAccessFile.MultiRead fs_reqs num_reqs IOOptions_ctor
         IODebugContext_ctor) in
  let o :=
    run b (CompositeRandomAccessFileWrapper.MultiRead reqs num_reqs this) s in
  forall status fs_reqs' dbg' s',
    b _ c s = (status, fs_reqs', dbg', s') ->
    exists reqs',
      returned o = Some (status, reqs', this)
      /\ final o = s'
      /\ (forall i fs_req,
            i < n -> vec_to_list fs_reqs' !! i = Some fs_req ->
            ReadRequest.result <$> reqs' !! i
              = Some (FSReadRequest.result fs_req)
            /\ ReadRequest.status <$> reqs' !! i
              = Some (FSReadRequest.status fs_req))
      /\ (forall i,
            i < n -> vec_to_list fs_reqs' !! i = fs_reqs !! i ->
            ReadRequest.result <$> reqs' !! i = Some Slice_ctor
            /\ ReadRequest.status <$> reqs' !! i = Some IOStatus.OK).
Proof.
  intros Hn this n fs_reqs c o status fs_reqs' dbg' s' Hanswer.
  pose proof (MultiRead_run b s target reqs num_reqs Hn) as Hrun.
  cbv zeta in Hrun. fold n fs_reqs c this o in Hrun.
  rewrite Hanswer in Hrun.
  assert (Hcopied : forall i fs_req,
            i < n -> vec_to_list fs_reqs' !! i = Some fs_req ->
            exists req,
              (zip_with legacy_outcome (vec_to_list fs_reqs') (take n reqs)
                 ++ drop n reqs) !! i
              = Some (legacy_outcome fs_req req)).
  { intros i fs_req Hi Hfs_req.
    destruct (lookup_lt_is_Some_2 reqs i) as [req Hreq]; [lia|].
    exists req. rewrite lookup_app_l.
    - rewrite lookup_zip_with, Hfs_req, lookup_take_lt by done.
      by rewrite Hreq.
    - rewrite length_zip_with, length_vec_to_list, length_take.
      unfold fs_reqs. rewrite modern_requests_length by done. lia. }
  eexists. rewrite Hrun. simpl. split_and!; [done..| |].
  - intros i fs_req Hi Hfs_req.
    destruct (Hcopied i fs_req Hi Hfs_req) as [req ->]. done.
  - intros i Hi Hsame.
    destruct (lookup_lt_is_Some_2 reqs i) as [req Hreq]; [lia|].
    assert (Hsub : fs_reqs !! i = Some (modern_request req)).
    { unfold fs_reqs. rewrite list_lookup_fmap, lookup_take_lt by done.
      by rewrite Hreq. }
    rewrite Hsub in Hsame.
    destruct (Hcopied i _ Hi Hsame) as [req' ->]. done.
Qed.

Lemma MultiRead_copies_back_unconditionally_witness :
  N.to_nat 2%N <= length sample_requests
  /\ exists reqs',
      returned
        (run (test_double not_found)
           (CompositeRandomAccessFileWrapper.MultiRead sample_requests 2%N
              sample_random_access_file) WLTH_NOT_SET)
      = Some (not_found, reqs', sample_random_access_file)
      /\ ReadRequest.status <$> reqs' !! 0 = Some not_found
      /\ ReadRequest.status <$> reqs' !! 1 = Some IOStatus.OK.
Proof.
  assert (H : N.to_nat 2%N <= length sample_requests) by (vm_compute; lia).
  split; [exact H|].
  destruct (MultiRead_copies_back_unconditionally (test_double not_found)
              WLTH_NOT_SET (FSRandomAccessFile.At 7) sample_requests 2%N H
              _ _ _ _ eq_refl)
    as (reqs' & Hret & _ & Hcopied & _).
  exists reqs'. split; [exact Hret|].
  split.
  - apply (Hcopied 0 (double_read_request
                        (modern_request
                           {| ReadRequest.offset := 0%N;
                              ReadRequest.len := 10%N;
                              ReadRequest.scratch := 100%N;
                              ReadRequest.result := stale;
                              ReadRequest.status := Status.OK |})));
      [vm_compute; lia|reflexivity].
  - apply (Hcopied 1 (double_read_request
                        (modern_request
                           {| ReadRequest.offset := 20%N;
                              ReadRequest.len := 30%N;
                              ReadRequest.scratch := 200%N;
                              ReadRequest.result := stale;
                              ReadRequest.status := not_found |})));
      [vm_compute; lia|reflexivity].
Defined.

(** ** The shape of a legacy call

    Every override in this file has the same shape: it reaches the
    FileSystem side once, and returns what it got with the wrapper left
    as it was; or it never gets there, because the wrapped pointer is
    empty or the request array is shorter than announced. *)

Section shape.
Context {W R : Type}.

Lemma calls_once_impl (P Q : forall X : Type, FSCall X -> Prop) (this : W)
      (p : io (R * W)) :
  (forall X c, P X c -> Q X c) -> calls_once P this p -> calls_once Q this p.
Proof. intros HPQ (X & c & k & -> & HP & Hk). exists X, c, k. auto. Qed.

Lemma delegates_impl (P Q : forall X : Type, FSCall X -> Prop) (this : W)
      (p : io (R * W)) :
  (forall X c, P X c -> Q X c) -> delegates P this p -> delegates Q this p.
Proof. intros HPQ [->|H]; [by left|right; by eapply calls_once_impl]. Qed.

(** Run against any implementation, a program that calls once records
    one call, and returns with the object unchanged. *)
Lemma calls_once_run (P : forall X : Type, FSCall X -> Prop) (this : W)
      (p : io (R * W)) {S : Type} (b : backend S) (s : S) :
  calls_once P this p ->
  exists (X : Type) (c : FSCall X) (r : R),
    P X c
    /\ trace (run b p s) = [Event c]
    /\ returned (run b p s) = Some (r, this)
    /\ final (run b p s) = (b X c s).2.
Proof.
  intros (X & c & k & -> & HP & Hk). simpl.
  destruct (b X c s) as [x s'] eqn:Hanswer. destruct (Hk x) as [r Hr].
  exists X, c, r. rewrite Hr, Hanswer. by simpl.
Qed.

Lemma delegates_run (P : forall X : Type, FSCall X -> Prop) (this : W)
      (p : io (R * W)) {S : Type} (b : backend S) (s : S) :
  delegates P this p ->
  Forall (on_event P) (trace (run b p s))
  /\ forall r this', returned (run b p s) = Some (r, this') -> this' = this.
Proof.
  intros [->|H].
  - simpl. split; [constructor|done].
  - destruct (calls_once_run P this p b s H) as (X & c & r & HP & -> & -> & _).
    split; [by repeat constructor|]. by intros ? ? [= _ <-].
Qed.
End shape.

(** Sequences of calls on one legacy object. *)
Section sequences.
Context {W : Type} {M : Type -> Type}.
Variable invoke : forall X : Type, M X -> method W X.

Variable P : W -> forall X : Type, FSCall X -> Prop.
Hypothesis invoke_delegates :
  forall (X : Type) (m : M X) (this : W),
    delegates (P this) this (invoke X m this).

Lemma invoke_all_run (ms : list (sigT M)) {S : Type} (b : backend S) :
  forall (s : S) (this : W),
    Forall (on_event (P this)) (trace (run b (invoke_all invoke ms this) s))
    /\ forall r this',
        returned (run b (invoke_all invoke ms this) s) = Some (r, this') ->
        this' = this.
Proof using invoke_delegates.
  induction ms as [|[X m] ms IH]; intros s this.
  - simpl. split; [constructor|]. by intros ? ? [= _ <-].
  - simpl. unfold mbind, method_bind. rewrite run_bind. cbv zeta.
    destruct (delegates_run (P this) this _ b s (invoke_delegates X m this))
      as [Hfirst Hthis].
    destruct (returned (run b (invoke X m this) s)) as [[x this1]|] eqn:Hret;
      simpl; [|done].
    rewrite (Hthis x this1 eq_refl).
    destruct (IH (final (run b (invoke X m this) s)) this) as [Hrest Hthis'].
    split; [by apply Forall_app|done].
Qed.
End sequences.

(** ** Every override delegates *)

Lemma CompositeSequentialFileWrapper_calls_once
      {X : Type} (m : SequentialFile.method X) (target : FSSequentialFile) :
  let this := CompositeSequentialFileWrapper.mk (Some target) in
  calls_once
    (forwarded (Some (SequentialFileAt target))
       (SequentialFile_takes_context m) false)
    this (CompositeSequentialFileWrapper.invoke m this).
Proof. destruct m; calls_once_by_computation. Qed.

Lemma CompositeWritableFileWrapper_calls_once
      {X : Type} (m : WritableFile.method X) (target : FSWritableFile) :
  let this := CompositeWritableFileWrapper.mk (Some target) in
  calls_once
    (forwarded (Some (WritableFileAt target))
       (WritableFile_takes_context m) (WritableFile_is_close m))
    this (CompositeWritableFileWrapper.invoke m this).
Proof. destruct m; calls_once_by_computation. Qed.

Lemma CompositeRandomRWFileWrapper_calls_once
      {X : Type} (m : RandomRWFile.method X) (target : FSRandomRWFile) :
  let this := CompositeRandomRWFileWrapper.mk (Some target) in
  calls_once
    (forwarded (Some (RandomRWFileAt target))
       (RandomRWFile_takes_context m) (RandomRWFile_is_close m))
    this (CompositeRandomRWFileWrapper.invoke m this).
Proof. destruct m; calls_once_by_computation. Qed.

Lemma CompositeDirectoryWrapper_calls_once
      {X : Type} (m : Directory.method X) (target : FSDirectory) :
  let this := CompositeDirectoryWrapper.mk (Some target) in
  calls_once
    (forwarded (Some (DirectoryAt target)) (Directory_takes_context m)
       false)
    this (CompositeDirectoryWrapper.invoke m this).
Proof. destruct m; calls_once_by_computation. Qed.

(** The first loop of [MultiRead] stops at the end of a short array. *)
Lemma fill_request_out_of_bounds (this : CompositeRandomAccessFileWrapper.t)
      (reqs : list ReadRequest) (fs_reqs : list FSReadRequest) (i : nat) :
  reqs !! i = None ->
  CompositeRandomAccessFileWrapper.fill_request reqs i fs_reqs this = UB.
Proof.
  intros Hreq.
  unfold CompositeRandomAccessFileWrapper.fill_request, index, undefined,
    mbind, method_bind.
  by rewrite Hreq.
Qed.

Lemma fill_request_pure (this : CompositeRandomAccessFileWrapper.t)
      (reqs : list ReadRequest) (fs_reqs : list FSReadRequest) (i : nat) :
  CompositeRandomAccessFileWrapper.fill_request reqs i fs_reqs this = UB
  \/ exists fs_reqs',
      CompositeRandomAccessFileWrapper.fill_request reqs i fs_reqs this
      = Ret (fs_reqs', this).
Proof.
  unfold CompositeRandomAccessFileWrapper.fill_request, index, undefined,
    mbind, method_bind.
  destruct (reqs !! i) as [req|]; simpl; [|by left].
  destruct (fs_reqs !! i) as [fs_req|]; simpl; [|by left].
  right. by eexists.
Qed.

Lemma fill_loop_short (this : CompositeRandomAccessFileWrapper.t)
      (reqs : list ReadRequest) (count : nat) :
  forall (i : nat) (fs_reqs : list FSReadRequest),
    length reqs < i + count -> 0 < count ->
    for_loop count i (CompositeRandomAccessFileWrapper.fill_request reqs)
      fs_reqs this = UB.
Proof.
  induction count as [|count IH]; intros i fs_reqs Hshort Hcount; [lia|].
  simpl. unfold mbind, method_bind.
  destruct (decide (i < length reqs)) as [Hi|Hi].
  - destruct (fill_request_pure this reqs fs_reqs i) as [->|[fs_reqs' ->]];
      [done|].
    simpl. apply IH; lia.
  - rewrite fill_request_out_of_bounds; [done|].
    apply lookup_ge_None. lia.
Qed.

Lemma CompositeRandomAccessFileWrapper_calls_once
      {X : Type} (m : RandomAccessFile.method X)
      (target : FSRandomAccessFile) :
  RandomAccessFile_within_bounds m ->
  let this := CompositeRandomAccessFileWrapper.mk (Some target) in
  calls_once
    (forwarded (Some (RandomAccessFileAt target))
       (RandomAccessFile_takes_context m) false)
    this (CompositeRandomAccessFileWrapper.invoke m this).
Proof.
  intros Hbounds this.
  destruct m as [| reqs num_reqs | | | | | |];
    try calls_once_by_computation.
  simpl in Hbounds. simpl.
  unfold CompositeRandomAccessFileWrapper.MultiRead.
  unfold mbind at 1, method_bind at 1.
  set (n := N.to_nat num_reqs) in *.
  destruct (fill_loop this reqs n 0 (resize n FSReadRequest.ctor []))
    as (fs_reqs & -> & Hlen & _); [lia| |].
  { intros j Hj. rewrite resize_nil. apply lookup_replicate_2. lia. }
  rewrite resize_nil, length_replicate in Hlen.
  eexists _, _, _. split; [reflexivity|]. split; [by split_and!|].
  intros [[status fs_reqs'] dbg']. simpl.
  destruct (copy_back_loop this (vec_to_list fs_reqs') n 0 reqs)
    as (reqs' & Hcopy & _); [lia|rewrite length_vec_to_list; lia|].
  unfold mbind, method_bind. rewrite Hcopy. simpl. by eexists.
Qed.

(** With an empty pointer, or a short array, the behaviour is undefined
    before any call, and the embedding stops there. *)
Lemma CompositeSequentialFileWrapper_delegates
      {X : Type} (m : SequentialFile.method X)
      (this : CompositeSequentialFileWrapper.t) :
  delegates
    (forwarded
       (SequentialFileAt <$> CompositeSequentialFileWrapper.target_ this)
       (SequentialFile_takes_context m) false)
    this (CompositeSequentialFileWrapper.invoke m this).
Proof.
  destruct this as [[target|]].
  - right. apply CompositeSequentialFileWrapper_calls_once.
  - left. by destruct m.
Qed.

Lemma CompositeWritableFileWrapper_delegates
      {X : Type} (m : WritableFile.method X)
      (this : CompositeWritableFileWrapper.t) :
  delegates
    (forwarded (WritableFileAt <$> CompositeWritableFileWrapper.target_ this)
       (WritableFile_takes_context m) (WritableFile_is_close m))
    this (CompositeWritableFileWrapper.invoke m this).
Proof.
  destruct this as [[target|]].
  - right. apply CompositeWritableFileWrapper_calls_once.
  - left. by destruct m.
Qed.

Lemma CompositeRandomRWFileWrapper_delegates
      {X : Type} (m : RandomRWFile.method X)
      (this : CompositeRandomRWFileWrapper.t) :
  delegates
    (forwarded (RandomRWFileAt <$> CompositeRandomRWFileWrapper.target_ this)
       (RandomRWFile_takes_context m) (RandomRWFile_is_close m))
    this (CompositeRandomRWFileWrapper.invoke m this).
Proof.
  destruct this as [[target|]].
  - right. apply CompositeRandomRWFileWrapper_calls_once.
  - left. by destruct m.
Qed.

Lemma CompositeDirectoryWrapper_delegates
      {X : Type} (m : Directory.method X)
      (this : CompositeDirectoryWrapper.t) :
  delegates
    (forwarded (DirectoryAt <$> CompositeDirectoryWrapper.target_ this)
       (Directory_takes_context m) false)
    this (CompositeDirectoryWrapper.invoke m this).
Proof.
  destruct this as [[target|]].
  - right. apply CompositeDirectoryWrapper_calls_once.
  - left. by destruct m.
Qed.

Lemma CompositeRandomAccessFileWrapper_delegates
      {X : Type} (m : RandomAccessFile.method X)
      (this : CompositeRandomAccessFileWrapper.t) :
  delegates
    (forwarded
       (RandomAccessFileAt
        <$> CompositeRandomAccessFileWrapper.target_ this)
       (RandomAccessFile_takes_context m) false)
    this (CompositeRandomAccessFileWrapper.invoke m this).
Proof.
  assert (Hshort : forall reqs num_reqs,
             ~ N.to_nat num_reqs <= length reqs ->
             CompositeRandomAccessFileWrapper.MultiRead reqs num_reqs this
             = UB).
  { intros reqs num_reqs Hn.
    unfold CompositeRandomAccessFileWrapper.MultiRead.
    unfold mbind at 1, method_bind at 1.
    by rewrite fill_loop_short by lia. }
  destruct this as [[target|]].
  - destruct (decide (RandomAccessFile_within_bounds m)) as [Hin|Hout].
    + right. by apply CompositeRandomAccessFileWrapper_calls_once.
    + left. destruct m; simpl in Hout; try tauto. by apply Hshort.
  - left. destruct m as [| reqs num_reqs | | | | | |]; try done.
    destruct (decide (N.to_nat num_reqs <= length reqs)) as [Hin|Hout];
      [|by apply Hshort].
    simpl. unfold CompositeRandomAccessFileWrapper.MultiRead.
    unfold mbind at 1, method_bind at 1.
    set (n := N.to_nat num_reqs) in *.
    destruct (fill_loop (CompositeRandomAccessFileWrapper.mk None) reqs n 0
                (resize n FSReadRequest.ctor []))
      as (fs_reqs & -> & _); [lia| |done].
    intros j Hj. rewrite resize_nil. apply lookup_replicate_2. lia.
Qed.

(** ** Creation *)

(** A creation method makes its matching call and decides on the status
    alone what to leave in the output parameter. *)
Lemma creation_run {S H W : Type} (b : backend S) (s : S)
      (file_system : FileSystem) (m : Env.method H W)
      (r : unique_ptr (implementation W)) :
  let this := CompositeEnv.mk (Some file_system) in
  let c := matching_call file_system m in
  exists wrap : unique_ptr H -> W,
    (forall file, wrapped m (wrap file) = file)
    /\ run b (CompositeEnv.invoke m r this) s =
       let '(status, file, _, s') := b _ c s in
       mkOutcome
         (Some (status,
                if Status.ok status then Some (Composite (wrap file)) else r,
                this))
         s' [Event c].
Proof.
  destruct m; simpl;
    [ exists CompositeSequentialFileWrapper.mk
    | exists CompositeRandomAccessFileWrapper.mk
    | exists CompositeWritableFileWrapper.mk
    | exists CompositeWritableFileWrapper.mk
    | exists CompositeWritableFileWrapper.mk
    | exists CompositeRandomRWFileWrapper.mk
    | exists CompositeDirectoryWrapper.mk ];
    (split; [done|]);
    match goal with
    | |- context [b ?X ?c s] => destruct (b X c s) as [[[status file] dbg] s']
    end;
    reflexivity.
Qed.

(** C2. When the FileSystem creation call answers with a status that is
    not ok, a creation method of the composite environment makes no
    other call, constructs no wrapper, leaves the caller's output
    parameter as it was passed in (empty when it was passed empty), and
    returns the status it got. *)
Theorem creation_failure_is_propagated
        {S H W : Type} (b : backend S) (s : S) (file_system : FileSystem)
        (m : Env.method H W) (r : unique_ptr (implementation W))
        (status : IOStatus) (file : unique_ptr H) (dbg : IODebugContext)
        (s' : S) :
  let this := CompositeEnv.mk (Some file_system) in
  b _ (matching_call file_system m) s = (status, file, dbg, s') ->
  Status.ok status = false ->
  run b (CompositeEnv.invoke m r this) s
  = mkOutcome (Some (status, r, this)) s'
      [Event (matching_call file_system m)]
  /\ (r = nullptr ->
      returned (run b (CompositeEnv.invoke m r this) s)
      = Some (status, nullptr, this)).
Proof.
  intros this Hanswer Hfailed. subst this.
  destruct (creation_run b s file_system m r) as (wrap & _ & Hrun).
  cbv zeta in Hrun. rewrite Hanswer, Hfailed in Hrun.
  split; [exact Hrun|]. intros ->. by rewrite Hrun.
Qed.

Lemma creation_failure_is_propagated_witness :
  Status.ok not_found = false
  /\ run (test_double not_found)
       (CompositeEnv.NewSequentialFile "MANIFEST" nullptr sample_options
          sample_env) WLTH_NOT_SET
     = mkOutcome (Some (not_found, nullptr, sample_env)) WLTH_NOT_SET
         [Event
            (OnFileSystem (FileSystem.At 1)
               (FileSystem.NewSequentialFile "MANIFEST"
                  (FileOptions_ctor sample_options) nullptr
                  IODebugContext_ctor))].
Proof.
  split; [reflexivity|].
  exact (proj1
    (creation_failure_is_propagated (test_double not_found) WLTH_NOT_SET
       (FileSystem.At 1) (Env.NewSequentialFile "MANIFEST" sample_options)
       nullptr not_found nullptr (traced IODebugContext_ctor) WLTH_NOT_SET
       eq_refl eq_refl)).
Defined.



(** C6, as stated, fails on the directory creation: it is given no
    legacy open options and its call carries no open options, so there
    are no legacy options the options of that call were built from. *)
Lemma NewDirectory_builds_no_open_options :
  let o :=
    run (test_double IOStatus.OK)
      (CompositeEnv.NewDirectory "db" nullptr sample_env) WLTH_NOT_SET in
  trace o
  = [Event
       (OnFileSystem (FileSystem.At 1)
          (FileSystem.NewDirectory "db" IOOptions_ctor nullptr
             IODebugContext_ctor))]
  /\ ~ exists options : EnvOptions,
        Forall
          (fun e =>
             on_event (@call_file_options) e
             = Some (FileOptions_ctor options))
          (trace o).
Proof.
  split; [reflexivity|].
  intros [options Hall]. apply Forall_cons_1 in Hall as [Hcall _].
  discriminate Hcall.
Qed.

(** C6, as amended.  Every creation method makes exactly one call, its
    matching FileSystem creation call, starting from an empty debug
    context.  The six file creations pass open options built from the
    legacy open options they are given.  The directory creation is
    given none: it passes default-constructed per-call options. *)
Theorem creation_makes_the_matching_call
        {S H W : Type} (b : backend S) (s : S) (file_system : FileSystem)
        (m : Env.method H W) (r : unique_ptr (implementation W)) :
  let this := CompositeEnv.mk (Some file_system) in
  let c := matching_call file_system m in
  trace (run b (CompositeEnv.invoke m r this) s) = [Event c]
  /\ call_receiver c = FileSystemAt file_system
  /\ call_creation_dbg c = Some IODebugContext_ctor
  /\ call_file_options c = FileOptions_ctor <$> legacy_options m
  /\ call_creation_io_options c =
     match legacy_options m with
     | Some _ => None
     | None => Some IOOptions_ctor
     end.
Proof.
  intros this c. subst this c.
  destruct (creation_run b s file_system m r) as (wrap & _ & ->).
  cbv zeta.
  destruct (b _ (matching_call file_system m) s) as [[[status file] dbg] s'].
  by destruct m.
Qed.

(** ** The writable file and the directory *)

(** The sentinel checksum arrives as it was given. *)
Example AppendVerified_sentinel :
  on_event (@call_verification_info)
  <$> trace
        (run (test_double IOStatus.OK)
           (CompositeWritableFileWrapper.AppendVerified
              {| data_ := 64%N; size_ := 3%N |} sentinel
              sample_writable_file) WLTH_NOT_SET)
  = [Some sentinel].
Proof. reflexivity. Qed.

(** C4. The append and the positioned append that take a verification
    payload each make one call, the verified variant of the FileSystem
    method, on the wrapped handle, with the data (and offset) and the
    payload as given; the call is not one of the variants without a
    payload; the status of that call is returned. *)
Theorem verification_info_is_forwarded
        {S : Type} (b : backend S) (s : S) (target : FSWritableFile)
        (data : Slice) (offset : uint64_t)
        (verification_info : DataVerificationInfo) :
  let this := CompositeWritableFileWrapper.mk (Some target) in
  let append :=
    OnWritableFile target
      (FSWritableFile.AppendVerified data IOOptions_ctor verification_info
         IODebugContext_ctor) in
  let positioned :=
    OnWritableFile target
      (FSWritableFile.PositionedAppendVerified data offset IOOptions_ctor
         verification_info IODebugContext_ctor) in
  let o :=
    run b
      (CompositeWritableFileWrapper.AppendVerified data verification_info
         this) s in
  let o' :=
    run b
      (CompositeWritableFileWrapper.PositionedAppendVerified data offset
         verification_info this) s in
  (trace o = [Event append]
   /\ returned o = Some ((b _ append s).1.1, this)
   /\ on_event (@call_verification_info) <$> trace o
      = [Some verification_info]
   /\ on_event (@call_is_unverified_append) <$> trace o = [false])
  /\ (trace o' = [Event positioned]
      /\ returned o' = Some ((b _ positioned s).1.1, this)
      /\ on_event (@call_verification_info) <$> trace o'
         = [Some verification_info]
      /\ on_event (@call_is_unverified_append) <$> trace o' = [false]).
Proof.
  intros this append positioned o o'. subst o o'. simpl.
  fold append positioned.
  destruct (b _ append s) as [[status dbg] s1].
  destruct (b _ positioned s) as [[status' dbg'] s2].
  by split_and!.
Qed.

(** C5. The directory [Fsync] makes one call, the directory fsync of the
    wrapped handle, with default-constructed per-call options, an empty
    debug context and the default-constructed directory-fsync options,
    which name no special reason and no renamed file; this holds against
    every implementation of the FileSystem side. *)
Theorem directory_fsync_uses_default_options
        {S : Type} (b : backend S) (s : S) (target : FSDirectory) :
  let this := CompositeDirectoryWrapper.mk (Some target) in
  let c :=
    OnDirectory target
      (FSDirectory.FsyncWithDirOptions IOOptions_ctor IODebugContext_ctor
         DirFsyncOptions.ctor) in
  let o := run b (CompositeDirectoryWrapper.Fsync this) s in
  trace o = [Event c]
  /\ returned o = Some ((b _ c s).1.1, this)
  /\ on_event (@call_dir_fsync_options) <$> trace o
     = [Some DirFsyncOptions.ctor]
  /\ DirFsyncOptions.reason DirFsyncOptions.ctor = DirFsyncOptions.kDefault
  /\ DirFsyncOptions.renamed_new_name DirFsyncOptions.ctor = ""%string.
Proof.
  intros this c o. subst o. simpl. fold c.
  destruct (b _ c s) as [[status dbg] s']. by split_and!.
Qed.

(** ** Options and debug context, call after call *)

Section forwarding.
Context {W : Type} {M : Type -> Type}.
Variable invoke : forall X : Type, M X -> method W X.
Variable target : W -> option receiver.
Variables takes_context is_close : forall X : Type, M X -> bool.
Variable defined : W -> forall X : Type, M X -> Prop.
Hypothesis invoke_forwards :
  forall (X : Type) (m : M X) (this : W),
    delegates (forwarded (target this) (takes_context X m) (is_close X m))
      this (invoke X m this).
Hypothesis invoke_calls_once :
  forall (X : Type) (m : M X) (this : W),
    defined this X m ->
    calls_once (forwarded (target this) (takes_context X m) (is_close X m))
      this (invoke X m this).

Lemma forwarding_context_is_fresh :
  context_is_fresh invoke takes_context defined.
Proof using invoke_forwards invoke_calls_once.
  split.
  - intros X m this Hdefined.
    eapply calls_once_impl; [|by apply invoke_calls_once].
    by intros ? ? (_ & ? & _).
  - intros ms S b s this.
    apply (invoke_all_run invoke (fun _ => fresh_context)).
    intros X m this0. eapply delegates_impl; [|apply invoke_forwards].
    intros Y c (_ & Hctx & _) options dbg Hsome.
    rewrite Hctx in Hsome. destruct (takes_context X m); naive_solver.
Qed.

End forwarding.

(** C7. On each of the five wrappers, a legacy method whose FileSystem
    counterpart takes options and a debug context (Read, PositionedRead,
    MultiRead, Prefetch, the appends, Truncate, Close, Flush, Sync,
    Fsync, RangeSync, PrepareWrite, Allocate, GetFileSize, Write, the
    directory Fsync) passes the default-constructed ones, which carry no
    deadline, no priority and no message; the other methods pass none.
    Over any sequence of legacy calls, whatever the FileSystem side
    wrote into the debug context of an earlier call, every later call
    again carries the default-constructed values, and the wrapper is
    left as it was: nothing is kept on it between calls. *)
Theorem per_call_context_is_fresh :
  (deadline IOOptions_ctor = None
   /\ priority IOOptions_ctor = None
   /\ dbg_msg IODebugContext_ctor = [])
  /\ context_is_fresh (@CompositeSequentialFileWrapper.invoke)
       (@SequentialFile_takes_context)
       (fun this _ _ =>
          is_Some (CompositeSequentialFileWrapper.target_ this))
  /\ context_is_fresh (@CompositeRandomAccessFileWrapper.invoke)
       (@RandomAccessFile_takes_context)
       (fun this _ m =>
          is_Some (CompositeRandomAccessFileWrapper.target_ this)
          /\ RandomAccessFile_within_bounds m)
  /\ context_is_fresh (@CompositeWritableFileWrapper.invoke)
       (@WritableFile_takes_context)
       (fun this _ _ => is_Some (CompositeWritableFileWrapper.target_ this))
  /\ context_is_fresh (@CompositeRandomRWFileWrapper.invoke)
       (@RandomRWFile_takes_context)
       (fun this _ _ => is_Some (CompositeRandomRWFileWrapper.target_ this))
  /\ context_is_fresh (@CompositeDirectoryWrapper.invoke)
       (@Directory_takes_context)
       (fun this _ _ => is_Some (CompositeDirectoryWrapper.target_ this)).
Proof.
  split_and!; [done..| | | | |].
  - eapply forwarding_context_is_fresh.
    + intros X m this. apply CompositeSequentialFileWrapper_delegates.
    + intros X m [target_] [target ?]; simplify_eq/=.
      apply CompositeSequentialFileWrapper_calls_once.
  - eapply forwarding_context_is_fresh.
    + intros X m this. apply CompositeRandomAccessFileWrapper_delegates.
    + intros X m [target_] [[target ?] Hbounds]; simplify_eq/=.
      by apply CompositeRandomAccessFileWrapper_calls_once.
  - eapply forwarding_context_is_fresh.
    + intros X m this. apply CompositeWritableFileWrapper_delegates.
    + intros X m [target_] [target ?]; simplify_eq/=.
      apply CompositeWritableFileWrapper_calls_once.
  - eapply forwarding_context_is_fresh.
    + intros X m this. apply CompositeRandomRWFileWrapper_delegates.
    + intros X m [target_] [target ?]; simplify_eq/=.
      apply CompositeRandomRWFileWrapper_calls_once.
  - eapply forwarding_context_is_fresh.
    + intros X m this. apply CompositeDirectoryWrapper_delegates.
    + intros X m [target_] [target ?]; simplify_eq/=.
      apply CompositeDirectoryWrapper_calls_once.
Qed.

(** Two appends in a row: the test double writes into the debug context
    of each, and each starts from the empty one. *)
Example two_appends_start_afresh :
  on_event (@call_context)
  <$> trace
        (run (test_double IOStatus.OK)
           (invoke_all (@CompositeWritableFileWrapper.invoke)
              [existT _ (WritableFile.Append {| data_ := 64%N; size_ := 3%N |});
               existT _ WritableFile.use_direct_io;
               existT _ WritableFile.Flush]
              sample_writable_file) WLTH_NOT_SET)
  = [Some (IOOptions_ctor, IODebugContext_ctor); None;
     Some (IOOptions_ctor, IODebugContext_ctor)].
Proof. reflexivity. Qed.

(** ** Ownership *)

(** Calls forwarded to the handle close it on account of a legacy
    [Close], and of nothing else. *)
Lemma closes_forwarded (handle : receiver) (context close : bool)
      (calls : list FSEvent) :
  Forall (on_event (forwarded (Some handle) context close)) calls ->
  Forall (eq (ByClose, Closed handle))
    (closes (if close then ByClose else ByOtherCall) calls).
Proof.
  unfold closes. induction 1 as [|e calls (Hat & _ & Hclose) _ IH]; [done|].
  rewrite filter_cons. case_decide as Hcloses; [|done].
  rewrite fmap_cons. constructor; [|done].
  unfold on_event in *. rewrite Hcloses in Hclose. subst close.
  by injection Hat as ->.
Qed.

Section ownership.
Context {H W : Type} {M : Type -> Type} `{EqDecision H}.
Variable cls : wrapper_class H W M.
Variable at_ : H -> receiver.
Variables takes_context is_close : forall X : Type, M X -> bool.
Variable allowed : action M -> Prop.
Variable defined : forall X : Type, M X -> Prop.

(** The constructor moves: the wrapper holds what the caller's pointer
    held, and that pointer is left empty. *)
Hypothesis ctor_moves :
  forall p : unique_ptr H,
    exists w, class_ctor cls p = (w, nullptr) /\ class_member cls w = p.
Hypothesis invoke_forwards :
  forall (X : Type) (m : M X) (this : W),
    delegates
      (forwarded (at_ <$> class_member cls this) (takes_context X m)
         (is_close X m))
      this (class_invoke cls X m this).
Hypothesis invoke_calls_once :
  forall (X : Type) (m : M X) (this : W),
    is_Some (class_member cls this) -> defined X m ->
    calls_once
      (forwarded (at_ <$> class_member cls this) (takes_context X m)
         (is_close X m))
      this (class_invoke cls X m this).
(** The handle can be taken out only where the class has [target()]. *)
Hypothesis take_needs_target :
  forall a, allowed a -> is_Take a = true -> class_target cls = None.

Lemma lifetime_step_owned {S : Type} (b : backend S) (h : H) (a : action M)
      (st st' : lifetime H W S) :
  allowed a ->
  exclusively_owned cls at_ h st ->
  lifetime_step cls at_ is_close b a st = Some st' ->
  exclusively_owned cls at_ h st'.
Proof using ctor_moves invoke_forwards take_needs_target.
  intros Hallowed Howned Hstep.
  destruct st as [caller w collab fs rel].
  unfold exclusively_owned, owners in *.
  destruct a as [|X m| |], w as [|w|]; simpl in *; try discriminate.
  - destruct (ctor_moves caller) as (w & Hctor & Hmember).
    rewrite Hctor in Hstep. injection Hstep as <-. simpl.
    destruct Howned as [Howner ->]. rewrite Hmember.
    repeat case_decide; simplify_eq/=; done.
  - destruct (delegates_run _ _ _ b fs (invoke_forwards X m w))
      as [Hcalls Hthis].
    destruct (returned (run b (class_invoke cls X m w) fs))
      as [[r w']|] eqn:Hret; [|discriminate].
    injection Hstep as <-. simpl. rewrite (Hthis r w' eq_refl).
    destruct Howned as [Howner Hreleases]. split; [done|].
    apply Forall_app. split; [done|].
    assert (Hmember : class_member cls w = Some h)
      by (repeat case_decide; simplify_eq/=; done).
    rewrite Hmember in Hcalls. by eapply closes_forwarded.
  - by rewrite (take_needs_target Take Hallowed eq_refl) in Hstep.
  - injection Hstep as <-. simpl.
    destruct Howned as [Howner Hreleases].
    assert (Hmember : class_member cls w = Some h)
      by (repeat case_decide; simplify_eq/=; done).
    rewrite Hmember. split; [repeat case_decide; simplify_eq/=; done|].
    by exists rel.
Qed.

Lemma lifetime_run_owned {S : Type} (b : backend S) (h : H)
      (acts : list (action M)) :
  forall st st' : lifetime H W S,
    Forall allowed acts ->
    exclusively_owned cls at_ h st ->
    lifetime_run cls at_ is_close b acts st = Some st' ->
    exclusively_owned cls at_ h st'.
Proof using ctor_moves invoke_forwards take_needs_target.
  induction acts as [|a acts IH]; intros st st' Hallowed Howned Hrun;
    simpl in Hrun.
  - by injection Hrun as <-.
  - apply Forall_cons_1 in Hallowed as [Ha Hacts].
    destruct (lifetime_step cls at_ is_close b a st) as [st1|] eqn:Hstep;
      [|discriminate].
    eapply IH; [done| |done]. by eapply lifetime_step_owned.
Qed.

Lemma owned_throughout_class : owned_throughout cls at_ is_close allowed.
Proof using ctor_moves invoke_forwards take_needs_target.
  intros S b s h acts st Hallowed Hrun.
  eapply lifetime_run_owned; [done| |done].
  unfold exclusively_owned, owners. simpl.
  repeat case_decide; simplify_eq/=; done.
Qed.

Lemma lifetime_run_calls {S : Type} (b : backend S) (w : W)
      (ms : list (sigT M)) :
  is_Some (class_member cls w) ->
  Forall (fun xm => defined (projT1 xm) (projT2 xm)) ms ->
  forall st : lifetime H W S,
    wrapper st = Alive w ->
    exists st',
      lifetime_run cls at_ is_close b
        (((fun xm => Invoke (projT2 xm)) <$> ms) ++ [Destroy]) st
      = Some st'
      /\ wrapper st' = Destroyed.
Proof using invoke_calls_once.
  intros Hmember. induction 1 as [|[X m] ms Hm _ IH]; intros st Hw.
  - destruct st as [caller ? collab fs rel]. simpl in *. subst.
    by eexists.
  - destruct st as [caller ? collab fs rel]. simpl in *. subst.
    destruct (calls_once_run _ _ _ b fs (invoke_calls_once X m w Hmember Hm))
      as (Y & c & r & _ & _ & -> & _).
    by apply IH.
Qed.

Lemma lives_through_class : lives_through cls at_ is_close defined.
Proof using ctor_moves invoke_calls_once.
  intros S b s h ms Hdefined.
  destruct (ctor_moves (Some h)) as (w & Hctor & Hmember).
  cbn [lifetime_run lifetime_step before_construction wrapper callers].
  rewrite Hctor.
  eapply lifetime_run_calls; [by rewrite Hmember|done|done].
Qed.
End ownership.



(** A lifetime of the random read/write file: constructed, written to,
    closed and destroyed.  The close is on account of [Close], the
    deletion on account of the destructor. *)
Example a_lifetime_of_a_random_rw_file :
  releases
  <$> lifetime_run CompositeRandomRWFileWrapper_class RandomRWFileAt
        (@RandomRWFile_is_close) (test_double IOStatus.OK)
        [Construct;
         Invoke (RandomRWFile.Write 0%N {| data_ := 64%N; size_ := 3%N |});
         Invoke RandomRWFile.Close;
         Destroy]
        (before_construction (FSRandomRWFile.At 7) WLTH_NOT_SET)
  = Some [(ByClose, Closed (RandomRWFileAt (FSRandomRWFile.At 7)));
          (ByDestructor, Deleted (RandomRWFileAt (FSRandomRWFile.At 7)))].
Proof. reflexivity. Qed.

(** ** Queries that pass through *)

Lemma passes_through_twice {W X : Type} (query : method W X) (this : W)
      (c : FSCall X) {S : Type} (b : backend S) (s : S) :
  passes_through query this c ->
  (b X c s).2 = s ->
  answers_twice b s query this (b X c s).1.
Proof.
  intros Hpass Hsame. unfold answers_twice, twice, mbind, method_bind.
  destruct (Hpass S b s) as (Hret & Hfinal & _). simpl in Hret, Hfinal.
  destruct (b X c s) as [v s'] eqn:Hanswer. simpl in *. subst s'.
  rewrite run_bind. cbv zeta. rewrite Hret, Hfinal. simpl.
  rewrite run_bind. cbv zeta. rewrite Hret, Hfinal. by simpl.
Qed.

Lemma CompositeSequentialFileWrapper_queries (target : FSSequentialFile) :
  let this := CompositeSequentialFileWrapper.mk (Some target) in
  passes_through CompositeSequentialFileWrapper.use_direct_io this
    (OnSequentialFile target FSSequentialFile.use_direct_io)
  /\ passes_through CompositeSequentialFileWrapper.GetRequiredBufferAlignment
       this
       (OnSequentialFile target FSSequentialFile.GetRequiredBufferAlignment).
Proof. split; passes_through_by_computation. Qed.

Lemma CompositeRandomAccessFileWrapper_queries
      (target : FSRandomAccessFile) :
  let this := CompositeRandomAccessFileWrapper.mk (Some target) in
  passes_through CompositeRandomAccessFileWrapper.use_direct_io this
    (OnRandomAccessFile target FSRandomAccessFile.use_direct_io)
  /\ passes_through
       CompositeRandomAccessFileWrapper.GetRequiredBufferAlignment this
       (OnRandomAccessFile target
          FSRandomAccessFile.GetRequiredBufferAlignment).
Proof. split; passes_through_by_computation. Qed.

Lemma CompositeWritableFileWrapper_queries (target : FSWritableFile)
      (hint : WriteLifeTimeHint) :
  let this := CompositeWritableFileWrapper.mk (Some target) in
  passes_through CompositeWritableFileWrapper.use_direct_io this
    (OnWritableFile target FSWritableFile.use_direct_io)
  /\ passes_through CompositeWritableFileWrapper.GetRequiredBufferAlignment
       this (OnWritableFile target FSWritableFile.GetRequiredBufferAlignment)
  /\ passes_through CompositeWritableFileWrapper.GetWriteLifeTimeHint this
       (OnWritableFile target FSWritableFile.GetWriteLifeTimeHint)
  /\ passes_through (CompositeWritableFileWrapper.SetWriteLifeTimeHint hint)
       this
       (OnWritableFile target (FSWritableFile.SetWriteLifeTimeHint hint)).
Proof. split_and!; passes_through_by_computation. Qed.

Lemma CompositeRandomRWFileWrapper_queries (target : FSRandomRWFile) :
  let this := CompositeRandomRWFileWrapper.mk (Some target) in
  passes_through CompositeRandomRWFileWrapper.use_direct_io this
    (OnRandomRWFile target FSRandomRWFile.use_direct_io)
  /\ passes_through CompositeRandomRWFileWrapper.GetRequiredBufferAlignment
       this (OnRandomRWFile target FSRandomRWFile.GetRequiredBufferAlignment).
Proof. split; passes_through_by_computation. Qed.

(** C8. On every wrapper that has them, the direct-I/O query, the
    buffer-alignment query and the write-lifetime-hint getter and setter
    make the one call of the same operation on the wrapped handle and
    return the value that call returned.  When the handle's own getters
    leave the FileSystem side as it is, asking the wrapper twice in a
    row gives twice the value the handle gives. *)
Theorem queries_pass_through
        {S : Type} (b : backend S) (s : S)
        (sequential : FSSequentialFile) (random_access : FSRandomAccessFile)
        (writable : FSWritableFile) (random_rw : FSRandomRWFile)
        (hint : WriteLifeTimeHint) :
  let seq := CompositeSequentialFileWrapper.mk (Some sequential) in
  let ra := CompositeRandomAccessFileWrapper.mk (Some random_access) in
  let wf := CompositeWritableFileWrapper.mk (Some writable) in
  let rw := CompositeRandomRWFileWrapper.mk (Some random_rw) in
  let seq_direct :=
    OnSequentialFile sequential FSSequentialFile.use_direct_io in
  let seq_align :=
    OnSequentialFile sequential FSSequentialFile.GetRequiredBufferAlignment in
  let ra_direct :=
    OnRandomAccessFile random_access FSRandomAccessFile.use_direct_io in
  let ra_align :=
    OnRandomAccessFile random_access
      FSRandomAccessFile.GetRequiredBufferAlignment in
  let wf_direct := OnWritableFile writable FSWritableFile.use_direct_io in
  let wf_align :=
    OnWritableFile writable FSWritableFile.GetRequiredBufferAlignment in
  let wf_get := OnWritableFile writable FSWritableFile.GetWriteLifeTimeHint in
  let wf_set :=
    OnWritableFile writable (FSWritableFile.SetWriteLifeTimeHint hint) in
  let rw_direct := OnRandomRWFile random_rw FSRandomRWFile.use_direct_io in
  let rw_align :=
    OnRandomRWFile random_rw FSRandomRWFile.GetRequiredBufferAlignment in
  (passes_through CompositeSequentialFileWrapper.use_direct_io seq seq_direct
   /\ passes_through CompositeSequentialFileWrapper.GetRequiredBufferAlignment
        seq seq_align
   /\ passes_through CompositeRandomAccessFileWrapper.use_direct_io ra
        ra_direct
   /\ passes_through
        CompositeRandomAccessFileWrapper.GetRequiredBufferAlignment ra
        ra_align
   /\ passes_through CompositeWritableFileWrapper.use_direct_io wf wf_direct
   /\ passes_through CompositeWritableFileWrapper.GetRequiredBufferAlignment
        wf wf_align
   /\ passes_through CompositeWritableFileWrapper.GetWriteLifeTimeHint wf
        wf_get
   /\ passes_through (CompositeWritableFileWrapper.SetWriteLifeTimeHint hint)
        wf wf_set
   /\ passes_through CompositeRandomRWFileWrapper.use_direct_io rw rw_direct
   /\ passes_through CompositeRandomRWFileWrapper.GetRequiredBufferAlignment
        rw rw_align)
  /\ ((forall (X : Type) (c : FSCall X),
          call_is_getter c = true -> (b X c s).2 = s) ->
      answers_twice b s CompositeSequentialFileWrapper.use_direct_io seq
        (b _ seq_direct s).1
      /\ answers_twice b s
           CompositeSequentialFileWrapper.GetRequiredBufferAlignment seq
           (b _ seq_align s).1
      /\ answers_twice b s CompositeRandomAccessFileWrapper.use_direct_io ra
           (b _ ra_direct s).1
      /\ answers_twice b s
           CompositeRandomAccessFileWrapper.GetRequiredBufferAlignment ra
           (b _ ra_align s).1
      /\ answers_twice b s CompositeWritableFileWrapper.use_direct_io wf
           (b _ wf_direct s).1
      /\ answers_twice b s
           CompositeWritableFileWrapper.GetRequiredBufferAlignment wf
           (b _ wf_align s).1
      /\ answers_twice b s CompositeWritableFileWrapper.GetWriteLifeTimeHint
           wf (b _ wf_get s).1
      /\ answers_twice b s CompositeRandomRWFileWrapper.use_direct_io rw
           (b _ rw_direct s).1
      /\ answers_twice b s
           CompositeRandomRWFileWrapper.GetRequiredBufferAlignment rw
           (b _ rw_align s).1).
Proof.
  cbv zeta.
  destruct (CompositeSequentialFileWrapper_queries sequential) as [Hs1 Hs2].
  destruct (CompositeRandomAccessFileWrapper_queries random_access)
    as [Hr1 Hr2].
  destruct (CompositeWritableFileWrapper_queries writable hint)
    as (Hw1 & Hw2 & Hw3 & Hw4).
  destruct (CompositeRandomRWFileWrapper_queries random_rw) as [Hx1 Hx2].
  split; [by split_and!|]. intros Hgetters.
  split_and!; (eapply passes_through_twice; [eassumption|by apply Hgetters]).
Qed.

Lemma queries_pass_through_witness :
  (forall (X : Type) (c : FSCall X),
      call_is_getter c = true -> (test_double IOStatus.OK X c WLTH_SHORT).2
                                 = WLTH_SHORT)
  /\ answers_twice (test_double IOStatus.OK) WLTH_SHORT
       CompositeWritableFileWrapper.GetWriteLifeTimeHint sample_writable_file
       WLTH_SHORT.
Proof.
  assert (Hgetters :
            forall (X : Type) (c : FSCall X),
              call_is_getter c = true ->
              (test_double IOStatus.OK X c WLTH_SHORT).2 = WLTH_SHORT).
  { intros X c. destruct c as [? ? m|? ? m|? ? m|? ? m|? ? m|? ? m];
      destruct m; simpl; (reflexivity || discriminate). }
  split; [exact Hgetters|].
  exact (proj1 (proj2 (proj2 (proj2 (proj2 (proj2 (proj2
    (proj2
       (queries_pass_through (test_double IOStatus.OK) WLTH_SHORT
          (FSSequentialFile.At 7) (FSRandomAccessFile.At 7)
          (FSWritableFile.At 7) (FSRandomRWFile.At 7) WLTH_LONG)
       Hgetters)))))))).
Defined.


(** ** [MultiRead] at its edges *)

(** An empty batch is not short-circuited: with [num_reqs = 0] the
    wrapper still makes the batched call, with an empty array, returns
    its status, and leaves the caller's array untouched. *)
Theorem MultiRead_empty_batch {S : Type} (b : backend S) (s : S)
        (target : FSRandomAccessFile) (reqs : list ReadRequest) :
  let this := CompositeRandomAccessFileWrapper.mk (Some target) in
  let c :=
    OnRandomAccessFile target
      (FSRandomAccessFile.MultiRead [] 0%N IOOptions_ctor
         IODebugContext_ctor) in
  run b (CompositeRandomAccessFileWrapper.MultiRead reqs 0%N this) s
  = mkOutcome (Some ((b _ c s).1.1.1, reqs, this)) (b _ c s).2 [Event c].
Proof.
  intros this c. subst this c.
  rewrite MultiRead_run by (simpl; lia). cbv zeta.
  change (modern_request <$> take (N.to_nat 0) reqs)
    with (@nil FSReadRequest).
  destruct (b _ _ s) as [[[status fs_reqs'] dbg'] s']. simpl.
  change (take (N.to_nat 0) reqs) with (@nil ReadRequest).
  by rewrite zip_with_nil_r.
Qed.

(** The translated requests depend on the offsets, lengths and buffers
    alone. *)
Lemma modern_requests_agree (reqs1 reqs2 : list ReadRequest) :
  legacy_request_input <$> reqs1 = legacy_request_input <$> reqs2 ->
  modern_request <$> reqs1 = modern_request <$> reqs2.
Proof.
  intros Hsame.
  set (g := fun '(offset, len, scratch) =>
              {| FSReadRequest.offset := offset; FSReadRequest.len := len;
                 FSReadRequest.scratch := scratch;
                 FSReadRequest.result := Slice_ctor;
                 FSReadRequest.status := IOStatus.OK |}).
  assert (Hg : forall reqs : list ReadRequest,
             modern_request <$> reqs = g <$> (legacy_request_input <$> reqs)).
  { intros reqs. rewrite <- list_fmap_compose. by apply list_fmap_ext. }
  by rewrite !Hg, Hsame.
Qed.

(** After the copy-back, the first [n] requests carry the outcomes of
    the FileSystem requests and the inputs they had. *)
Lemma batch_outcomes (fs_reqs : list FSReadRequest) (reqs : list ReadRequest)
      (n : nat) :
  length fs_reqs = n -> n <= length reqs ->
  legacy_request_outcome
  <$> take n (zip_with legacy_outcome fs_reqs (take n reqs) ++ drop n reqs)
  = modern_request_outcome <$> fs_reqs.
Proof.
  intros Hfs Hn.
  rewrite take_app_length'
    by (rewrite length_zip_with, length_take; lia).
  apply list_eq. intros i.
  rewrite !list_lookup_fmap, lookup_zip_with.
  destruct (fs_reqs !! i) as [fs_req|] eqn:Hfs_req; simpl; [|done].
  apply lookup_lt_Some in Hfs_req as Hi.
  destruct (lookup_lt_is_Some_2 (take n reqs) i) as [req ->];
    [rewrite length_take; lia|done].
Qed.

Lemma batch_inputs (fs_reqs : list FSReadRequest) (reqs : list ReadRequest)
      (n : nat) :
  length fs_reqs = n -> n <= length reqs ->
  legacy_request_input
  <$> take n (zip_with legacy_outcome fs_reqs (take n reqs) ++ drop n reqs)
  = legacy_request_input <$> take n reqs.
Proof.
  intros Hfs Hn.
  rewrite take_app_length'
    by (rewrite length_zip_with, length_take; lia).
  apply list_eq. intros i.
  rewrite !list_lookup_fmap, lookup_zip_with.
  destruct (take n reqs !! i) as [req|] eqn:Hreq; simpl.
  - apply lookup_lt_Some in Hreq as Hi. rewrite length_take in Hi.
    destruct (lookup_lt_is_Some_2 fs_reqs i) as [fs_req ->]; [lia|done].
  - by destruct (fs_reqs !! i).
Qed.

(** What [MultiRead] submits, and all it hands back, is decided by the
    offsets, lengths and buffers of the first [num_reqs] requests: what
    the caller left in their result and status fields, and the requests
    past [num_reqs], have no part in it. *)
Theorem MultiRead_ignores_stale_outcomes {S : Type} (b : backend S) (s : S)
        (target : FSRandomAccessFile) (reqs1 reqs2 : list ReadRequest)
        (num_reqs : size_t) :
  N.to_nat num_reqs <= length reqs1 ->
  N.to_nat num_reqs <= length reqs2 ->
  legacy_request_input <$> take (N.to_nat num_reqs) reqs1
  = legacy_request_input <$> take (N.to_nat num_reqs) reqs2 ->
  let this := CompositeRandomAccessFileWrapper.mk (Some target) in
  let o1 :=
    run b (CompositeRandomAccessFileWrapper.MultiRead reqs1 num_reqs this) s in
  let o2 :=
    run b (CompositeRandomAccessFileWrapper.MultiRead reqs2 num_reqs this) s in
  trace o1 = trace o2
  /\ final o1 = final o2
  /\ (fun r =>
        RandomAccessFile_returns
          (RandomAccessFile.MultiRead reqs1 num_reqs) r.1) <$> returned o1
     = (fun r =>
          RandomAccessFile_returns
            (RandomAccessFile.MultiRead reqs2 num_reqs) r.1) <$> returned o2.
Proof.
  intros Hn1 Hn2 Hsame this o1 o2. subst o1 o2 this.
  rewrite !MultiRead_run by done. cbv zeta.
  apply modern_requests_agree in Hsame.
  pose proof (modern_requests_length reqs2 _ Hn2) as Hlen.
  revert Hlen. rewrite <- Hsame. intros Hlen.
  destruct (b _ _ s) as [[[status fs_reqs'] dbg'] s']. simpl.
  split_and!; [done..|]. f_equal. f_equal.
  assert (Hfs : length (vec_to_list fs_reqs') = N.to_nat num_reqs)
    by by rewrite length_vec_to_list.
  by rewrite !batch_outcomes.
Qed.

Lemma MultiRead_ignores_stale_outcomes_witness :
  N.to_nat 2%N <= length sample_requests
  /\ N.to_nat 2%N <= length reused_requests
  /\ trace
       (run (test_double IOStatus.OK)
          (CompositeRandomAccessFileWrapper.MultiRead sample_requests 2%N
             sample_random_access_file) WLTH_NOT_SET)
     = trace
         (run (test_double IOStatus.OK)
            (CompositeRandomAccessFileWrapper.MultiRead reused_requests 2%N
               sample_random_access_file) WLTH_NOT_SET).
Proof.
  assert (H1 : N.to_nat 2%N <= length sample_requests) by (vm_compute; lia).
  assert (H2 : N.to_nat 2%N <= length reused_requests) by (vm_compute; lia).
  split; [exact H1|]. split; [exact H2|].
  exact (proj1
    (MultiRead_ignores_stale_outcomes (test_double IOStatus.OK) WLTH_NOT_SET
       (FSRandomAccessFile.At 7) sample_requests reused_requests 2%N H1 H2
       eq_refl)).
Defined.

(** The array [MultiRead] hands back can be submitted again: a second
    [MultiRead] on it, against any implementation, makes the call the
    first array would have made, and the array has kept its length. *)
Theorem MultiRead_can_be_reissued {S : Type} (b : backend S) (s : S)
        (target : FSRandomAccessFile) (reqs reqs' : list ReadRequest)
        (num_reqs : size_t) (status : Status) :
  N.to_nat num_reqs <= length reqs ->
  let this := CompositeRandomAccessFileWrapper.mk (Some target) in
  returned
    (run b (CompositeRandomAccessFileWrapper.MultiRead reqs num_reqs this) s)
  = Some (status, reqs', this) ->
  length reqs' = length reqs
  /\ forall (S' : Type) (b' : backend S') (s' : S'),
      trace
        (run b'
           (CompositeRandomAccessFileWrapper.MultiRead reqs' num_reqs this)
           s')
      = trace
          (run b'
             (CompositeRandomAccessFileWrapper.MultiRead reqs num_reqs this)
             s').
Proof.
  intros Hn this Hret. subst this.
  rewrite MultiRead_run in Hret by done. cbv zeta in Hret.
  destruct (b _ _ s) as [[[status0 fs_reqs'] dbg'] s0]. simpl in Hret.
  injection Hret as _ <-.
  set (n := N.to_nat num_reqs) in *.
  assert (Hfs : length (vec_to_list fs_reqs') = n)
    by (rewrite length_vec_to_list; by apply modern_requests_length).
  assert (Hlen : length (zip_with legacy_outcome (vec_to_list fs_reqs')
                           (take n reqs) ++ drop n reqs) = length reqs).
  { rewrite length_app, length_zip_with, length_take, length_drop. lia. }
  split; [done|]. intros S' b' s'.
  rewrite !MultiRead_run by (fold n; lia). cbv zeta. fold n.
  pose proof (modern_requests_agree _ _ (batch_inputs _ reqs n Hfs Hn))
    as Hsame.
  rewrite Hsame.
  by destruct (b' _ _ s') as [[[status1 fs_reqs1] dbg1] s1].
Qed.

Lemma MultiRead_can_be_reissued_witness :
  N.to_nat 2%N <= length sample_requests
  /\ exists reqs',
      returned
        (run (test_double IOStatus.OK)
           (CompositeRandomAccessFileWrapper.MultiRead sample_requests 2%N
              sample_random_access_file) WLTH_NOT_SET)
      = Some (IOStatus.OK, reqs', sample_random_access_file)
      /\ trace
           (run (test_double not_found)
              (CompositeRandomAccessFileWrapper.MultiRead reqs' 2%N
                 sample_random_access_file) WLTH_LONG)
         = trace
             (run (test_double not_found)
                (CompositeRandomAccessFileWrapper.MultiRead sample_requests
                   2%N sample_random_access_file) WLTH_LONG).
Proof.
  assert (H : N.to_nat 2%N <= length sample_requests) by (vm_compute; lia).
  split; [exact H|].
  eexists. split; [reflexivity|].
  exact (proj2
    (MultiRead_can_be_reissued (test_double IOStatus.OK) WLTH_NOT_SET
       (FSRandomAccessFile.At 7) sample_requests _ 2%N IOStatus.OK H
       eq_refl) _ (test_double not_found) WLTH_LONG).
Defined.

(** ** Arguments in, results out *)

(** The first loop of [MultiRead], in closed form. *)
Lemma fill_loop_result (this : CompositeRandomAccessFileWrapper.t)
      (reqs : list ReadRequest) (n : nat) :
  n <= length reqs ->
  for_loop n 0 (CompositeRandomAccessFileWrapper.fill_request reqs)
    (resize n FSReadRequest.ctor []) this
  = Ret (modern_request <$> take n reqs, this).
Proof.
  intros Hn.
  destruct (fill_loop this reqs n 0 (resize n FSReadRequest.ctor []))
    as (fs_reqs & -> & _ & Hat); [lia| |].
  { intros j Hj. rewrite resize_nil. apply lookup_replicate_2. lia. }
  do 2 f_equal. apply list_eq. intros j. rewrite Hat, list_lookup_fmap.
  case_decide.
  - by rewrite lookup_take_lt by lia.
  - rewrite lookup_take_ge by lia. rewrite resize_nil.
    apply lookup_replicate_None. lia.
Qed.

Lemma modern_request_inputs (reqs : list ReadRequest) :
  modern_request_input <$> (modern_request <$> reqs)
  = legacy_request_input <$> reqs.
Proof. rewrite <- list_fmap_compose. by apply list_fmap_ext. Qed.

Ltac carries_by_computation :=
  eexists _, _, _; split; [reflexivity|]; split; [by repeat split|];
  intros x;
  repeat match goal with x : (_ * _)%type |- _ => destruct x end;
  eexists; reflexivity.

Lemma CompositeSequentialFileWrapper_carries
      {X : Type} (m : SequentialFile.method X) (target : FSSequentialFile) :
  let this := CompositeSequentialFileWrapper.mk (Some target) in
  calls_once
    (carries (Some (SequentialFileAt target))
       (SequentialFile_takes_context m) false (SequentialFile_arguments m))
    this (CompositeSequentialFileWrapper.invoke m this).
Proof. destruct m; carries_by_computation. Qed.

Lemma CompositeWritableFileWrapper_carries
      {X : Type} (m : WritableFile.method X) (target : FSWritableFile) :
  let this := CompositeWritableFileWrapper.mk (Some target) in
  calls_once
    (carries (Some (WritableFileAt target)) (WritableFile_takes_context m)
       (WritableFile_is_close m) (WritableFile_arguments m))
    this (CompositeWritableFileWrapper.invoke m this).
Proof. destruct m; carries_by_computation. Qed.

Lemma CompositeRandomRWFileWrapper_carries
      {X : Type} (m : RandomRWFile.method X) (target : FSRandomRWFile) :
  let this := CompositeRandomRWFileWrapper.mk (Some target) in
  calls_once
    (carries (Some (RandomRWFileAt target)) (RandomRWFile_takes_context m)
       (RandomRWFile_is_close m) (RandomRWFile_arguments m))
    this (CompositeRandomRWFileWrapper.invoke m this).
Proof. destruct m; carries_by_computation. Qed.

Lemma CompositeDirectoryWrapper_carries
      {X : Type} (m : Directory.method X) (target : FSDirectory) :
  let this := CompositeDirectoryWrapper.mk (Some target) in
  calls_once
    (carries (Some (DirectoryAt target)) (Directory_takes_context m) false
       (Directory_arguments m))
    this (CompositeDirectoryWrapper.invoke m this).
Proof. destruct m; carries_by_computation. Qed.

Lemma CompositeRandomAccessFileWrapper_carries
      {X : Type} (m : RandomAccessFile.method X)
      (target : FSRandomAccessFile) :
  RandomAccessFile_within_bounds m ->
  let this := CompositeRandomAccessFileWrapper.mk (Some target) in
  calls_once
    (carries (Some (RandomAccessFileAt target))
       (RandomAccessFile_takes_context m) false
       (RandomAccessFile_arguments m))
    this (CompositeRandomAccessFileWrapper.invoke m this).
Proof.
  intros Hbounds this.
  destruct m as [| reqs num_reqs | | | | | |];
    try carries_by_computation.
  simpl in Hbounds. simpl.
  unfold CompositeRandomAccessFileWrapper.MultiRead.
  unfold mbind at 1, method_bind at 1.
  rewrite fill_loop_result by done.
  eexists _, _, _. split; [reflexivity|]. split.
  { repeat split. simpl. by rewrite modern_request_inputs. }
  intros [[status fs_reqs'] dbg']. simpl.
  destruct (copy_back_loop this (vec_to_list fs_reqs') (N.to_nat num_reqs)
              0 reqs)
    as (reqs' & Hcopy & _); [lia| |].
  { rewrite length_vec_to_list, modern_requests_length; lia. }
  unfold mbind, method_bind. rewrite Hcopy. simpl. by eexists.
Qed.

(** Every legacy method passes the arguments it was given, in the order
    it was given them, and no others besides the options and the debug
    context: data, offsets, lengths, buffers, the verification payload,
    the lifetime hint, the ordinal of the access pattern, and for a
    batched read the offset, length and buffer of each of the first
    [num_reqs] requests. *)
Theorem arguments_are_forwarded :
  forwards_arguments (@CompositeSequentialFileWrapper.invoke)
    (fun this _ _ => is_Some (CompositeSequentialFileWrapper.target_ this))
    (@SequentialFile_arguments)
  /\ forwards_arguments (@CompositeRandomAccessFileWrapper.invoke)
       (fun this _ m =>
          is_Some (CompositeRandomAccessFileWrapper.target_ this)
          /\ RandomAccessFile_within_bounds m)
       (@RandomAccessFile_arguments)
  /\ forwards_arguments (@CompositeWritableFileWrapper.invoke)
       (fun this _ _ => is_Some (CompositeWritableFileWrapper.target_ this))
       (@WritableFile_arguments)
  /\ forwards_arguments (@CompositeRandomRWFileWrapper.invoke)
       (fun this _ _ => is_Some (CompositeRandomRWFileWrapper.target_ this))
       (@RandomRWFile_arguments)
  /\ forwards_arguments (@CompositeDirectoryWrapper.invoke)
       (fun this _ _ => is_Some (CompositeDirectoryWrapper.target_ this))
       (@Directory_arguments).
Proof.
  split_and!.
  - intros X m [target_] [target ?]; simplify_eq/=.
    eapply calls_once_impl; [|apply CompositeSequentialFileWrapper_carries].
    by intros ? ? [_ ?].
  - intros X m [target_] [[target ?] Hbounds]; simplify_eq/=.
    eapply calls_once_impl;
      [|by apply CompositeRandomAccessFileWrapper_carries].
    by intros ? ? [_ ?].
  - intros X m [target_] [target ?]; simplify_eq/=.
    eapply calls_once_impl; [|apply CompositeWritableFileWrapper_carries].
    by intros ? ? [_ ?].
  - intros X m [target_] [target ?]; simplify_eq/=.
    eapply calls_once_impl; [|apply CompositeRandomRWFileWrapper_carries].
    by intros ? ? [_ ?].
  - intros X m [target_] [target ?]; simplify_eq/=.
    eapply calls_once_impl; [|apply CompositeDirectoryWrapper_carries].
    by intros ? ? [_ ?].
Qed.

Ltac relays_by_computation b s :=
  simpl;
  match goal with |- context [b ?Y ?c s] => exists Y, c end;
  match goal with
  | |- context [b ?Y ?c s] =>
      let x := fresh "x" in
      let s' := fresh "s'" in
      destruct (b Y c s) as [x s']
  end;
  repeat match goal with x : (_ * _)%type |- _ => destruct x end;
  eexists; by split_and!.

(** Every legacy method returns to its caller what the one call it made
    handed back, the debug context apart: the status as it is, failure
    or not, the result slice, the flag, the size; for a batched read the
    call-level status and the result and status of each request.  The
    FileSystem side is left as that one call left it. *)
Theorem results_are_relayed :
  relays_results (@CompositeSequentialFileWrapper.invoke)
    (fun this _ _ => is_Some (CompositeSequentialFileWrapper.target_ this))
    (@SequentialFile_returns)
  /\ relays_results (@CompositeRandomAccessFileWrapper.invoke)
       (fun this _ m =>
          is_Some (CompositeRandomAccessFileWrapper.target_ this)
          /\ RandomAccessFile_within_bounds m)
       (@RandomAccessFile_returns)
  /\ relays_results (@CompositeWritableFileWrapper.invoke)
       (fun this _ _ => is_Some (CompositeWritableFileWrapper.target_ this))
       (@WritableFile_returns)
  /\ relays_results (@CompositeRandomRWFileWrapper.invoke)
       (fun this _ _ => is_Some (CompositeRandomRWFileWrapper.target_ this))
       (@RandomRWFile_returns)
  /\ relays_results (@CompositeDirectoryWrapper.invoke)
       (fun this _ _ => is_Some (CompositeDirectoryWrapper.target_ this))
       (@Directory_returns).
Proof.
  split_and!.
  - intros X m [target_] [target ?] S b s; simplify_eq/=.
    destruct m; relays_by_computation b s.
  - intros X m [target_] [[target ?] Hbounds] S b s; simplify_eq/=.
    destruct m as [| reqs num_reqs | | | | | |];
      try relays_by_computation b s.
    simpl in Hbounds. cbv zeta.
    change (CompositeRandomAccessFileWrapper.invoke
              (RandomAccessFile.MultiRead reqs num_reqs))
      with (CompositeRandomAccessFileWrapper.MultiRead reqs num_reqs).
    rewrite MultiRead_run by done. cbv zeta.
    match goal with |- context [b ?Y ?c s] => exists Y, c end.
    assert (Hlen := modern_requests_length reqs _ Hbounds).
    destruct (b _ _ s) as [[[status fs_reqs'] dbg'] s'].
    eexists. split_and!; [done..|]. simpl. do 2 f_equal.
    symmetry. apply batch_outcomes; [|done].
    by rewrite length_vec_to_list.
  - intros X m [target_] [target ?] S b s; simplify_eq/=.
    destruct m; relays_by_computation b s.
  - intros X m [target_] [target ?] S b s; simplify_eq/=.
    destruct m; relays_by_computation b s.
  - intros X m [target_] [target ?] S b s; simplify_eq/=.
    destruct m; relays_by_computation b s.
Qed.

(** ** One FileSystem call for each legacy call *)

Section one_to_one.
Context {W : Type} {M : Type -> Type}.
Variable invoke : forall X : Type, M X -> method W X.
Variable defined : W -> forall X : Type, M X -> Prop.
Variable P : W -> forall X : Type, M X -> forall Y : Type, FSCall Y -> Prop.
Hypothesis invoke_calls_once :
  forall (X : Type) (m : M X) (this : W),
    defined this X m -> calls_once (P this X m) this (invoke X m this).

Lemma calling_once_is_one_to_one : one_to_one invoke defined P.
Proof using invoke_calls_once.
  intros ms this Hdefined S b. induction Hdefined as [|[X m] ms Hm _ IH];
    intros s; simpl.
  - split; [done|constructor].
  - unfold mbind, method_bind. rewrite run_bind. cbv zeta.
    destruct (calls_once_run _ _ _ b s (invoke_calls_once X m this Hm))
      as (Y & c & r & HP & -> & -> & _).
    destruct (IH (final (run b (invoke X m this) s))) as [-> Hrest].
    simpl. split; [done|]. by constructor.
Qed.
End one_to_one.

(** A sequence of legacy calls on one wrapper that holds a handle
    returns, with the wrapper unchanged, whatever statuses the calls
    came back with; and it reaches the FileSystem side with exactly one
    call per legacy call, in the order of the legacy calls, each on the
    wrapped handle and each carrying the arguments of its legacy call
    and default-constructed options: nothing is batched across calls,
    repeated, skipped or reordered.  (For the random-access file, each
    batched read in the sequence must hold the requests it
    announces.) *)
Theorem legacy_calls_map_one_to_one :
  one_to_one (@CompositeSequentialFileWrapper.invoke)
    (fun this _ _ => is_Some (CompositeSequentialFileWrapper.target_ this))
    (fun this X m =>
       carries
         (SequentialFileAt <$> CompositeSequentialFileWrapper.target_ this)
         (SequentialFile_takes_context m) false (SequentialFile_arguments m))
  /\ one_to_one (@CompositeRandomAccessFileWrapper.invoke)
       (fun this _ m =>
          is_Some (CompositeRandomAccessFileWrapper.target_ this)
          /\ RandomAccessFile_within_bounds m)
       (fun this X m =>
          carries
            (RandomAccessFileAt
             <$> CompositeRandomAccessFileWrapper.target_ this)
            (RandomAccessFile_takes_context m) false
            (RandomAccessFile_arguments m))
  /\ one_to_one (@CompositeWritableFileWrapper.invoke)
       (fun this _ _ => is_Some (CompositeWritableFileWrapper.target_ this))
       (fun this X m =>
          carries
            (WritableFileAt <$> CompositeWritableFileWrapper.target_ this)
            (WritableFile_takes_context m) (WritableFile_is_close m)
            (WritableFile_arguments m))
  /\ one_to_one (@CompositeRandomRWFileWrapper.invoke)
       (fun this _ _ => is_Some (CompositeRandomRWFileWrapper.target_ this))
       (fun this X m =>
          carries
            (RandomRWFileAt <$> CompositeRandomRWFileWrapper.target_ this)
            (RandomRWFile_takes_context m) (RandomRWFile_is_close m)
            (RandomRWFile_arguments m))
  /\ one_to_one (@CompositeDirectoryWrapper.invoke)
       (fun this _ _ => is_Some (CompositeDirectoryWrapper.target_ this))
       (fun this X m =>
          carries (DirectoryAt <$> CompositeDirectoryWrapper.target_ this)
            (Directory_takes_context m) false (Directory_arguments m)).
Proof.
  split_and!; apply calling_once_is_one_to_one.
  - intros X m [target_] [target ?]; simplify_eq/=.
    apply CompositeSequentialFileWrapper_carries.
  - intros X m [target_] [[target ?] Hbounds]; simplify_eq/=.
    by apply CompositeRandomAccessFileWrapper_carries.
  - intros X m [target_] [target ?]; simplify_eq/=.
    apply CompositeWritableFileWrapper_carries.
  - intros X m [target_] [target ?]; simplify_eq/=.
    apply CompositeRandomRWFileWrapper_carries.
  - intros X m [target_] [target ?]; simplify_eq/=.
    apply CompositeDirectoryWrapper_carries.
Qed.

(** Three calls in a row reach the handle as three calls, in order. *)
Example three_calls_in_order :
  on_event (@call_arguments)
  <$> trace
        (run (test_double not_found)
           (invoke_all (@CompositeWritableFileWrapper.invoke)
              [existT _ (WritableFile.Truncate 8%N);
               existT _ (WritableFile.Append {| data_ := 64%N; size_ := 3%N |});
               existT _ WritableFile.Close]
              sample_writable_file) WLTH_NOT_SET)
  = [[ArgNumber 8%N]; [ArgData {| data_ := 64%N; size_ := 3%N |}]; []].
Proof. reflexivity. Qed.

(** ** A creation that succeeds without a handle *)

(** A creation method looks at the status alone.  When the FileSystem
    creation call answers ok but leaves the handle empty, the caller
    still gets a wrapper in its output parameter, one that wraps the
    empty pointer; no legacy operation on that wrapper is defined, and
    none reaches the FileSystem side. *)
Theorem creation_without_a_handle
        {S H W : Type} (b : backend S) (s : S) (file_system : FileSystem)
        (m : Env.method H W) (r : unique_ptr (implementation W))
        (status : IOStatus) (dbg : IODebugContext) (s' : S) :
  let this := CompositeEnv.mk (Some file_system) in
  b _ (matching_call file_system m) s = (status, nullptr, dbg, s') ->
  Status.ok status = true ->
  exists w : W,
    returned (run b (CompositeEnv.invoke m r this) s)
    = Some (status, Some (Composite w), this)
    /\ wrapped m w = nullptr
    /\ unusable m w.
Proof.
  intros this Hanswer Hok. subst this.
  destruct (creation_run b s file_system m r) as (wrap & Hwrap & Hrun).
  cbv zeta in Hrun. rewrite Hanswer, Hok in Hrun.
  exists (wrap nullptr). split_and!; [by rewrite Hrun|done|].
  specialize (Hwrap nullptr).
  assert (Hnone : forall (W' R : Type) (P : forall X : Type, FSCall X -> Prop)
                         (this : W') (p : io (R * W')),
             (forall X c, P X c -> False) -> delegates P this p -> p = UB).
  { intros W' R P this p HP [->|(X & c & k & _ & Hc & _)]; [done|].
    destruct (HP X c Hc). }
  destruct m; simpl in *; destruct (wrap nullptr) as [w];
    simpl in Hwrap; subst w; intros X l.
  - eapply Hnone; [|apply CompositeSequentialFileWrapper_delegates].
    by intros ? ? [? _].
  - eapply Hnone; [|apply CompositeRandomAccessFileWrapper_delegates].
    by intros ? ? [? _].
  - eapply Hnone; [|apply CompositeWritableFileWrapper_delegates].
    by intros ? ? [? _].
  - eapply Hnone; [|apply CompositeWritableFileWrapper_delegates].
    by intros ? ? [? _].
  - eapply Hnone; [|apply CompositeWritableFileWrapper_delegates].
    by intros ? ? [? _].
  - eapply Hnone; [|apply CompositeRandomRWFileWrapper_delegates].
    by intros ? ? [? _].
  - eapply Hnone; [|apply CompositeDirectoryWrapper_delegates].
    by intros ? ? [? _].
Qed.

Lemma creation_without_a_handle_witness :
  Status.ok IOStatus.OK = true
  /\ exists w : CompositeRandomRWFileWrapper.t,
      returned
        (run hollow_double
           (CompositeEnv.NewRandomRWFile "LOCK" nullptr sample_options
              sample_env) WLTH_NOT_SET)
      = Some (IOStatus.OK, Some (Composite w), sample_env)
      /\ CompositeRandomRWFileWrapper.target_ w = nullptr.
Proof.
  split; [reflexivity|].
  destruct (creation_without_a_handle hollow_double WLTH_NOT_SET
              (FileSystem.At 1) (Env.NewRandomRWFile "LOCK" sample_options)
              nullptr IOStatus.OK IODebugContext_ctor WLTH_NOT_SET
              eq_refl eq_refl)
    as (w & Hret & Hwrapped & _).
  exists w. split; [exact Hret|exact Hwrapped].
Defined.
